(** * dotLOG: a shallow embedding of the timestamp-appending pipeline

    The development follows the TypeScript sources file by file:
    [types/index.ts], [services/timestampService.ts],
    [services/contentAnalyzer.ts], [services/errorLogger.ts],
    [services/errorRecovery.ts], [services/documentEditor.ts],
    [handlers/*.ts], [services/fileMonitor.ts] and [extension.ts].

    Conventions of the embedding.
    - A JavaScript string is a [string] whose characters are UTF-16 code
      units below 256 (the Latin-1 range).
    - The host (VS Code) is a component of the [World] record: the live
      document, the active editor, the clock, the outcome of each
      [applyEdit] request, the file-system [stat] answer and the registry
      of document-open listeners.
    - A method that reads or changes the host, the logger or the recovery
      service is a computation in the monad [M]; an exception is the
      [Threw] outcome, and [try_catch] is the [try]/[catch] block.
    - A world holds one document, the one the open event is about; its
      line ends are LF, and every edit request is about it.
    - [await] is sequencing: one document-open event runs to completion.
      Delays and time-outs have no duration; a timed-out edit is an
      [applyEdit] request that throws and leaves the buffer alone.
    - The services are wired as [activate] wires them: the handlers call
      the [DocumentEditor], the monitor the [ContentAnalyzer] and the
      [TimestampService].
    - The [context] records handed to the logger, and the wall-clock stamp
      of a log line, are not represented. *)

From Stdlib Require Import ZArith Ascii String DecimalString DecimalZ Bool Lia.
From stdpp Require Import base option list strings gmap.

Local Open Scope Z_scope.

(** ** JavaScript string primitives *)

Module JS.

Definition codeUnit (c : ascii) : N := N_of_ascii c.

(** WhiteSpace and LineTerminator code units below 256, the characters
    [String.prototype.trim] strips: TAB, LF, VT, FF, CR, SP and NBSP. *)
Definition isWhiteSpace (c : ascii) : bool :=
  let n := codeUnit c in
  ((9 <=? n) && (n <=? 13) || (n =? 32) || (n =? 160))%N.

Fixpoint trimStart (s : string) : string :=
  match s with
  | EmptyString => EmptyString
  | String c s' => if isWhiteSpace c then trimStart s' else s
  end.

Fixpoint trimEnd (s : string) : string :=
  match s with
  | EmptyString => EmptyString
  | String c s' =>
      match trimEnd s' with
      | EmptyString => if isWhiteSpace c then EmptyString else String c EmptyString
      | t => String c t
      end
  end.

Definition trim (s : string) : string := trimEnd (trimStart s).

(** [toLowerCase] on code units below 256: A-Z, and the Latin-1 capitals
    U+00C0-U+00DE except the multiplication sign U+00D7. *)
Definition lowerChar (c : ascii) : ascii :=
  let n := codeUnit c in
  if ((65 <=? n) && (n <=? 90) || (192 <=? n) && (n <=? 222) && negb (n =? 215))%N
  then ascii_of_N (n + 32) else c.

Fixpoint toLowerCase (s : string) : string :=
  match s with
  | EmptyString => EmptyString
  | String c s' => String (lowerChar c) (toLowerCase s')
  end.

Definition isEmpty (s : string) : bool :=
  match s with EmptyString => true | _ => false end.

Definition strlen (s : string) : Z := Z.of_nat (String.length s).

Fixpoint endsWith (s suffix : string) : bool :=
  String.eqb s suffix ||
  match s with
  | EmptyString => false
  | String _ s' => endsWith s' suffix
  end.

Definition startsWith (s pre : string) : bool := String.prefix pre s.

Fixpoint hasChar (c : ascii) (s : string) : bool :=
  match s with
  | EmptyString => false
  | String d s' => Ascii.eqb c d || hasChar c s'
  end.

(** [s.lastIndexOf(c)], with [-1] when [c] does not occur. *)
Fixpoint lastIndexOf (c : ascii) (s : string) : Z :=
  match s with
  | EmptyString => -1
  | String d s' =>
      let r := lastIndexOf c s' in
      if 0 <=? r then r + 1 else if Ascii.eqb c d then 0 else -1
  end.

(** [s.substring(start)] for a [start] inside the string. *)
Definition substringFrom (start : Z) (s : string) : string :=
  String.substring (Z.to_nat start) (String.length s - Z.to_nat start) s.

Fixpoint repeatChar (n : nat) (c : ascii) : string :=
  match n with
  | O => EmptyString
  | S k => String c (repeatChar k c)
  end.

(** [s.padStart(n, c)] with a one-character filler. *)
Definition padStart (n : nat) (c : ascii) (s : string) : string :=
  repeatChar (n - String.length s) c +:+ s.

(** [String(z)] for an integer-valued number. *)
Definition ofNumber (z : Z) : string := NilZero.string_of_int (Z.to_int z).

(** [a || b] on strings: the empty string is falsy. *)
Definition orElse (a b : string) : string := if isEmpty a then b else a.

(** [content.split('\n')] and [lines.join('\n')]. *)
Fixpoint splitLines (s : string) : list string :=
  match s with
  | EmptyString => [EmptyString]
  | String c s' =>
      if Ascii.eqb c "010" then EmptyString :: splitLines s'
      else match splitLines s' with
           | l :: ls => String c l :: ls
           | [] => [String c EmptyString]
           end
  end.

Fixpoint joinLines (ls : list string) : string :=
  match ls with
  | [] => EmptyString
  | [l] => l
  | l :: ls' => l +:+ String "010" (joinLines ls')
  end.

(** The leftmost match of the regular expression [/\.([^.]+)$/]: its
    capture group, the non-empty dot-free text after the last dot. *)
Fixpoint matchExtension (s : string) : option string :=
  match s with
  | EmptyString => None
  | String c s' =>
      if Ascii.eqb c "." && negb (isEmpty s') && negb (hasChar "." s')
      then Some s' else matchExtension s'
  end.

(** [array.slice(start)]: a negative [start] counts from the end. *)
Definition sliceFrom {A} (start : Z) (l : list A) : list A :=
  let len := Z.of_nat (length l) in
  let from := if start <? 0 then Z.max (len + start) 0 else Z.min start len in
  drop (Z.to_nat from) l.

End JS.

(** ** Anchored patterns, for the shapes the test-suite checks by regex *)

Module Pattern.

Inductive atom : Type :=
| Digit                      (* \d *)
| Lit (c : ascii)            (* a literal character *)
| OneOf (c d : ascii).       (* (c|d) *)

Definition isDigit (c : ascii) : bool :=
  let n := JS.codeUnit c in ((48 <=? n) && (n <=? 57))%N.

Definition matchAtom (a : atom) (c : ascii) : bool :=
  match a with
  | Digit => isDigit c
  | Lit d => Ascii.eqb c d
  | OneOf d e => Ascii.eqb c d || Ascii.eqb c e
  end.

(** [matches p s]: the whole of [s] matches [^p$]. *)
Fixpoint matches (p : list atom) (s : string) : bool :=
  match p, s with
  | [], EmptyString => true
  | a :: p', String c s' => matchAtom a c && matches p' s'
  | _, _ => false
  end.

(** [\d{4}-\d{2}-\d{2} \d{2}:\d{2}] *)
Definition timestamp24 : list atom :=
  [Digit; Digit; Digit; Digit; Lit "-"; Digit; Digit; Lit "-"; Digit; Digit;
   Lit " "; Digit; Digit; Lit ":"; Digit; Digit].

(** [\d{4}-\d{2}-\d{2} \d{2}:\d{2} (AM|PM)], the regex of the test suites *)
Definition timestamp12 : list atom :=
  timestamp24 ++ [Lit " "; OneOf "A" "P"; Lit "M"].

End Pattern.

(** ** types/index.ts *)

Inductive SupportedFileType : Type := TEXT | LOG | MARKDOWN.

(** The run-time value of an enum member is its string. *)
Definition fileTypeValue (t : SupportedFileType) : string :=
  match t with TEXT => "txt" | LOG => "log" | MARKDOWN => "md" end.

Inductive ProcessingState : Type :=
  NOT_STARTED | IN_PROGRESS | COMPLETED | FAILED | SKIPPED.

Inductive ErrorCode : Type :=
| FILE_READ_ERROR
| FILE_WRITE_ERROR
| PERMISSION_DENIED
| DOCUMENT_MODIFICATION_FAILED
| UNSUPPORTED_FILE_TYPE
| CONTENT_ANALYSIS_FAILED
| TIMESTAMP_GENERATION_FAILED
| CURSOR_POSITIONING_FAILED
| UNKNOWN_ERROR
(* [OperationResult.errorCode] is a plain string: the monitor uses three
   codes that are not members of the enum. *)
| MONITOR_ALREADY_ACTIVE
| MONITOR_NOT_ACTIVE
| MONITOR_START_FAILED
| MONITOR_STOP_FAILED.

Inductive LogLevel : Type := DEBUG | INFO | WARN | ERROR.

Record ProcessingResult : Type := {
  pr_success : bool;
  pr_error : option string;
  pr_documentModified : bool;
  pr_processingState : ProcessingState;
  pr_timestamp : option string
}.

Record OperationResult (T : Type) : Type := {
  success : bool;
  data : option T;
  error : option string;
  errorCode : option ErrorCode
}.
Arguments success {T} _.
Arguments data {T} _.
Arguments error {T} _.
Arguments errorCode {T} _.

Definition opSuccess {T} (x : T) : OperationResult T :=
  {| success := true; data := Some x; error := None; errorCode := None |}.

Definition opFailure {T} (msg : string) (code : ErrorCode) : OperationResult T :=
  {| success := false; data := None; error := Some msg; errorCode := Some code |}.

Record ExtensionError : Type := {
  ee_message : string;
  ee_code : ErrorCode
}.

(** ** The host's document model *)

Record Uri : Type := {
  scheme : string;
  uriString : string            (* the value of [uri.toString()] *)
}.

Record TextDocument : Type := {
  fileName : string;
  languageId : string;
  uri : Uri;
  isUntitled : bool;
  isDirty : bool;
  isClosed : bool;
  lines : list string           (* [lineAt(i).text], for [0 <= i < lineCount] *)
}.

Definition lineCount (d : TextDocument) : Z := Z.of_nat (length (lines d)).

(** [document.lineAt(i).text]; [None] stands for the exception the host
    raises on a line number outside the document. *)
Definition lineAt (d : TextDocument) (i : Z) : option string :=
  if (0 <=? i) then lines d !! Z.to_nat i else None.

(** [document.getText()] of a document with LF line ends. *)
Definition getText (d : TextDocument) : string := JS.joinLines (lines d).

Record Position : Type := { line : Z; character : Z }.

(** A [Date], read through its local-time getters. *)
Record JSDate : Type := {
  getFullYear : Z;
  getMonth : Z;                 (* 0 .. 11 *)
  getDate : Z;                  (* 1 .. 31 *)
  getHours : Z;                 (* 0 .. 23 *)
  getMinutes : Z                (* 0 .. 59 *)
}.

Definition validDate (d : JSDate) : Prop :=
  0 <= getMonth d <= 11 /\ 1 <= getDate d <= 31 /\
  0 <= getHours d <= 23 /\ 0 <= getMinutes d <= 59.

(** ** services/timestampService.ts (pure part) *)

Module TimestampService.

Definition formatTimestamp (date : JSDate) : string :=
  let year := getFullYear date in
  let month := JS.padStart 2 "0" (JS.ofNumber (getMonth date + 1)) in
  let day := JS.padStart 2 "0" (JS.ofNumber (getDate date)) in
  let hours24 := getHours date in
  let hours12 :=
    if hours24 =? 0 then 12 else if 12 <? hours24 then hours24 - 12 else hours24 in
  let ampm := if 12 <=? hours24 then "PM" else "AM" in
  let hours := JS.padStart 2 "0" (JS.ofNumber hours12) in
  let minutes := JS.padStart 2 "0" (JS.ofNumber (getMinutes date)) in
  JS.ofNumber year +:+ "-" +:+ month +:+ "-" +:+ day +:+ " " +:+
  hours +:+ ":" +:+ minutes +:+ " " +:+ ampm.

End TimestampService.

(** ** services/contentAnalyzer.ts *)

Module ContentAnalyzer.

Definition LOG_PREFIX : string := ".LOG".
Definition SUPPORTED_EXTENSIONS : gset string := {[ "txt"; "log"; "md" ]}.

(** [lineAt] cannot throw after the [lineCount] test, and nothing else in
    the body can, so the [catch] branch is dead in this model; it is kept
    as the [None] case. *)
Definition isLogFile (document : TextDocument) : bool :=
  if lineCount document =? 0 then false
  else match lineAt document 0 with
       | Some text => String.eqb (JS.trim text) LOG_PREFIX
       | None => false
       end.

Definition getFileType (document : TextDocument) : option SupportedFileType :=
  let fromExtension :=
    match JS.matchExtension (fileName document) with
    | Some captured =>
        let extension := JS.toLowerCase captured in
        if bool_decide (extension ∈ SUPPORTED_EXTENSIONS) then
          if String.eqb extension "txt" then Some TEXT
          else if String.eqb extension "log" then Some LOG
          else if String.eqb extension "md" then Some MARKDOWN
          else None
        else None
    | None => None
    end in
  match fromExtension with
  | Some t => Some t
  | None =>
      let languageId := languageId document in
      if String.eqb languageId "plaintext" then Some TEXT
      else if String.eqb languageId "log" then Some LOG
      else if String.eqb languageId "markdown" then Some MARKDOWN
      else None
  end.

Definition shouldProcessDocument (document : TextDocument) : bool :=
  if lineCount document =? 0 then false
  else match lineAt document 0 with
       | Some text =>
           let firstLine := JS.trim text in
           let hasLogPrefix := String.eqb firstLine LOG_PREFIX in
           let fileType := getFileType document in
           let isSupportedType := bool_decide (fileType <> None) in
           hasLogPrefix && isSupportedType
       | None => false
       end.

Record DocumentContext : Type := {
  dc_fileType : SupportedFileType;
  dc_timestamp : string;
  dc_shouldProcess : bool;
  dc_processingState : ProcessingState
}.

Definition analyzeContent (document : TextDocument) : OperationResult DocumentContext :=
  match getFileType document with
  | None => opFailure "Unsupported file type" UNSUPPORTED_FILE_TYPE
  | Some fileType =>
      let shouldProcess := shouldProcessDocument document in
      opSuccess {| dc_fileType := fileType;
                   dc_timestamp := "";
                   dc_shouldProcess := shouldProcess;
                   dc_processingState :=
                     if shouldProcess then NOT_STARTED else SKIPPED |}
  end.

End ContentAnalyzer.

(** ** The world: host, logger, recovery service and monitor *)

Record TextEditor : Type := {
  te_documentUri : Uri;                      (* [editor.document.uri] *)
  te_selection : Position * Position;        (* anchor, active *)
  te_revealed : option Position              (* the last [revealRange] *)
}.

(** What the host answers to one [workspace.applyEdit] request: the edit
    is applied ([true]), it is refused ([false]), or the promise rejects
    or loses the race against the time-out. *)
Inductive EditOutcome : Type :=
| EditApplied
| EditRefused
| EditThrew (message : string).

Record FileStat : Type := {
  st_readonly : bool;            (* [permissions & FilePermission.Readonly] *)
  st_isDirectory : bool          (* [type === FileType.Directory] *)
}.

Record ErrorLoggerState : Type := {
  outputChannel : option (list string);      (* lines of the output channel *)
  logLevel : LogLevel;
  errorHistory : list ExtensionError
}.

Record FileMonitorState : Type := {
  disposable : option nat;       (* the subscription returned by the host *)
  isActive : bool
}.

(** [vscode.workspace]: the opened document, the edit service, the file
    system and the document-open event. *)
Record Workspace : Type := {
  document : TextDocument;
  applyEditOracle : nat -> EditOutcome;       (* answer to the n-th request *)
  editRequests : nat;                         (* requests made so far *)
  fsStat : FileStat + string;                 (* [fs.stat]: a stat or a throw *)
  openListeners : list nat;                   (* [onDidOpenTextDocument] *)
  nextListener : nat
}.

(** [vscode.window] *)
Record Window : Type := {
  activeTextEditor : option TextEditor;
  statusBar : list string                     (* [setStatusBarMessage] *)
}.

Record World : Type := {
  workspace : Workspace;
  window : Window;
  now : JSDate;                               (* [new Date()] *)
  logger : ErrorLoggerState;                  (* [ErrorLogger.getInstance()] *)
  retryAttempts : gmap string nat;            (* [ErrorRecoveryService] *)
  monitor : FileMonitorState                  (* the [FileMonitor] instance *)
}.

Definition set_workspace (x : Workspace) (w : World) : World :=
  {| workspace := x; window := window w; now := now w; logger := logger w;
     retryAttempts := retryAttempts w; monitor := monitor w |}.

Definition set_window (x : Window) (w : World) : World :=
  {| workspace := workspace w; window := x; now := now w; logger := logger w;
     retryAttempts := retryAttempts w; monitor := monitor w |}.

Definition set_logger (l : ErrorLoggerState) (w : World) : World :=
  {| workspace := workspace w; window := window w; now := now w; logger := l;
     retryAttempts := retryAttempts w; monitor := monitor w |}.

Definition set_retryAttempts (m : gmap string nat) (w : World) : World :=
  {| workspace := workspace w; window := window w; now := now w; logger := logger w;
     retryAttempts := m; monitor := monitor w |}.

Definition set_monitor (m : FileMonitorState) (w : World) : World :=
  {| workspace := workspace w; window := window w; now := now w; logger := logger w;
     retryAttempts := retryAttempts w; monitor := m |}.

(** The document the event is about: the methods' [document] argument is
    a reference to this live object. *)
Abbreviation theDocument w := (document (workspace w)).

Definition edited (d : TextDocument) (ws : Workspace) : Workspace :=
  {| document := d; applyEditOracle := applyEditOracle ws;
     editRequests := editRequests ws; fsStat := fsStat ws;
     openListeners := openListeners ws; nextListener := nextListener ws |}.

Definition requested (ws : Workspace) : Workspace :=
  {| document := document ws; applyEditOracle := applyEditOracle ws;
     editRequests := S (editRequests ws); fsStat := fsStat ws;
     openListeners := openListeners ws; nextListener := nextListener ws |}.

Definition listening (ls : list nat) (next : nat) (ws : Workspace) : Workspace :=
  {| document := document ws; applyEditOracle := applyEditOracle ws;
     editRequests := editRequests ws; fsStat := fsStat ws;
     openListeners := ls; nextListener := next |}.

(** ** The monad of methods: state and exceptions *)

Inductive Outcome (A : Type) : Type :=
| Returned (a : A)
| Threw (message : string).
Arguments Returned {A} _.
Arguments Threw {A} _.

Definition M (A : Type) : Type := World -> Outcome A * World.

Definition ret {A} (a : A) : M A := fun w => (Returned a, w).

Definition bind {A B} (m : M A) (k : A -> M B) : M B :=
  fun w => match m w with
           | (Returned a, w') => k a w'
           | (Threw e, w') => (Threw e, w')
           end.

Definition throw {A} (message : string) : M A := fun w => (Threw message, w).

(** [try { body } catch (error) { handler(error.message) }] *)
Definition try_catch {A} (body : M A) (handler : string -> M A) : M A :=
  fun w => match body w with
           | (Returned a, w') => (Returned a, w')
           | (Threw e, w') => handler e w'
           end.

Definition gets {A} (f : World -> A) : M A := fun w => (Returned (f w), w).
Definition modify (f : World -> World) : M unit := fun w => (Returned tt, f w).

Notation "'let*' x ':=' c1 'in' c2" := (bind c1 (fun x => c2))
  (at level 10, x name, c1 at level 100, c2 at level 200).
Notation "c1 '>>' c2" := (bind c1 (fun _ => c2))
  (at level 100, c2 at level 200, right associativity).

(** The value a method returns and the world it leaves. *)
Definition result {A} (r : Outcome A * World) : Outcome A := fst r.
Definition after {A} (r : Outcome A * World) : World := snd r.

(** ** services/errorLogger.ts *)

Module ErrorLogger.

Definition maxHistorySize : nat := 100.

Definition levelIndex (l : LogLevel) : nat :=
  match l with DEBUG => 0 | INFO => 1 | WARN => 2 | ERROR => 3 end%nat.

Definition shouldLog (messageLevel : LogLevel) (l : ErrorLoggerState) : bool :=
  (levelIndex (logLevel l) <=? levelIndex messageLevel)%nat.

Definition writeToOutput (level message : string) (l : ErrorLoggerState)
  : ErrorLoggerState :=
  match outputChannel l with
  | None => l
  | Some channel =>
      {| outputChannel := Some (channel ++ [level +:+ ": " +:+ message]);
         logLevel := logLevel l; errorHistory := errorHistory l |}
  end.

Definition addToHistory (e : ExtensionError) (l : ErrorLoggerState)
  : ErrorLoggerState :=
  let pushed := errorHistory l ++ [e] in
  {| outputChannel := outputChannel l; logLevel := logLevel l;
     errorHistory :=
       if (maxHistorySize <? length pushed)%nat
       then drop (length pushed - maxHistorySize) pushed else pushed |}.

Definition logErrorState (message : string) (code : option ErrorCode)
    (l : ErrorLoggerState) : ErrorLoggerState :=
  let extensionError :=
    {| ee_message := message; ee_code := default UNKNOWN_ERROR code |} in
  let l := addToHistory extensionError l in
  if shouldLog ERROR l then writeToOutput "ERROR" message l else l.

Definition logAt (level : LogLevel) (tag message : string)
    (l : ErrorLoggerState) : ErrorLoggerState :=
  if shouldLog level l then writeToOutput tag message l else l.

Definition logError (message : string) (code : option ErrorCode) : M unit :=
  modify (fun w => set_logger (logErrorState message code (logger w)) w).

Definition logWarning (message : string) : M unit :=
  modify (fun w => set_logger (logAt WARN "WARN" message (logger w)) w).

Definition logInfo (message : string) : M unit :=
  modify (fun w => set_logger (logAt INFO "INFO" message (logger w)) w).

Definition logDebug (message : string) : M unit :=
  modify (fun w => set_logger (logAt DEBUG "DEBUG" message (logger w)) w).

Definition logPermissionError (operation filePath : string) : M unit :=
  logError ("Permission denied for " +:+ operation +:+ " on file: " +:+ filePath)
           (Some PERMISSION_DENIED).

Definition logDocumentModificationError (filePath operation : string)
    (recoveryAttempted : bool) : M unit :=
  logError ("Document modification failed: " +:+ operation +:+ " on " +:+ filePath)
           (Some DOCUMENT_MODIFICATION_FAILED) >>
  if negb recoveryAttempted
  then logInfo "Consider checking file permissions or if the file is read-only"
  else ret tt.

(** The queries and the life cycle of the logger, on its state. *)
Definition setLogLevel (level : LogLevel) (l : ErrorLoggerState) : ErrorLoggerState :=
  {| outputChannel := outputChannel l; logLevel := level;
     errorHistory := errorHistory l |}.

Definition getRecentErrors (count : Z) (l : ErrorLoggerState) : list ExtensionError :=
  JS.sliceFrom (- count) (errorHistory l).

Definition clearHistory (l : ErrorLoggerState) : ErrorLoggerState :=
  {| outputChannel := outputChannel l; logLevel := logLevel l; errorHistory := [] |}.

Definition dispose (l : ErrorLoggerState) : ErrorLoggerState :=
  {| outputChannel := None; logLevel := logLevel l; errorHistory := [] |}.

End ErrorLogger.

Arguments ErrorLogger.logErrorState : simpl never.
Arguments ErrorLogger.logAt : simpl never.

(** ** services/errorRecovery.ts *)

Module ErrorRecoveryService.

Definition maxRetries : nat := 3.
Definition retryDelayMs : Z := 500.

Definition failure {T} (msg : string) : OperationResult T :=
  opFailure msg DOCUMENT_MODIFICATION_FAILED.

Definition deleteKey (key : string) : M unit :=
  modify (fun w => set_retryAttempts (delete key (retryAttempts w)) w).

Definition setKey (key : string) (n : nat) : M unit :=
  modify (fun w => set_retryAttempts (<[key := n]> (retryAttempts w)) w).

(** [delay(ms)] takes no time in this model. *)
Definition delay (ms : Z) : M unit := ret tt.

Definition attemptMessage (operation : string) (currentAttempts : nat) : string :=
  "Attempting recovery for " +:+ operation +:+ " (attempt " +:+
  JS.ofNumber (Z.of_nat currentAttempts) +:+ "/" +:+
  JS.ofNumber (Z.of_nat maxRetries) +:+ ")".

Definition exhausted {T} (key operation : string) : M (OperationResult T) :=
  deleteKey key >>
  ret (failure ("Maximum retry attempts (" +:+ JS.ofNumber (Z.of_nat maxRetries)
                +:+ ") exceeded for " +:+ operation)).

(** One turn of the [try] block: [inl r] returns [r] from the method,
    [inr true] is [break] and [inr false] falls to the next iteration. *)
Definition attemptOnce {T} (key operation : string) (currentAttempts : nat)
    (retryFunction : M (OperationResult T))
  : M (OperationResult T + bool) :=
  try_catch
    (ErrorLogger.logInfo (attemptMessage operation currentAttempts) >>
     let* result := retryFunction in
     if success result then
       deleteKey key >>
       ErrorLogger.logInfo ("Recovery successful for " +:+ operation) >>
       ret (inl result)
     else if (maxRetries <=? currentAttempts)%nat then ret (inr true)
     else ret (inr false))
    (fun message =>
       if (maxRetries <=? currentAttempts)%nat then
         deleteKey key >> ret (inl (failure message))
       else ret (inr false)).

(** The [while (currentAttempts < maxRetries)] loop; [fuel] bounds the
    iterations and is [maxRetries - currentAttempts] at the call. *)
Fixpoint retryLoop {T} (fuel : nat) (key operation : string)
    (currentAttempts : nat) (retryFunction : M (OperationResult T))
  : M (OperationResult T) :=
  if negb (currentAttempts <? maxRetries)%nat then exhausted key operation
  else
    match fuel with
    | O => exhausted key operation
    | S fuel' =>
        let* closed := gets (fun w => isClosed (theDocument w)) in
        if closed then
          deleteKey key >>
          ret (failure "Document was closed during recovery attempt")
        else
          (if (0 <? currentAttempts)%nat
           then delay (retryDelayMs * Z.of_nat currentAttempts) else ret tt) >>
          let currentAttempts := S currentAttempts in
          setKey key currentAttempts >>
          let* step := attemptOnce key operation currentAttempts retryFunction in
          match step with
          | inl r => ret r
          | inr true => exhausted key operation
          | inr false => retryLoop fuel' key operation currentAttempts retryFunction
          end
    end.

Definition recoverFromDocumentModificationFailure {T} (operation : string)
    (originalError : string) (retryFunction : M (OperationResult T))
  : M (OperationResult T) :=
  let* document := gets (fun w => theDocument w) in
  let recoveryKey := uriString (uri document) +:+ "-" +:+ operation in
  let* attempts := gets (fun w => retryAttempts w !! recoveryKey) in
  let currentAttempts := default 0%nat attempts in
  ErrorLogger.logDocumentModificationError
    (fileName document) operation (0 <? currentAttempts)%nat >>
  retryLoop (maxRetries - currentAttempts) recoveryKey operation
            currentAttempts retryFunction.

Definition joinWords (ws : list string) : string :=
  match ws with
  | [] => ""
  | w :: ws' => fold_left (fun acc x => acc +:+ " " +:+ x) ws' w
  end.

Definition recoverFromPermissionError (filePath operation : string)
  : M (OperationResult string) :=
  ErrorLogger.logPermissionError operation filePath >>
  try_catch
    (let* answer := gets (fun w => fsStat (workspace w)) in
     match answer with
     | inr message => throw message
     | inl stat =>
         let suggestions :=
           (if st_readonly stat
            then ["File is marked as read-only. Consider changing file permissions."]
            else []) ++
           (if st_isDirectory stat
            then ["Target is a directory, not a file. Check the file path."]
            else []) ++
           ["Verify that VS Code has permission to modify this file.";
            "Check if the file is open in another application.";
            "Try saving the file manually first."] in
         ret {| success := true; data := Some (joinWords suggestions);
                error := None; errorCode := Some PERMISSION_DENIED |}
     end)
    (fun message =>
       ret (opFailure ("Cannot access file for recovery analysis: " +:+ message)
                      FILE_READ_ERROR)).

Definition showGracefulFailureNotification (fileName : string) : M unit :=
  modify (fun w =>
    set_window {| activeTextEditor := activeTextEditor (window w);
                  statusBar := statusBar (window w) ++
                    ["dotLOG: Could not add timestamp to " +:+ fileName] |} w).

Definition gracefulTimestampFailure (timestamp originalError : string)
  : M ProcessingResult :=
  let* document := gets (fun w => theDocument w) in
  ErrorLogger.logError
    ("Graceful failure: Could not insert timestamp into " +:+ fileName document)
    (Some DOCUMENT_MODIFICATION_FAILED) >>
  showGracefulFailureNotification (fileName document) >>
  ret {| pr_success := false;
         pr_error := Some ("Could not insert timestamp: " +:+ originalError);
         pr_documentModified := false;
         pr_processingState := FAILED;
         pr_timestamp := Some timestamp |}.

Definition gracefulCursorPositioningFailure (originalError : string)
  : M (OperationResult unit) :=
  ErrorLogger.logWarning
    "Cursor positioning failed but timestamp was inserted successfully" >>
  ret {| success := true; data := None;
         error := Some ("Cursor positioning failed: " +:+ originalError);
         errorCode := Some CURSOR_POSITIONING_FAILED |}.

Definition clearRetryHistory : M unit :=
  let* document := gets (fun w => theDocument w) in
  let documentUri := uriString (uri document) in
  modify (fun w =>
    set_retryAttempts
      (filter (fun kv => negb (JS.startsWith kv.1 documentUri) = true)
              (retryAttempts w)) w).

Definition getRetryStatistics : M (gmap string nat) := gets retryAttempts.

Definition dispose : M unit := modify (set_retryAttempts ∅).

End ErrorRecoveryService.

(** ** The host's edit and editor primitives *)

Record WorkspaceEdit : Type := {
  we_uri : Uri;
  we_position : Position;
  we_text : string
}.

(** The buffer after inserting [text] at [pos]: the addressed line is cut
    at the column, the text is spliced in and the result is split into
    lines again.  A position outside the buffer changes nothing. *)
Definition insertInto (ls : list string) (pos : Position) (text : string)
  : list string :=
  if (line pos <? 0) || (character pos <? 0) then ls
  else
    let i := Z.to_nat (line pos) in
    let c := Z.to_nat (character pos) in
    match ls !! i with
    | None => ls
    | Some l =>
        take i ls ++
        JS.splitLines (String.substring 0 c l +:+ text +:+
                       String.substring c (String.length l - c) l) ++
        drop (S i) ls
    end.

Definition editedDocument (d : TextDocument) (edit : WorkspaceEdit) : TextDocument :=
  {| fileName := fileName d; languageId := languageId d; uri := uri d;
     isUntitled := isUntitled d; isDirty := true; isClosed := isClosed d;
     lines := insertInto (lines d) (we_position edit) (we_text edit) |}.

(** [await Promise.race([vscode.workspace.applyEdit(edit), timeoutPromise])] *)
Definition applyEdit (edit : WorkspaceEdit) : M bool :=
  fun w =>
    let ws := workspace w in
    match applyEditOracle ws (editRequests ws) with
    | EditApplied =>
        (Returned true,
         set_workspace (edited (editedDocument (document ws) edit) (requested ws)) w)
    | EditRefused => (Returned false, set_workspace (requested ws) w)
    | EditThrew message => (Threw message, set_workspace (requested ws) w)
    end.

(** [document.lineAt(i).text] as a method call that may throw. *)
Definition lineAtText (i : Z) : M string :=
  let* document := gets (fun w => theDocument w) in
  match lineAt document i with
  | Some text => ret text
  | None => throw "Illegal value for `line`"
  end.

(** ** services/documentEditor.ts *)

Module DocumentEditor.

Definition maxRetries : nat := 1.
Definition editTimeoutMs : Z := 5000.

Definition canModifyDocument : M bool :=
  let* document := gets (fun w => theDocument w) in
  try_catch
    (ErrorLogger.logDebug "Checking if document can be modified" >>
     if isClosed document then
       ErrorLogger.logWarning "Document is closed and cannot be modified" >>
       ret false
     else if isUntitled document && negb (isDirty document) then
       ErrorLogger.logDebug "Document is untitled and can be modified" >>
       ret true
     else if String.eqb (scheme (uri document)) "file" then
       ErrorLogger.logDebug "Document is a file and assumed modifiable" >>
       ret true
     else
       let canModify := String.eqb (scheme (uri document)) "untitled" in
       ErrorLogger.logDebug "Document modification check completed" >>
       ret canModify)
    (fun message =>
       ErrorLogger.logError message None >> ret false).

Definition prepareTextForInsertion (document : TextDocument) (text : string)
  : string :=
  if lineCount document =? 0 then text
  else
    let lastLine := default "" (lineAt document (lineCount document - 1)) in
    let needsNewlineBefore := 0 <? JS.strlen lastLine in
    let needsNewlineAfter := negb (JS.endsWith text (String "010" "")) in
    let preparedText := text in
    let preparedText :=
      if needsNewlineBefore then String "010" preparedText else preparedText in
    let preparedText :=
      if needsNewlineAfter then preparedText +:+ String "010" "" else preparedText in
    preparedText.

(** The [for (attempt = 0; attempt <= maxRetries; attempt++)] loop;
    [fuel] is [maxRetries + 1 - attempt] at the call. *)
Fixpoint applyEditAttempts (fuel : nat) (attempt : nat) (edit : WorkspaceEdit)
  : M (OperationResult bool) :=
  let exceeded : M (OperationResult bool) :=
    ret (opFailure "Maximum retry attempts exceeded" DOCUMENT_MODIFICATION_FAILED) in
  if negb (attempt <=? maxRetries)%nat then exceeded
  else
    match fuel with
    | O => exceeded
    | S fuel' =>
        let* step :=
          try_catch
            (let* ok := applyEdit edit in
             if ok then ret (Some (opSuccess true))
             else if (attempt <? maxRetries)%nat then ret None
             else ret (Some (opFailure "Failed to apply document edit"
                                       DOCUMENT_MODIFICATION_FAILED)))
            (fun message =>
               if (attempt <? maxRetries)%nat then ret None
               else ret (Some (opFailure ("Edit operation failed: " +:+ message)
                                         DOCUMENT_MODIFICATION_FAILED))) in
        match step with
        | Some r => ret r
        | None => applyEditAttempts fuel' (S attempt) edit
        end
    end.

Definition applyEditWithRetry (edit : WorkspaceEdit) : M (OperationResult bool) :=
  applyEditAttempts (S maxRetries) 0 edit.

Definition applyEditWithRetryAndRecovery (edit : WorkspaceEdit)
  : M (OperationResult bool) :=
  let retryFunction := applyEditWithRetry edit in
  try_catch
    (let* result := retryFunction in
     if negb (success result) then
       let* recoveryResult :=
         ErrorRecoveryService.recoverFromDocumentModificationFailure "applyEdit"
           (JS.orElse (default "" (error result)) "Edit failed") retryFunction in
       (if success recoveryResult
        then ErrorLogger.logInfo "Successfully recovered from edit failure"
        else ret tt) >>
       ret recoveryResult
     else ret result)
    (fun message =>
       ErrorRecoveryService.recoverFromDocumentModificationFailure "applyEdit"
         message retryFunction).

Definition insertTextAtEnd (text : string) : M (OperationResult bool) :=
  try_catch
    (ErrorLogger.logDebug "Attempting to insert text at end of document" >>
     let* canModify := canModifyDocument in
     if negb canModify then
       let* document := gets (fun w => theDocument w) in
       let* permissionResult :=
         ErrorRecoveryService.recoverFromPermissionError
           (fileName document) "insertTextAtEnd" in
       ErrorLogger.logPermissionError "insertTextAtEnd" (fileName document) >>
       ret (opFailure
              ("Document is read-only or cannot be modified. " +:+
               (if success permissionResult
                then default "undefined" (data permissionResult) else ""))
              PERMISSION_DENIED)
     else
       let* document := gets (fun w => theDocument w) in
       let lastLine := lineCount document - 1 in
       let* lastLineText := lineAtText lastLine in
       let endPosition :=
         {| line := lastLine; character := JS.strlen lastLineText |} in
       let textToInsert := prepareTextForInsertion document text in
       let edit := {| we_uri := uri document; we_position := endPosition;
                      we_text := textToInsert |} in
       let* result := applyEditWithRetryAndRecovery edit in
       (if success result
        then ErrorLogger.logDebug "Successfully inserted text at end of document"
        else ret tt) >>
       ret result)
    (fun message =>
       let errorMessage := "Failed to insert text: " +:+ message in
       ErrorLogger.logError message (Some DOCUMENT_MODIFICATION_FAILED) >>
       ret (opFailure errorMessage DOCUMENT_MODIFICATION_FAILED)).

Definition positionCursorAtEnd : M (OperationResult unit) :=
  try_catch
    (ErrorLogger.logDebug "Attempting to position cursor at end of document" >>
     let* document := gets (fun w => theDocument w) in
     let* editor := gets (fun w => activeTextEditor (window w)) in
     match editor with
     | Some editor =>
         if negb (String.eqb (uriString (te_documentUri editor))
                             (uriString (uri document)))
         then
           let errorMessage := "No active editor found for the document" in
           ErrorLogger.logWarning errorMessage >>
           ret (opFailure errorMessage CURSOR_POSITIONING_FAILED)
         else
           let lastLine := lineCount document - 1 in
           let* lastLineText := lineAtText lastLine in
           let endPosition :=
             {| line := lastLine; character := JS.strlen lastLineText |} in
           modify (fun w =>
             set_window
               {| activeTextEditor :=
                    Some {| te_documentUri := te_documentUri editor;
                            te_selection := (endPosition, endPosition);
                            te_revealed := Some endPosition |};
                  statusBar := statusBar (window w) |} w) >>
           ErrorLogger.logDebug "Successfully positioned cursor at end of document" >>
           ret {| success := true; data := None; error := None; errorCode := None |}
     | None =>
         let errorMessage := "No active editor found for the document" in
         ErrorLogger.logWarning errorMessage >>
         ret (opFailure errorMessage CURSOR_POSITIONING_FAILED)
     end)
    (fun message =>
       ErrorRecoveryService.gracefulCursorPositioningFailure message).

End DocumentEditor.

(** ** services/timestampService.ts (the clock-reading part) *)

Module TimestampClock.

Definition generateTimestamp : M string :=
  let* date := gets now in
  ret (TimestampService.formatTimestamp date).

Definition getCurrentTimestamp : M (OperationResult string) :=
  try_catch
    (let* timestamp := generateTimestamp in ret (opSuccess timestamp))
    (fun message => ret (opFailure message TIMESTAMP_GENERATION_FAILED)).

End TimestampClock.

(** ** handlers/baseFileHandler.ts and the three concrete handlers *)

(** The abstract members of [BaseFileHandler]. *)
Record FileHandler : Type := {
  canHandle : TextDocument -> bool;
  getFileType : SupportedFileType;
  formatTimestamp : string -> string
}.

Module BaseFileHandler.

Definition getFileExtension (document : TextDocument) : string :=
  let fileName := fileName document in
  let lastDotIndex := JS.lastIndexOf "." fileName in
  if 0 <? lastDotIndex
  then JS.toLowerCase (JS.substringFrom (lastDotIndex + 1) fileName)
  else "".

Definition hasLogPrefix (document : TextDocument) : bool :=
  if lineCount document =? 0 then false
  else match lineAt document 0 with
       | Some text => String.eqb (JS.trim text) ".LOG"
       | None => false
       end.

(** The context records of the log calls, among them
    [fileType: this.getFileType()], are not represented: the logger
    receives the messages only. *)
Definition processDocument (this : FileHandler) (timestamp : string)
  : M ProcessingResult :=
  try_catch
    (ErrorLogger.logDebug "Processing document with file handler" >>
     let* canModify := DocumentEditor.canModifyDocument in
     if negb canModify then
       ErrorLogger.logWarning "Document cannot be modified" >>
       ret {| pr_success := false;
              pr_error := Some "Document is read-only or cannot be modified";
              pr_documentModified := false;
              pr_processingState := FAILED;
              pr_timestamp := None |}
     else
       let formattedTimestamp := formatTimestamp this timestamp in
       ErrorLogger.logDebug "Formatted timestamp for file type" >>
       let* insertResult := DocumentEditor.insertTextAtEnd formattedTimestamp in
       if negb (success insertResult) then
         let message :=
           JS.orElse (default "" (error insertResult)) "Failed to insert timestamp" in
         ErrorLogger.logError message None >>
         ErrorRecoveryService.gracefulTimestampFailure formattedTimestamp message
       else
         let* cursorResult := DocumentEditor.positionCursorAtEnd in
         (if negb (success cursorResult)
          then ErrorLogger.logWarning
                 "Timestamp inserted but cursor positioning failed"
          else ret tt) >>
         ErrorLogger.logInfo "Document processed successfully" >>
         ret {| pr_success := true;
                pr_error := None;
                pr_documentModified := true;
                pr_processingState := COMPLETED;
                pr_timestamp := Some formattedTimestamp |})
    (fun errorMessage =>
       ErrorLogger.logError errorMessage None >>
       ErrorRecoveryService.gracefulTimestampFailure timestamp errorMessage).

End BaseFileHandler.

Definition TextFileHandler : FileHandler := {|
  canHandle document :=
    String.eqb (BaseFileHandler.getFileExtension document) "txt" &&
    BaseFileHandler.hasLogPrefix document;
  getFileType := TEXT;
  formatTimestamp timestamp := String "010" timestamp +:+ String "010" ""
|}.

Definition LogFileHandler : FileHandler := {|
  canHandle document :=
    String.eqb (BaseFileHandler.getFileExtension document) "log" &&
    BaseFileHandler.hasLogPrefix document;
  getFileType := LOG;
  formatTimestamp timestamp := String "010" timestamp +:+ String "010" ""
|}.

Definition MarkdownFileHandler : FileHandler := {|
  canHandle document :=
    String.eqb (BaseFileHandler.getFileExtension document) "md" &&
    BaseFileHandler.hasLogPrefix document;
  getFileType := MARKDOWN;
  formatTimestamp timestamp := String "010" ("## " +:+ timestamp) +:+ String "010" ""
|}.

(** ** services/fileMonitor.ts *)

Module FileMonitor.

Definition failed (message : string) : ProcessingResult :=
  {| pr_success := false; pr_error := Some message;
     pr_documentModified := false; pr_processingState := FAILED;
     pr_timestamp := None |}.

Definition setMonitor (d : option nat) (active : bool) : M unit :=
  modify (set_monitor {| disposable := d; isActive := active |}).

(** [vscode.workspace.onDidOpenTextDocument(listener)]: the host adds
    the listener and hands back its subscription. *)
Definition onDidOpenTextDocument : M nat :=
  let* id := gets (fun w => nextListener (workspace w)) in
  modify (fun w =>
    set_workspace
      (listening (openListeners (workspace w) ++ [id]) (S id) (workspace w)) w) >>
  ret id.

(** [disposable.dispose()] *)
Definition disposeSubscription (id : nat) : M unit :=
  modify (fun w =>
    set_workspace
      (listening (filter (fun x => x <> id) (openListeners (workspace w)))
                 (nextListener (workspace w)) (workspace w)) w).

Definition startMonitoring : M (OperationResult unit) :=
  try_catch
    (ErrorLogger.logInfo "Attempting to start file monitoring" >>
     let* active := gets (fun w => isActive (monitor w)) in
     if active then
       ErrorLogger.logWarning "File monitoring is already active" >>
       ret (opFailure "File monitoring is already active" MONITOR_ALREADY_ACTIVE)
     else
       let* subscription := onDidOpenTextDocument in
       let* m := gets monitor in
       setMonitor (Some subscription) (isActive m) >>
       setMonitor (Some subscription) true >>
       ErrorLogger.logInfo "File monitoring started successfully" >>
       ret {| success := true; data := None; error := None; errorCode := None |})
    (fun errorMessage =>
       ErrorLogger.logError errorMessage None >>
       ret (opFailure errorMessage MONITOR_START_FAILED)).

Definition stopMonitoring : M (OperationResult unit) :=
  try_catch
    (ErrorLogger.logInfo "Attempting to stop file monitoring" >>
     let* m := gets monitor in
     if negb (isActive m) then
       ErrorLogger.logWarning "File monitoring is not active" >>
       ret (opFailure "File monitoring is not active" MONITOR_NOT_ACTIVE)
     else
       (match disposable m with
        | Some subscription =>
            disposeSubscription subscription >> setMonitor None (isActive m)
        | None => ret tt
        end) >>
       let* m := gets monitor in
       setMonitor (disposable m) false >>
       ErrorLogger.logInfo "File monitoring stopped successfully" >>
       ret {| success := true; data := None; error := None; errorCode := None |})
    (fun errorMessage =>
       ErrorLogger.logError errorMessage None >>
       ret (opFailure errorMessage MONITOR_STOP_FAILED)).

Definition isMonitoring : M bool := gets (fun w => isActive (monitor w)).

Definition dispose : M unit :=
  ErrorLogger.logDebug "Disposing file monitor" >>
  let* _ := stopMonitoring in
  ret tt.

Section WithHandlers.

(** The constructor argument [fileHandlers : Map<SupportedFileType,
    IFileHandler>], keyed by the enum's string values. *)
Variable fileHandlers : gmap string FileHandler.

Definition onDocumentOpened : M ProcessingResult :=
  try_catch
    (ErrorLogger.logDebug "Processing document opened event" >>
     let* document := gets (fun w => theDocument w) in
     let analysisResult := ContentAnalyzer.analyzeContent document in
     match (if success analysisResult then data analysisResult else None) with
     | None =>
         let message :=
           JS.orElse (default "" (error analysisResult)) "Content analysis failed" in
         ErrorLogger.logError message (Some CONTENT_ANALYSIS_FAILED) >>
         ret (failed message)
     | Some context =>
         if negb (ContentAnalyzer.dc_shouldProcess context) then
           ErrorLogger.logDebug "Document does not need processing, skipping" >>
           ret {| pr_success := true; pr_error := None;
                  pr_documentModified := false;
                  pr_processingState := SKIPPED; pr_timestamp := None |}
         else
           let* timestampResult := TimestampClock.getCurrentTimestamp in
           let timestampData := default "" (data timestampResult) in
           if negb (success timestampResult) || JS.isEmpty timestampData then
             let message :=
               JS.orElse (default "" (error timestampResult))
                         "Failed to generate timestamp" in
             ErrorLogger.logError message (Some TIMESTAMP_GENERATION_FAILED) >>
             ret (failed message)
           else
             let fileType := ContentAnalyzer.dc_fileType context in
             match fileHandlers !! fileTypeValue fileType with
             | None =>
                 let errorMessage :=
                   "No handler found for file type: " +:+ fileTypeValue fileType in
                 ErrorLogger.logError errorMessage None >>
                 ret (failed errorMessage)
             | Some handler =>
                 ErrorLogger.logDebug "Processing document with handler" >>
                 let* processingResult :=
                   BaseFileHandler.processDocument handler timestampData in
                 (if pr_success processingResult
                  then ErrorLogger.logInfo "Document processed successfully"
                  else ErrorLogger.logError
                         (JS.orElse (default "" (pr_error processingResult))
                                    "Handler processing failed") None) >>
                 ret processingResult
             end
     end)
    (fun errorMessage =>
       ErrorLogger.logError errorMessage None >>
       ret (failed errorMessage)).

(** The listener registered with the host.  It returns nothing: the
    Processing Result of [onDocumentOpened], when there is one, is
    only logged. *)
Definition handleDocumentOpened : M unit :=
  try_catch
    (let* document := gets (fun w => theDocument w) in
     match ContentAnalyzer.getFileType document with
     | None => ErrorLogger.logDebug "Skipping unsupported file type" >> ret tt
     | Some _ =>
         let* result := onDocumentOpened in
         (if pr_success result
          then ErrorRecoveryService.clearRetryHistory else ret tt) >>
         if negb (pr_success result) then
           ErrorLogger.logError
             (JS.orElse (default "" (pr_error result)) "Document processing failed")
             None
         else if pr_documentModified result then
           ErrorLogger.logInfo "Timestamp added to document"
         else ret tt
     end)
    (fun errorMessage => ErrorLogger.logError errorMessage None).

End WithHandlers.

End FileMonitor.

(** ** extension.ts: the handler map built by [activate] *)

Definition activatedHandlers : gmap string FileHandler :=
  list_to_map [ (fileTypeValue TEXT, TextFileHandler);
                (fileTypeValue LOG, LogFileHandler);
                (fileTypeValue MARKDOWN, MarkdownFileHandler) ].

(** [activate]: the logger and the recovery service are the singletons of
    the world, [new FileMonitor(...)] is a monitor that is not active, and
    the handler map is [activatedHandlers].  The error notification of
    the [catch] block and [context.subscriptions] are not represented. *)
Definition activate (isDevelopment : bool) : M unit :=
  try_catch
    (modify (fun w =>
       set_logger
         (ErrorLogger.setLogLevel (if isDevelopment then DEBUG else INFO) (logger w))
         w) >>
     ErrorLogger.logInfo "dotLOG extension activating..." >>
     ErrorLogger.logDebug "Initialized services and handlers" >>
     modify (set_monitor {| disposable := None; isActive := false |}) >>
     let* monitorResult := FileMonitor.startMonitoring in
     if negb (success monitorResult) then
       throw ("Failed to start file monitoring: " +:+
              default "undefined" (error monitorResult))
     else
       let* _ := FileMonitor.isMonitoring in
       ErrorLogger.logInfo "dotLOG extension activated successfully")
    (fun message => ErrorLogger.logError message None).

(** [deactivate], in a state [activate] has left: the three globals are
    set. *)
Definition deactivate : M unit :=
  try_catch
    (ErrorLogger.logInfo "dotLOG extension deactivating..." >>
     let* stopResult := FileMonitor.stopMonitoring in
     (if negb (success stopResult)
      then ErrorLogger.logWarning "Failed to stop file monitoring cleanly"
      else ret tt) >>
     FileMonitor.dispose >>
     ErrorRecoveryService.dispose >>
     ErrorLogger.logInfo "dotLOG extension deactivated successfully" >>
     modify (fun w => set_logger (ErrorLogger.dispose (logger w)) w))
    (fun message => ErrorLogger.logError message None).

(** ** The documented shapes, written from the specification's words *)

Module Spec.

Definition digit (n : Z) : ascii := ascii_of_N (48 + Z.to_N (n mod 10)).

Definition twoDigits (n : Z) : string :=
  String (digit (n / 10)) (String (digit n) "").

Definition fourDigits (n : Z) : string :=
  String (digit (n / 1000)) (String (digit (n / 100)) (twoDigits n)).

(** The hour of a 12-hour clock: 12, 1, ..., 11, 12, 1, ..., 11. *)
Definition hour12 (hours24 : Z) : Z := (hours24 + 11) mod 12 + 1.

Definition meridiem (hours24 : Z) : string :=
  if hours24 <? 12 then "AM" else "PM".

(** [YYYY-MM-DD hh:MM AM/PM] *)
Definition timestamp12 (d : JSDate) : string :=
  fourDigits (getFullYear d) +:+ "-" +:+ twoDigits (getMonth d + 1) +:+ "-" +:+
  twoDigits (getDate d) +:+ " " +:+ twoDigits (hour12 (getHours d)) +:+ ":" +:+
  twoDigits (getMinutes d) +:+ " " +:+ meridiem (getHours d).

(** The insertion formats: a newline, the timestamp (behind [## ] in a
    markdown document) and a newline. *)
Definition insertion (t : SupportedFileType) (timestamp : string) : string :=
  match t with
  | MARKDOWN => String "010" ("## " +:+ timestamp) +:+ String "010" ""
  | TEXT | LOG => String "010" timestamp +:+ String "010" ""
  end.

(** [YYYY-MM-DD HH:MM], 24-hour *)
Definition timestamp24 (d : JSDate) : string :=
  fourDigits (getFullYear d) +:+ "-" +:+ twoDigits (getMonth d + 1) +:+ "-" +:+
  twoDigits (getDate d) +:+ " " +:+ twoDigits (getHours d) +:+ ":" +:+
  twoDigits (getMinutes d).

(** The line an insertion adds to the document. *)
Definition stampLine (t : SupportedFileType) (timestamp : string) : string :=
  match t with
  | MARKDOWN => "## " +:+ timestamp
  | TEXT | LOG => timestamp
  end.

End Spec.

(** A document with its buffer replaced. *)
Definition withLines (ls : list string) (d : TextDocument) : TextDocument :=
  {| fileName := fileName d; languageId := languageId d; uri := uri d;
     isUntitled := isUntitled d; isDirty := isDirty d; isClosed := isClosed d;
     lines := ls |}.

(** ** Derived notions used to state the properties *)

(** The decision [DocumentEditor.canModifyDocument] returns. *)
Definition mutable (d : TextDocument) : bool :=
  if isClosed d then false
  else if isUntitled d && negb (isDirty d) then true
  else if String.eqb (scheme (uri d)) "file" then true
  else String.eqb (scheme (uri d)) "untitled".

(** The edit [DocumentEditor.insertTextAtEnd] builds for [text]. *)
Definition endEdit (d : TextDocument) (text : string) : WorkspaceEdit :=
  let lastLine := lineCount d - 1 in
  {| we_uri := uri d;
     we_position :=
       {| line := lastLine;
          character := JS.strlen (default "" (lineAt d lastLine)) |};
     we_text := DocumentEditor.prepareTextForInsertion d text |}.

(** No request numbered [lo <= k < hi] is applied by the host. *)
Definition no_applied (ws : Workspace) (lo hi : nat) : Prop :=
  forall k, (lo <= k < hi)%nat -> applyEditOracle ws k <> EditApplied.

(** The host applied one of the requests made between two worlds. *)
Definition applied_between (w w' : World) : Prop :=
  exists k, (editRequests (workspace w) <= k < editRequests (workspace w'))%nat /\
            applyEditOracle (workspace w) k = EditApplied.

(** How a sequence of requests for one edit [e] moves the workspace:
    either every request failed and the document is as before, or the
    last request, and only that one, was applied. *)
Inductive edit_run (e : WorkspaceEdit) (a : Workspace) : bool -> Workspace -> Prop :=
| run_failed (b : Workspace) :
    applyEditOracle b = applyEditOracle a ->
    fsStat b = fsStat a ->
    openListeners b = openListeners a ->
    nextListener b = nextListener a ->
    document b = document a ->
    (editRequests a <= editRequests b)%nat ->
    no_applied a (editRequests a) (editRequests b) ->
    edit_run e a false b
| run_applied (b : Workspace) :
    applyEditOracle b = applyEditOracle a ->
    fsStat b = fsStat a ->
    openListeners b = openListeners a ->
    nextListener b = nextListener a ->
    document b = editedDocument (document a) e ->
    (editRequests a < editRequests b)%nat ->
    no_applied a (editRequests a) (editRequests b - 1) ->
    applyEditOracle a (editRequests b - 1) = EditApplied ->
    edit_run e a true b.

(** [edits e w ok w']: from [w] to [w'] the only change to the host is an
    [edit_run] of [e]; the logger and the retry table are free. *)
Definition edits (e : WorkspaceEdit) (w : World) (ok : bool) (w' : World) : Prop :=
  edit_run e (workspace w) ok (workspace w') /\
  window w' = window w /\ now w' = now w /\ monitor w' = monitor w.

(** The editor of the window, if any, shows another document. *)
Definition noEditorFor (w : World) : Prop :=
  match activeTextEditor (window w) with
  | None => True
  | Some editor =>
      uriString (te_documentUri editor) <> uriString (uri (theDocument w))
  end.

(** The three Processing Results of [processDocument]. *)
Definition notModifiable : ProcessingResult :=
  {| pr_success := false;
     pr_error := Some "Document is read-only or cannot be modified";
     pr_documentModified := false;
     pr_processingState := FAILED;
     pr_timestamp := None |}.

Definition completed (formattedTimestamp : string) : ProcessingResult :=
  {| pr_success := true;
     pr_error := None;
     pr_documentModified := true;
     pr_processingState := COMPLETED;
     pr_timestamp := Some formattedTimestamp |}.

Definition handlerFor (t : SupportedFileType) : FileHandler :=
  match t with
  | TEXT => TextFileHandler
  | LOG => LogFileHandler
  | MARKDOWN => MarkdownFileHandler
  end.

Definition skipped : ProcessingResult :=
  {| pr_success := true; pr_error := None; pr_documentModified := false;
     pr_processingState := SKIPPED; pr_timestamp := None |}.

(** What one run of [onDocumentOpened] with the activated handlers does,
    by the detected type and the classifier's decision. *)
Definition opened (w : World) (res : ProcessingResult) (w' : World) : Prop :=
  let d := theDocument w in
  match ContentAnalyzer.getFileType d with
  | None =>
      res = FileMonitor.failed "Unsupported file type" /\
      workspace w' = workspace w /\ window w' = window w /\
      last (errorHistory (logger w'))
      = Some {| ee_message := "Unsupported file type";
                ee_code := CONTENT_ANALYSIS_FAILED |}
  | Some t =>
      if ContentAnalyzer.shouldProcessDocument d then
        let insertion :=
          formatTimestamp (handlerFor t) (TimestampService.formatTimestamp (now w)) in
        edit_run (endEdit d insertion) (workspace w) (pr_success res) (workspace w') /\
        (mutable d = false -> res = notModifiable /\ window w' = window w) /\
        (pr_success res = true -> res = completed insertion) /\
        (pr_success res = false ->
         pr_documentModified res = false /\ pr_processingState res = FAILED) /\
        (pr_success res = true -> noEditorFor w -> window w' = window w) /\
        (mutable d = true -> lines d <> [] ->
         (editRequests (workspace w) < editRequests (workspace w'))%nat)
      else
        res = skipped /\ workspace w' = workspace w /\ window w' = window w /\
        errorHistory (logger w') = errorHistory (logger w)
  end.

(** The separating newline of [prepareTextForInsertion]. *)
Definition separator (d : TextDocument) : string :=
  match last (lines d) with
  | Some l => if JS.isEmpty l then "" else String "010" ""
  | None => ""
  end.

(** The error kinds on the logger's record.  A Processing Result has no
    field for a kind: the record of the logger is where a run leaves one. *)
Definition recordedKinds (w : World) : list ErrorCode :=
  map ee_code (errorHistory (logger w)).

(** ** Concrete documents and worlds *)

Module Example.

(** 24 July 2025, 13:25 local time. *)
Definition afternoon : JSDate :=
  {| getFullYear := 2025; getMonth := 6; getDate := 24;
     getHours := 13; getMinutes := 25 |}.

(** New Year's midnight of the year 999. *)
Definition year999 : JSDate :=
  {| getFullYear := 999; getMonth := 0; getDate := 1;
     getHours := 0; getMinutes := 0 |}.

Definition fileDocument (name language : string) (content : list string)
  : TextDocument :=
  {| fileName := name; languageId := language;
     uri := {| scheme := "file"; uriString := "file://" +:+ name |};
     isUntitled := false; isDirty := false; isClosed := false;
     lines := content |}.

Definition closed (d : TextDocument) : TextDocument :=
  {| fileName := fileName d; languageId := languageId d; uri := uri d;
     isUntitled := isUntitled d; isDirty := isDirty d; isClosed := true;
     lines := lines d |}.

(** A freshly activated extension whose host shows [d] in no editor
    and answers the edit requests by [oracle]. *)
Definition world (d : TextDocument) (oracle : nat -> EditOutcome) : World :=
  {| workspace :=
       {| document := d; applyEditOracle := oracle; editRequests := 0;
          fsStat := inl {| st_readonly := false; st_isDirectory := false |};
          openListeners := [0%nat]; nextListener := 1 |};
     window := {| activeTextEditor := None; statusBar := [] |};
     now := afternoon;
     logger := {| outputChannel := Some []; logLevel := INFO; errorHistory := [] |};
     retryAttempts := ∅;
     monitor := {| disposable := Some 0%nat; isActive := true |} |}.

Definition applies : nat -> EditOutcome := fun _ => EditApplied.

Definition notes : TextDocument :=
  fileDocument "notes.txt" "plaintext" [".LOG"; "Meeting notes"].

Definition journal : TextDocument :=
  fileDocument "journal.md" "markdown" [".LOG"].

Definition plain : TextDocument :=
  fileDocument "readme.txt" "plaintext" ["no marker here"].

Definition script : TextDocument :=
  fileDocument "script.py" "python" ["no marker here"].

Definition markedScript : TextDocument :=
  fileDocument "script.py" "python" [".LOG"; "print(1)"].

(** A file whose extension the host knows no language for is opened
    as plain text. *)
Definition markedData : TextDocument :=
  fileDocument "notes.dat" "plaintext" [".LOG"].

Definition refuses : nat -> EditOutcome := fun _ => EditRefused.

(** A file whose name is its extension, and a name in capitals. *)
Definition hidden : TextDocument := fileDocument ".txt" "plaintext" [".LOG"].

Definition capitals : TextDocument :=
  fileDocument "NOTES.TXT" "plaintext" [".LOG"; "Meeting notes"].

(** A document without lines, as the test doubles build it. *)
Definition blank : TextDocument := fileDocument "notes.txt" "plaintext" [].

(** The host showing [d] in its active editor. *)
Definition shown (d : TextDocument) (oracle : nat -> EditOutcome) : World :=
  set_window
    {| activeTextEditor :=
         Some {| te_documentUri := uri d;
                 te_selection := ({| line := 0; character := 0 |},
                                  {| line := 0; character := 0 |});
                 te_revealed := None |};
       statusBar := [] |}
    (world d oracle).

(** The host before activation: no listener, no monitor. *)
Definition dormant (d : TextDocument) : World :=
  set_monitor {| disposable := None; isActive := false |}
    (set_workspace (listening [] 0 (workspace (world d applies))) (world d applies)).

End Example.

(** ** Further notions, for the properties beyond the claims *)

(** A string of the characters [trim] strips. *)
Fixpoint allWhiteSpace (s : string) : bool :=
  match s with
  | EmptyString => true
  | String c s' => JS.isWhiteSpace c && allWhiteSpace s'
  end.

(** No line of the buffer holds a line feed: the host's invariant. *)
Definition lfFree (d : TextDocument) : Prop :=
  Forall (fun l => JS.hasChar "010" l = false) (lines d).

(** From this world on the host applies no edit request. *)
Definition all_refused (w : World) : Prop :=
  forall k, (editRequests (workspace w) <= k)%nat ->
            applyEditOracle (workspace w) k <> EditApplied.

(** The key of the retry table for an operation on the document. *)
Definition recoveryKey (w : World) (operation : string) : string :=
  uriString (uri (theDocument w)) +:+ "-" +:+ operation.

(** Two runs that agree on everything but the logger. *)
Definition sameOutcome {A} (r r' : Outcome A * World) : Prop :=
  result r = result r' /\
  workspace (after r) = workspace (after r') /\
  window (after r) = window (after r') /\
  retryAttempts (after r) = retryAttempts (after r') /\
  monitor (after r) = monitor (after r').

(** The position [positionCursorAtEnd] computes. *)
Definition endPosition (d : TextDocument) : Position :=
  {| line := lineCount d - 1;
     character := JS.strlen (default "" (lineAt d (lineCount d - 1))) |}.

(** The blank line [prepareTextForInsertion] puts in front. *)
Definition blankLine (d : TextDocument) : list string :=
  match last (lines d) with
  | Some l => if JS.isEmpty l then [] else [""]
  | None => []
  end.

(** The Processing Result of a run whose every request the host refused. *)
Definition refusedResult (insertion : string) : ProcessingResult :=
  {| pr_success := false;
     pr_error := Some ("Could not insert timestamp: " +:+
                       "Maximum retry attempts (3) exceeded for applyEdit");
     pr_documentModified := false;
     pr_processingState := FAILED;
     pr_timestamp := Some insertion |}.

(** * Properties *)

(** ** Checking a decidable property on an interval by evaluation *)

Lemma check_interval (P : Z -> bool) (lo hi : Z) :
  forallb (fun k => P (lo + Z.of_nat k)) (seq 0 (Z.to_nat (hi - lo))) = true ->
  forall z, lo <= z < hi -> P z = true.
Proof.
  intros Hall z Hz.
  rewrite forallb_forall in Hall.
  replace z with (lo + Z.of_nat (Z.to_nat (z - lo))) by lia.
  apply Hall, in_seq. lia.
Qed.

(** ** Strings *)

Lemma append_nil (t : string) : "" +:+ t = t.
Proof. reflexivity. Qed.

Lemma append_cons (c : ascii) (s t : string) :
  String c s +:+ t = String c (s +:+ t).
Proof. reflexivity. Qed.

Lemma append_empty_r (s : string) : s +:+ "" = s.
Proof.
  induction s as [|c s IH]; [reflexivity | rewrite append_cons; now f_equal].
Qed.

Lemma append_assoc (a b c : string) : (a +:+ b) +:+ c = a +:+ (b +:+ c).
Proof.
  induction a as [|x a IH]; [reflexivity | rewrite !append_cons; now f_equal].
Qed.

Lemma isEmpty_append_cons (a : string) (c : ascii) (b : string) :
  JS.isEmpty (a +:+ String c b) = false.
Proof. destruct a; reflexivity. Qed.

Lemma endsWith_spec (s suffix : string) :
  JS.endsWith s suffix = true <-> exists p, s = p +:+ suffix.
Proof.
  induction s as [|c s IH]; cbn [JS.endsWith].
  - rewrite orb_false_r, String.eqb_eq. split.
    + intros <-. now exists "".
    + intros [p Hp]. destruct p; [assumption | discriminate].
  - rewrite orb_true_iff, String.eqb_eq, IH. split.
    + intros [<- | [p ->]]; [now exists "" | now exists (String c p)].
    + intros [p Hp]. destruct p as [|x p].
      * now left.
      * right. exists p. rewrite append_cons in Hp. congruence.
Qed.

(** ** Patterns *)

Lemma matches_length (p : list Pattern.atom) (s : string) :
  Pattern.matches p s = true -> String.length s = length p.
Proof.
  revert s. induction p as [|a p IH]; intros [|c s]; simpl; try discriminate.
  - reflexivity.
  - intros H. apply andb_true_iff in H as [_ H]. now rewrite (IH s H).
Qed.

Lemma isDigit_digit (n : Z) : Pattern.isDigit (Spec.digit n) = true.
Proof.
  unfold Spec.digit.
  assert (H : 0 <= n mod 10 < 10) by (apply Z.mod_pos_bound; lia).
  revert H. generalize (n mod 10). intros z Hz.
  now apply (check_interval
    (fun z => Pattern.isDigit (ascii_of_N (48 + Z.to_N z))) 0 10).
Qed.

(** ** The timestamp generator *)

Lemma padStart_twoDigits (n : Z) :
  0 <= n <= 99 -> JS.padStart 2 "0" (JS.ofNumber n) = Spec.twoDigits n.
Proof.
  intros Hn. apply String.eqb_eq.
  apply (check_interval
    (fun z => String.eqb (JS.padStart 2 "0" (JS.ofNumber z)) (Spec.twoDigits z))
    0 100); [vm_compute; reflexivity | lia].
Qed.

Lemma ofNumber_fourDigits (n : Z) :
  1000 <= n <= 9999 -> JS.ofNumber n = Spec.fourDigits n.
Proof.
  intros Hn. apply String.eqb_eq.
  apply (check_interval
    (fun z => String.eqb (JS.ofNumber z) (Spec.fourDigits z)) 1000 10000);
    [vm_compute; reflexivity | lia].
Qed.

Lemma hours12_twoDigits (h : Z) :
  0 <= h <= 23 ->
  JS.padStart 2 "0"
    (JS.ofNumber (if h =? 0 then 12 else if 12 <? h then h - 12 else h))
  = Spec.twoDigits (Spec.hour12 h).
Proof.
  intros Hh. apply String.eqb_eq.
  apply (check_interval
    (fun z => String.eqb
       (JS.padStart 2 "0"
          (JS.ofNumber (if z =? 0 then 12 else if 12 <? z then z - 12 else z)))
       (Spec.twoDigits (Spec.hour12 z))) 0 24); [vm_compute; reflexivity | lia].
Qed.

Lemma formatTimestamp_spec (d : JSDate) :
  validDate d -> 1000 <= getFullYear d <= 9999 ->
  TimestampService.formatTimestamp d = Spec.timestamp12 d.
Proof.
  intros (Hm & Hd & Hh & Hn) Hy.
  unfold TimestampService.formatTimestamp, Spec.timestamp12.
  rewrite (ofNumber_fourDigits _ Hy), hours12_twoDigits by assumption.
  rewrite !padStart_twoDigits by lia.
  unfold Spec.meridiem.
  replace (12 <=? getHours d) with (negb (getHours d <? 12)) by lia.
  now destruct (getHours d <? 12).
Qed.

Lemma timestamp12_matches (d : JSDate) :
  Pattern.matches Pattern.timestamp12 (Spec.timestamp12 d) = true.
Proof.
  unfold Spec.timestamp12, Spec.meridiem, Spec.fourDigits, Spec.twoDigits.
  rewrite ?append_cons, ?append_nil. simpl.
  rewrite !isDigit_digit. now destruct (getHours d <? 12).
Qed.

Lemma timestamp24_matches (d : JSDate) :
  Pattern.matches Pattern.timestamp24 (Spec.timestamp24 d) = true.
Proof.
  unfold Spec.timestamp24, Spec.fourDigits, Spec.twoDigits.
  rewrite ?append_cons, ?append_nil. simpl. now rewrite !isDigit_digit.
Qed.

Lemma formatTimestamp_not_empty (d : JSDate) :
  JS.isEmpty (TimestampService.formatTimestamp d) = false.
Proof. unfold TimestampService.formatTimestamp. apply isEmpty_append_cons. Qed.

(** ** The monad, step by step *)

Arguments ContentAnalyzer.getFileType : simpl never.
Arguments ContentAnalyzer.shouldProcessDocument : simpl never.
Arguments DocumentEditor.prepareTextForInsertion : simpl never.
Arguments DocumentEditor.canModifyDocument : simpl never.
Arguments DocumentEditor.applyEditWithRetry : simpl never.
Arguments DocumentEditor.applyEditWithRetryAndRecovery : simpl never.
Arguments DocumentEditor.insertTextAtEnd : simpl never.
Arguments DocumentEditor.positionCursorAtEnd : simpl never.
Arguments ErrorRecoveryService.exhausted : simpl never.
Arguments ErrorRecoveryService.attemptMessage : simpl never.
Arguments ErrorRecoveryService.recoverFromDocumentModificationFailure : simpl never.
Arguments ErrorRecoveryService.recoverFromPermissionError : simpl never.
Arguments ErrorRecoveryService.gracefulTimestampFailure : simpl never.
Arguments ErrorRecoveryService.gracefulCursorPositioningFailure : simpl never.
Arguments ErrorRecoveryService.clearRetryHistory : simpl never.
Arguments BaseFileHandler.processDocument : simpl never.
Arguments TimestampClock.getCurrentTimestamp : simpl never.
Arguments TimestampService.formatTimestamp : simpl never.
Arguments applyEdit : simpl never.
Arguments Nat.leb : simpl never.
Arguments Nat.ltb : simpl never.

Ltac munfold :=
  unfold try_catch, bind, ret, gets, modify, throw,
    ErrorLogger.logDocumentModificationError,
    ErrorLogger.logDebug, ErrorLogger.logInfo, ErrorLogger.logWarning,
    ErrorLogger.logPermissionError, ErrorLogger.logError,
    ErrorRecoveryService.deleteKey, ErrorRecoveryService.setKey,
    ErrorRecoveryService.delay, result, after in *.

(** ** Frames *)

Lemma edit_run_refl e a : edit_run e a false a.
Proof. constructor; try reflexivity. intros k Hk. lia. Qed.

Lemma edit_run_trans e a b c ok :
  edit_run e a false b -> edit_run e b ok c -> edit_run e a ok c.
Proof.
  intros Hab Hbc. inversion Hab as [b' Ho Hf Hl Hn Hd Hr Hna|]; subst.
  inversion Hbc as [c' Ho' Hf' Hl' Hn' Hd' Hr' Hna'|c' Ho' Hf' Hl' Hn' Hd' Hr' Hna' Hap];
    subst; constructor; try congruence; try lia.
  - intros k Hk. destruct (decide (k < editRequests b)%nat).
    + apply Hna. lia.
    + rewrite <- Ho. apply Hna'. lia.
  - intros k Hk. destruct (decide (k < editRequests b)%nat).
    + apply Hna. lia.
    + rewrite <- Ho. apply Hna'. lia.
Qed.

Lemma edits_refl e w : edits e w false w.
Proof. repeat split; auto using edit_run_refl. Qed.

Lemma edits_trans e w1 w2 w3 ok :
  edits e w1 false w2 -> edits e w2 ok w3 -> edits e w1 ok w3.
Proof.
  intros (Ha & ? & ? & ?) (Hb & ? & ? & ?).
  repeat split; [eapply edit_run_trans; eassumption | congruence ..].
Qed.

Ltac edits_same :=
  match goal with |- edits ?e ?w _ _ => exact (edits_refl e w) end.

Lemma applyEdit_run e w :
  match applyEdit e w with
  | (Returned ok, w') => edits e w ok w'
  | (Threw _, w') => edits e w false w'
  end /\ editRequests (workspace (after (applyEdit e w))) = S (editRequests (workspace w)).
Proof.
  unfold applyEdit, after, edits.
  destruct (applyEditOracle (workspace w) (editRequests (workspace w))) eqn:E; cbn.
  - split; [|reflexivity]. repeat split. constructor; cbn; try reflexivity; try lia.
    + intros k Hk. lia.
    + rewrite Nat.sub_0_r. exact E.
  - split; [|reflexivity]. repeat split. constructor; cbn; try reflexivity; try lia.
    intros k Hk. assert (k = editRequests (workspace w)) as -> by lia. congruence.
  - split; [|reflexivity]. repeat split. constructor; cbn; try reflexivity; try lia.
    intros k Hk. assert (k = editRequests (workspace w)) as -> by lia. congruence.
Qed.

Lemma applyEditAttempts_run e fuel attempt w :
  exists res w',
    DocumentEditor.applyEditAttempts fuel attempt e w = (Returned res, w') /\
    edits e w (success res) w' /\
    ((0 < fuel)%nat -> (attempt <= DocumentEditor.maxRetries)%nat ->
     (editRequests (workspace w) < editRequests (workspace w'))%nat).
Proof.
  revert attempt w. induction fuel as [|fuel IH]; intros attempt w.
  - cbn. destruct (negb _); munfold; eexists _, _; (split; [reflexivity|]);
      (split; [apply edits_refl | lia]).
  - cbn [DocumentEditor.applyEditAttempts].
    destruct (attempt <=? DocumentEditor.maxRetries)%nat eqn:Ha; cbn [negb].
    2:{ munfold. eexists _, _. split; [reflexivity|]. split; [apply edits_refl|].
        apply Nat.leb_gt in Ha. lia. }
    munfold.
    destruct (applyEdit_run e w) as [Hrun Hreq].
    destruct (applyEdit e w) as [[ok|msg] w1]; cbn in Hreq.
    + destruct ok.
      * eexists _, _. split; [reflexivity|]. split; [exact Hrun | lia].
      * destruct (attempt <? DocumentEditor.maxRetries)%nat.
        -- destruct (IH (S attempt) w1) as (res & w2 & E & Hed & _). rewrite E.
           eexists _, _. split; [reflexivity|]. split.
           ++ eapply edits_trans; eassumption.
           ++ intros _ _. destruct Hed as (Hed & _). inversion Hed; lia.
        -- eexists _, _. split; [reflexivity|]. split; [exact Hrun | lia].
    + destruct (attempt <? DocumentEditor.maxRetries)%nat.
      * destruct (IH (S attempt) w1) as (res & w2 & E & Hed & _). rewrite E.
        eexists _, _. split; [reflexivity|]. split.
        -- eapply edits_trans; eassumption.
        -- intros _ _. destruct Hed as (Hed & _). inversion Hed; lia.
      * eexists _, _. split; [reflexivity|]. split; [exact Hrun | lia].
Qed.

Arguments DocumentEditor.applyEditAttempts : simpl never.

Lemma applyEditWithRetry_run e w :
  exists res w',
    DocumentEditor.applyEditWithRetry e w = (Returned res, w') /\
    edits e w (success res) w' /\
    (editRequests (workspace w) < editRequests (workspace w'))%nat.
Proof.
  unfold DocumentEditor.applyEditWithRetry.
  destruct (applyEditAttempts_run e (S DocumentEditor.maxRetries) 0 w)
    as (res & w' & E & Hed & Hreq).
  exists res, w'. repeat split; try assumption; try apply Hed.
  apply Hreq; unfold DocumentEditor.maxRetries; lia.
Qed.

Lemma exhausted_run {T} e key op w :
  exists (res : OperationResult T) w',
    ErrorRecoveryService.exhausted key op w = (Returned res, w') /\
    success res = false /\ edits e w false w'.
Proof.
  unfold ErrorRecoveryService.exhausted. munfold. cbn.
  eexists _, _. split; [reflexivity|]. split; [reflexivity | edits_same].
Qed.

Lemma retryLoop_run e key op fuel cur w :
  exists res w',
    ErrorRecoveryService.retryLoop fuel key op cur
      (DocumentEditor.applyEditWithRetry e) w = (Returned res, w') /\
    edits e w (success res) w'.
Proof.
  revert cur w. induction fuel as [|fuel IH]; intros cur w.
  - cbn [ErrorRecoveryService.retryLoop].
    destruct (exhausted_run (T:=bool) e key op w) as (res & w' & E & Hs & Hed).
    exists res, w'. rewrite Hs. destruct (negb _); auto.
  - cbn [ErrorRecoveryService.retryLoop].
    destruct (negb _).
    { destruct (exhausted_run (T:=bool) e key op w) as (res & w' & E & Hs & Hed).
      exists res, w'. rewrite Hs. auto. }
    munfold. cbn.
    destruct (isClosed (theDocument w)).
    { cbn. eexists _, _. split; [reflexivity|]. edits_same. }
    unfold ErrorRecoveryService.attemptOnce. munfold.
    destruct (0 <? cur)%nat; cbn.
    all: match goal with
         | |- context [DocumentEditor.applyEditWithRetry ?e0 ?w0] =>
             destruct (applyEditWithRetry_run e0 w0) as (r1 & w1 & E1 & Hed1 & _);
             rewrite E1
         end.
    all: destruct (success r1) eqn:Hs1; cbn.
    all: try (eexists _, _; split; [reflexivity|]; rewrite Hs1; exact Hed1).
    all: destruct (ErrorRecoveryService.maxRetries <=? S cur)%nat.
    all: try (match goal with
              | |- context [ErrorRecoveryService.exhausted ?k ?o ?w0] =>
                  destruct (exhausted_run (T:=bool) e k o w0)
                    as (res & w' & E & Hs & Hed)
              end;
              rewrite E; exists res, w'; split; [reflexivity|]; rewrite Hs;
              eapply edits_trans; [exact Hed1 | exact Hed]).
    all: match goal with
         | |- context [ErrorRecoveryService.retryLoop _ _ _ ?c _ ?w0] =>
             destruct (IH c w0) as (res & w' & E & Hed)
         end; rewrite E;
         exists res, w'; split; [reflexivity|];
         eapply edits_trans; [exact Hed1 | exact Hed].
Qed.

Arguments ErrorRecoveryService.retryLoop : simpl never.

Lemma recover_run e msg w :
  exists res w',
    ErrorRecoveryService.recoverFromDocumentModificationFailure "applyEdit" msg
      (DocumentEditor.applyEditWithRetry e) w = (Returned res, w') /\
    edits e w (success res) w'.
Proof.
  unfold ErrorRecoveryService.recoverFromDocumentModificationFailure. munfold. cbn.
  destruct (negb _); cbn.
  all: match goal with
       | |- context [ErrorRecoveryService.retryLoop ?f ?k ?o ?c
                       (DocumentEditor.applyEditWithRetry ?e0) ?w0] =>
           destruct (retryLoop_run e0 k o f c w0) as (res & w' & E & Hed); rewrite E
       end.
  all: exists res, w'; split; [reflexivity | exact Hed].
Qed.

Lemma applyEditWithRetryAndRecovery_run e w :
  exists res w',
    DocumentEditor.applyEditWithRetryAndRecovery e w = (Returned res, w') /\
    edits e w (success res) w' /\
    (editRequests (workspace w) < editRequests (workspace w'))%nat.
Proof.
  unfold DocumentEditor.applyEditWithRetryAndRecovery. munfold.
  destruct (applyEditWithRetry_run e w) as (r1 & w1 & E1 & Hed1 & Hreq1). rewrite E1.
  destruct (success r1) eqn:Hs1; cbn.
  - exists r1, w1. rewrite Hs1. auto.
  - match goal with
    | |- context [ErrorRecoveryService.recoverFromDocumentModificationFailure _ ?m _ w1] =>
        destruct (recover_run e m w1) as (res & w' & E & Hed); rewrite E
    end.
    assert (Hle : (editRequests (workspace w1) <= editRequests (workspace w'))%nat)
      by (destruct Hed as (Hed & _); inversion Hed; lia).
    destruct (success res) eqn:Hs; cbn.
    all: eexists _, _; split; [reflexivity|]; rewrite Hs; split;
         [eapply edits_trans; [exact Hed1 | exact Hed] | cbn; lia].
Qed.

(** ** The logger *)

Lemma logAt_history level tag message l :
  errorHistory (ErrorLogger.logAt level tag message l) = errorHistory l.
Proof.
  unfold ErrorLogger.logAt, ErrorLogger.writeToOutput.
  destruct (ErrorLogger.shouldLog level l); [|reflexivity].
  now destruct (outputChannel l).
Qed.

Lemma logErrorState_last message code l :
  last (errorHistory (ErrorLogger.logErrorState message code l))
  = Some {| ee_message := message; ee_code := default UNKNOWN_ERROR code |}.
Proof.
  unfold ErrorLogger.logErrorState, ErrorLogger.writeToOutput.
  set (e := {| ee_message := message; ee_code := _ |}).
  assert (H : last (errorHistory (ErrorLogger.addToHistory e l)) = Some e).
  { unfold ErrorLogger.addToHistory. cbn [errorHistory].
    destruct (_ <? _)%nat eqn:E.
    - rewrite length_app. cbn [length].
      rewrite drop_app_le by (unfold ErrorLogger.maxHistorySize; lia).
      apply last_snoc.
    - apply last_snoc. }
  destruct (ErrorLogger.shouldLog ERROR _); [|exact H].
  destruct (outputChannel _); exact H.
Qed.

(** ** Reading the document *)

Lemma lineAt_last (d : TextDocument) :
  lines d <> [] -> lineAt d (lineCount d - 1) = last (lines d).
Proof.
  intros Hne. unfold lineAt, lineCount.
  destruct (lines d) as [|l ls] eqn:E; [congruence|].
  replace (0 <=? _) with true by (symmetry; apply Z.leb_le; cbn [length]; lia).
  rewrite last_lookup. f_equal. cbn [length]. lia.
Qed.

Lemma canModifyDocument_run (w : World) :
  exists l, DocumentEditor.canModifyDocument w
            = (Returned (mutable (theDocument w)), set_logger l w)
            /\ errorHistory l = errorHistory (logger w).
Proof.
  unfold DocumentEditor.canModifyDocument, mutable. munfold. cbn.
  destruct (isClosed _); [|destruct (_ && _); [|destruct (_ =? _)%string]]; cbn.
  all: eexists; split; [reflexivity|]; now rewrite !logAt_history.
Qed.

Lemma recoverFromPermissionError_run filePath operation w :
  exists res l, ErrorRecoveryService.recoverFromPermissionError filePath operation w
                = (Returned res, set_logger l w).
Proof.
  unfold ErrorRecoveryService.recoverFromPermissionError. munfold. cbn.
  destruct (fsStat (workspace w)); cbn; eexists _, _; reflexivity.
Qed.

Lemma insertTextAtEnd_run text w :
  exists res w',
    DocumentEditor.insertTextAtEnd text w = (Returned res, w') /\
    edits (endEdit (theDocument w) text) w (success res) w' /\
    (mutable (theDocument w) = true -> lines (theDocument w) <> [] ->
     (editRequests (workspace w) < editRequests (workspace w'))%nat).
Proof.
  unfold DocumentEditor.insertTextAtEnd. munfold. cbn.
  match goal with
  | |- context [DocumentEditor.canModifyDocument ?w0] =>
      destruct (canModifyDocument_run w0) as (l & E & _); rewrite E; clear E
  end.
  cbn. destruct (mutable (theDocument w)) eqn:Hm; cbn.
  - unfold lineAtText. munfold. cbn.
    destruct (lineAt (theDocument w) (lineCount (theDocument w) - 1)) as [lastLineText|] eqn:El.
    + match goal with
      | |- context [DocumentEditor.applyEditWithRetryAndRecovery ?e ?w0] =>
          destruct (applyEditWithRetryAndRecovery_run e w0)
            as (res & w' & E & Hed & Hreq); rewrite E; clear E
      end.
      assert (He : endEdit (theDocument w) text
                   = {| we_uri := uri (theDocument w);
                        we_position :=
                          {| line := lineCount (theDocument w) - 1;
                             character := JS.strlen lastLineText |};
                        we_text :=
                          DocumentEditor.prepareTextForInsertion (theDocument w) text |})
        by (unfold endEdit; now rewrite El).
      rewrite He.
      destruct (success res) eqn:Hs; cbn.
      all: eexists _, _; split; [reflexivity|]; rewrite Hs; split;
           [exact Hed | intros _ _; exact Hreq].
    + cbn. eexists _, _. split; [reflexivity|]. split; [edits_same|].
      intros _ Hne. rewrite lineAt_last in El by assumption.
      destruct (lines (theDocument w)); [congruence | now rewrite last_cons in El; destruct (last _)].
  - match goal with
    | |- context [ErrorRecoveryService.recoverFromPermissionError ?f ?o ?w0] =>
        destruct (recoverFromPermissionError_run f o w0) as (res & l' & E);
        rewrite E; clear E
    end.
    cbn. eexists _, _. split; [reflexivity|]. split; [edits_same | discriminate].
Qed.

Lemma positionCursorAtEnd_run w :
  exists res w',
    DocumentEditor.positionCursorAtEnd w = (Returned res, w') /\
    workspace w' = workspace w /\ now w' = now w /\ monitor w' = monitor w /\
    errorHistory (logger w') = errorHistory (logger w) /\
    (noEditorFor w ->
     success res = false /\ errorCode res = Some CURSOR_POSITIONING_FAILED /\
     window w' = window w) /\
    (success res = false -> noEditorFor w).
Proof.
  unfold DocumentEditor.positionCursorAtEnd, noEditorFor. munfold. cbn.
  destruct (activeTextEditor (window w)) as [editor|]; cbn.
  - destruct (String.eqb_spec (uriString (te_documentUri editor))
                              (uriString (uri (theDocument w)))) as [Heq|Hne]; cbn.
    + unfold lineAtText. munfold. cbn.
      destruct (lineAt _ _); cbn.
      * eexists _, _. split; [reflexivity|]. cbn.
        rewrite ?logAt_history. repeat split; try discriminate; exfalso; congruence.
      * unfold ErrorRecoveryService.gracefulCursorPositioningFailure. munfold. cbn.
        eexists _, _. split; [reflexivity|]. cbn.
        rewrite ?logAt_history. repeat split; try discriminate; exfalso; congruence.
    + eexists _, _. split; [reflexivity|]. cbn. rewrite ?logAt_history. repeat split. auto.
  - eexists _, _. split; [reflexivity|]. cbn. rewrite ?logAt_history. repeat split.
Qed.


Lemma gracefulTimestampFailure_run timestamp message w :
  exists w',
    ErrorRecoveryService.gracefulTimestampFailure timestamp message w
    = (Returned {| pr_success := false;
                   pr_error := Some ("Could not insert timestamp: " +:+ message);
                   pr_documentModified := false;
                   pr_processingState := FAILED;
                   pr_timestamp := Some timestamp |}, w') /\
    workspace w' = workspace w /\ now w' = now w /\ monitor w' = monitor w.
Proof.
  unfold ErrorRecoveryService.gracefulTimestampFailure,
    ErrorRecoveryService.showGracefulFailureNotification. munfold. cbn.
  eexists. split; [reflexivity|]. repeat split.
Qed.

Lemma processDocument_run h timestamp w :
  exists res w',
    BaseFileHandler.processDocument h timestamp w = (Returned res, w') /\
    edit_run (endEdit (theDocument w) (formatTimestamp h timestamp))
             (workspace w) (pr_success res) (workspace w') /\
    now w' = now w /\ monitor w' = monitor w /\
    (mutable (theDocument w) = false ->
     res = notModifiable /\ window w' = window w /\
     errorHistory (logger w') = errorHistory (logger w) /\
     workspace w' = workspace w) /\
    (pr_success res = true -> res = completed (formatTimestamp h timestamp)) /\
    (pr_success res = false ->
     pr_documentModified res = false /\ pr_processingState res = FAILED) /\
    (pr_success res = true -> noEditorFor w -> window w' = window w) /\
    (mutable (theDocument w) = true -> lines (theDocument w) <> [] ->
     (editRequests (workspace w) < editRequests (workspace w'))%nat) /\
    (pr_success res = true ->
     exists w1 cur w2,
       DocumentEditor.positionCursorAtEnd w1 = (Returned cur, w2) /\
       workspace w1 = workspace w' /\ window w1 = window w /\
       window w2 = window w').
Proof.
  unfold BaseFileHandler.processDocument. munfold. cbn.
  match goal with
  | |- context [DocumentEditor.canModifyDocument ?w0] =>
      destruct (canModifyDocument_run w0) as (l & E & Hl); rewrite E; clear E
  end.
  cbn. destruct (mutable (theDocument w)) eqn:Hm; cbn.
  - match goal with
    | |- context [DocumentEditor.insertTextAtEnd ?t ?w0] =>
        destruct (insertTextAtEnd_run t w0) as (ins & w1 & E & Hed & Hreq);
        rewrite E; clear E
    end.
    destruct Hed as (Hrun & Hwin & Hnow & Hmon).
    cbn in Hrun, Hwin, Hnow, Hmon, Hreq.
    destruct (success ins) eqn:Hs; cbn.
    + destruct (positionCursorAtEnd_run w1)
        as (cur & w2 & E & Hws & Hnow2 & Hmon2 & _ & Hno & _).
      assert (Hcur : exists w1' cur' w2',
                 DocumentEditor.positionCursorAtEnd w1' = (Returned cur', w2') /\
                 workspace w1' = workspace w2 /\ window w1' = window w /\
                 window w2' = window w2)
        by (exists w1, cur, w2; auto).
      rewrite E; clear E.
      assert (Hwin2 : noEditorFor w -> window w2 = window w).
      { intros H. rewrite <- Hwin. apply Hno. unfold noEditorFor in *.
        rewrite Hwin. inversion Hrun as [|b _ _ _ _ Hd _ _ _]. now rewrite Hd. }
      destruct (success cur); cbn.
      all: eexists _, _; split; [reflexivity|]; cbn; rewrite Hws.
      all: repeat split; try congruence; try discriminate; auto.
      all: intros _; rewrite <- Hws; exact Hcur.
    + match goal with
      | |- context [ErrorRecoveryService.gracefulTimestampFailure ?t ?m ?w0] =>
          destruct (gracefulTimestampFailure_run t m w0) as (w2 & E & Hws & Hnow2 & Hmon2);
          rewrite E; clear E
      end.
      cbn in Hws, Hnow2, Hmon2.
      eexists _, _; split; [reflexivity|]; cbn; rewrite Hws.
      repeat split; try congruence; try discriminate; auto.
  - eexists _, _; split; [reflexivity|]; cbn.
    repeat split; try discriminate.
    + apply edit_run_refl.
    + rewrite ?logAt_history. cbn in Hl. now rewrite Hl, logAt_history.
Qed.


Lemma activatedHandlers_lookup (t : SupportedFileType) :
  activatedHandlers !! fileTypeValue t = Some (handlerFor t).
Proof. destruct t; reflexivity. Qed.

Arguments activatedHandlers : simpl never.

Lemma getCurrentTimestamp_run w :
  TimestampClock.getCurrentTimestamp w
  = (Returned (opSuccess (TimestampService.formatTimestamp (now w))), w).
Proof. reflexivity. Qed.


Lemma onDocumentOpened_run w :
  exists res w',
    FileMonitor.onDocumentOpened activatedHandlers w = (Returned res, w') /\
    now w' = now w /\ monitor w' = monitor w /\ opened w res w'.
Proof.
  unfold FileMonitor.onDocumentOpened, ContentAnalyzer.analyzeContent, opened.
  munfold. cbn.
  destruct (ContentAnalyzer.getFileType (theDocument w)) as [t|] eqn:Ht; cbn.
  - destruct (ContentAnalyzer.shouldProcessDocument (theDocument w)) eqn:Hp; cbn.
    + rewrite getCurrentTimestamp_run. cbn.
      rewrite formatTimestamp_not_empty. cbn.
      rewrite activatedHandlers_lookup.
      match goal with
      | |- context [BaseFileHandler.processDocument ?h ?t ?w0] =>
          destruct (processDocument_run h t w0)
            as (res & w1 & E & Hrun & Hnow & Hmon & Hnm & Hok & Hko & Hwin & Hreq & _);
          rewrite E; clear E
      end.
      cbn in Hrun, Hnow, Hmon, Hnm, Hwin, Hreq.
      destruct (pr_success res) eqn:Hs; cbn.
      all: eexists _, _; split; [reflexivity|]; cbn; rewrite Hs.
      all: repeat split; auto; try discriminate.
      all: try (intros; now apply Hko).
      all: try (destruct (Hnm ltac:(assumption)) as (? & ? & ?); assumption).
    + eexists _, _; split; [reflexivity|]; cbn.
      rewrite ?logAt_history. repeat split.
  - eexists _, _; split; [reflexivity|]; cbn.
    repeat split. apply logErrorState_last.
Qed.

Lemma handleDocumentOpened_unsupported w :
  ContentAnalyzer.getFileType (theDocument w) = None ->
  exists l, FileMonitor.handleDocumentOpened activatedHandlers w
            = (Returned tt, set_logger l w) /\
            errorHistory l = errorHistory (logger w).
Proof.
  intros Ht. unfold FileMonitor.handleDocumentOpened. munfold. cbn.
  rewrite Ht. cbn. eexists. split; [reflexivity|]. apply logAt_history.
Qed.

Arguments FileMonitor.onDocumentOpened : simpl never.

Lemma handleDocumentOpened_supported w t :
  ContentAnalyzer.getFileType (theDocument w) = Some t ->
  exists w',
    FileMonitor.handleDocumentOpened activatedHandlers w = (Returned tt, w') /\
    workspace w' = workspace (after (FileMonitor.onDocumentOpened activatedHandlers w)) /\
    window w' = window (after (FileMonitor.onDocumentOpened activatedHandlers w)).
Proof.
  intros Ht. unfold FileMonitor.handleDocumentOpened. munfold. cbn.
  rewrite Ht. cbn.
  destruct (onDocumentOpened_run w) as (res & w1 & E & _). rewrite E. cbn.
  unfold ErrorRecoveryService.clearRetryHistory. munfold. cbn.
  destruct (pr_success res); cbn; [destruct (pr_documentModified res)|]; cbn.
  all: eexists; split; [reflexivity|]; split; reflexivity.
Qed.

(** ** Lines and text *)

Lemma splitLines_not_nil (s : string) : JS.splitLines s <> [].
Proof.
  induction s as [|c s IH]; cbn; [discriminate|].
  destruct (Ascii.eqb c "010"); [discriminate|].
  destruct (JS.splitLines s); discriminate.
Qed.

Lemma joinLines_cons (l : string) (ls : list string) :
  ls <> [] -> JS.joinLines (l :: ls) = l +:+ String "010" (JS.joinLines ls).
Proof. destruct ls; [congruence | reflexivity]. Qed.

Lemma joinLines_splitLines (s : string) : JS.joinLines (JS.splitLines s) = s.
Proof.
  induction s as [|c s IH]; [reflexivity|]. cbn [JS.splitLines].
  destruct (Ascii.eqb_spec c "010") as [->|Hc].
  - rewrite joinLines_cons by apply splitLines_not_nil. now rewrite IH.
  - pose proof (splitLines_not_nil s) as Hne.
    destruct (JS.splitLines s) as [|l ls]; [congruence|].
    destruct ls as [|l' ls].
    + cbn in *. now rewrite IH.
    + rewrite joinLines_cons in * by discriminate.
      rewrite append_cons. now rewrite IH.
Qed.

Lemma joinLines_snoc_split (init : list string) (l t : string) :
  JS.joinLines (init ++ JS.splitLines (l +:+ t)) = JS.joinLines (init ++ [l]) +:+ t.
Proof.
  induction init as [|x init IH].
  - cbn [app JS.joinLines]. apply joinLines_splitLines.
  - cbn [app].
    rewrite !joinLines_cons.
    + rewrite IH. now rewrite append_assoc, append_cons.
    + now destruct init.
    + pose proof (splitLines_not_nil (l +:+ t)). now destruct init.
Qed.

Lemma substring_whole (s : string) : String.substring 0 (String.length s) s = s.
Proof. induction s as [|c s IH]; [reflexivity | cbn; now rewrite IH]. Qed.

Lemma substring_none (s : string) :
  String.substring (String.length s) 0 s = "".
Proof. induction s as [|c s IH]; [reflexivity | cbn; now rewrite IH]. Qed.

Lemma insertInto_end (init : list string) (l text : string) :
  insertInto (init ++ [l])
    {| line := Z.of_nat (length (init ++ [l])) - 1; character := JS.strlen l |} text
  = init ++ JS.splitLines (l +:+ text).
Proof.
  unfold insertInto, JS.strlen. cbn [line character].
  rewrite length_app. cbn [length].
  rewrite !(proj2 (Z.ltb_ge _ _)) by lia. cbn [orb].
  replace (Z.to_nat (Z.of_nat (length init + 1) - 1)) with (length init) by lia.
  rewrite Nat2Z.id.
  rewrite list_lookup_middle by reflexivity.
  rewrite take_app_length.
  rewrite drop_ge by (rewrite length_app; cbn; lia).
  rewrite Nat.sub_diag, substring_whole, substring_none, append_empty_r.
  now rewrite app_nil_r.
Qed.

Lemma lines_snoc (d : TextDocument) :
  lines d <> [] -> exists init l, lines d = init ++ [l] /\ last (lines d) = Some l.
Proof.
  intros Hne. destruct (last (lines d)) as [l|] eqn:E.
  - apply last_Some in E as [init E]. now exists init, l.
  - apply last_None in E. congruence.
Qed.


Lemma strlen_pos (s : string) : (0 <? JS.strlen s) = negb (JS.isEmpty s).
Proof. destruct s; reflexivity. Qed.

Lemma prepareTextForInsertion_spec (d : TextDocument) (text : string) :
  lines d <> [] ->
  DocumentEditor.prepareTextForInsertion d text
  = separator d +:+ text +:+
    (if JS.endsWith text (String "010" "") then "" else String "010" "").
Proof.
  intros Hne. unfold DocumentEditor.prepareTextForInsertion, separator.
  assert (Hc : (lineCount d =? 0) = false)
    by (unfold lineCount; destruct (lines d); [congruence | reflexivity]).
  rewrite Hc, lineAt_last by assumption.
  destruct (lines_snoc d Hne) as (init & l & _ & ->).
  cbn [default from_option id]. rewrite strlen_pos.
  destruct (JS.isEmpty l), (JS.endsWith text _); cbn [negb];
    rewrite ?append_nil, ?append_cons, ?append_nil, ?append_empty_r; reflexivity.
Qed.

Lemma getText_edited (d : TextDocument) (text : string) :
  lines d <> [] ->
  getText (editedDocument d (endEdit d text))
  = getText d +:+ DocumentEditor.prepareTextForInsertion d text.
Proof.
  intros Hne. unfold getText, editedDocument, endEdit. cbn [lines we_position we_text].
  rewrite lineAt_last by assumption.
  destruct (lines_snoc d Hne) as (init & l & Hl & ->).
  cbn [default from_option id]. unfold lineCount. rewrite Hl.
  rewrite insertInto_end. apply joinLines_snoc_split.
Qed.

(** ** The timestamp is a single line *)

Lemma hasChar_append (c : ascii) (a b : string) :
  JS.hasChar c (a +:+ b) = JS.hasChar c a || JS.hasChar c b.
Proof.
  induction a as [|x a IH]; [reflexivity|].
  rewrite append_cons. cbn [JS.hasChar]. now rewrite IH, orb_assoc.
Qed.

Lemma string_of_uint_single_line (u : Decimal.uint) :
  JS.hasChar "010" (NilEmpty.string_of_uint u) = false.
Proof. induction u; cbn; auto. Qed.

Lemma ofNumber_single_line (z : Z) : JS.hasChar "010" (JS.ofNumber z) = false.
Proof.
  unfold JS.ofNumber, NilZero.string_of_int, NilZero.string_of_uint.
  destruct (Z.to_int z) as [u|u]; destruct u; cbn - [NilEmpty.string_of_uint];
    try reflexivity; apply (string_of_uint_single_line (_ u)).
Qed.

Lemma padStart_single_line (n : nat) (s : string) :
  JS.hasChar "010" s = false -> JS.hasChar "010" (JS.padStart n "0" s) = false.
Proof.
  intros H. unfold JS.padStart. rewrite hasChar_append, H, orb_false_r.
  induction (n - String.length s)%nat; cbn; auto.
Qed.

Lemma formatTimestamp_single_line (d : JSDate) :
  JS.hasChar "010" (TimestampService.formatTimestamp d) = false.
Proof.
  unfold TimestampService.formatTimestamp.
  rewrite !hasChar_append, !padStart_single_line, !ofNumber_single_line
    by apply ofNumber_single_line.
  now destruct (12 <=? getHours d).
Qed.

Lemma splitLines_line (a b : string) :
  JS.hasChar "010" a = false ->
  JS.splitLines (a +:+ String "010" b) = a :: JS.splitLines b.
Proof.
  induction a as [|c a IH]; [reflexivity|]. cbn [JS.hasChar].
  rewrite append_cons. cbn [JS.splitLines].
  rewrite Ascii.eqb_sym. intros H. apply orb_false_iff in H as [-> H].
  now rewrite (IH H).
Qed.

(** ** The classifier *)

Lemma getFileType_extension (d : TextDocument) (ext : string) (t : SupportedFileType) :
  JS.matchExtension (fileName d) = Some ext ->
  JS.toLowerCase ext = fileTypeValue t ->
  ContentAnalyzer.getFileType d = Some t.
Proof.
  intros Hm Hl. unfold ContentAnalyzer.getFileType. rewrite Hm, Hl.
  now destruct t.
Qed.

Lemma getFileType_unsupported (d : TextDocument) :
  (forall ext, JS.matchExtension (fileName d) = Some ext ->
               JS.toLowerCase ext ∉ ContentAnalyzer.SUPPORTED_EXTENSIONS) ->
  languageId d ∉ ["plaintext"; "log"; "markdown"] ->
  ContentAnalyzer.getFileType d = None.
Proof.
  intros Hext Hlang. unfold ContentAnalyzer.getFileType.
  assert (Hnone : match JS.matchExtension (fileName d) with
                  | Some captured =>
                      if bool_decide (JS.toLowerCase captured
                                        ∈ ContentAnalyzer.SUPPORTED_EXTENSIONS)
                      then
                        if (JS.toLowerCase captured =? "txt")%string then Some TEXT
                        else if (JS.toLowerCase captured =? "log")%string then Some LOG
                        else if (JS.toLowerCase captured =? "md")%string
                             then Some MARKDOWN else None
                      else None
                  | None => None
                  end = None).
  { destruct (JS.matchExtension (fileName d)) as [ext|]; [|reflexivity].
    now rewrite bool_decide_eq_false_2 by now apply Hext. }
  cbn zeta. rewrite Hnone.
  destruct (String.eqb_spec (languageId d) "plaintext") as [E|_];
    [exfalso; apply Hlang; rewrite E; set_solver|].
  destruct (String.eqb_spec (languageId d) "log") as [E|_];
    [exfalso; apply Hlang; rewrite E; set_solver|].
  destruct (String.eqb_spec (languageId d) "markdown") as [E|_];
    [exfalso; apply Hlang; rewrite E; set_solver|].
  reflexivity.
Qed.

Lemma shouldProcessDocument_spec (d : TextDocument) :
  ContentAnalyzer.shouldProcessDocument d
  = ContentAnalyzer.isLogFile d && bool_decide (ContentAnalyzer.getFileType d <> None).
Proof.
  unfold ContentAnalyzer.shouldProcessDocument, ContentAnalyzer.isLogFile.
  destruct (lineCount d =? 0); [reflexivity|].
  now destruct (lineAt d 0).
Qed.

Lemma isLogFile_spec (d : TextDocument) :
  ContentAnalyzer.isLogFile d = true <->
  exists first rest, lines d = first :: rest /\ JS.trim first = ".LOG".
Proof.
  unfold ContentAnalyzer.isLogFile, lineCount, lineAt, ContentAnalyzer.LOG_PREFIX.
  destruct (lines d) as [|first rest].
  - split; [discriminate | intros (? & ? & ? & _); discriminate].
  - destruct (Z.of_nat (length (first :: rest)) =? 0) eqn:E;
      [apply Z.eqb_eq in E; cbn [length] in E; lia|].
    change ((first :: rest) !! Z.to_nat 0) with (Some first).
    change (0 <=? 0) with true. cbn beta iota.
    rewrite String.eqb_eq. split.
    + intros H. now exists first, rest.
    + intros (f & r & Heq & H). congruence.
Qed.

Lemma handler_insertion (t : SupportedFileType) (timestamp : string) :
  formatTimestamp (handlerFor t) timestamp = Spec.insertion t timestamp.
Proof. now destruct t. Qed.

Lemma insertion_endsWith (t : SupportedFileType) (timestamp : string) :
  JS.endsWith (Spec.insertion t timestamp) (String "010" "") = true.
Proof.
  apply endsWith_spec. destruct t; cbn [Spec.insertion]; eexists; reflexivity.
Qed.

Lemma prepare_insertion (d : TextDocument) (t : SupportedFileType) (ts : string) :
  lines d <> [] ->
  DocumentEditor.prepareTextForInsertion d (Spec.insertion t ts)
  = separator d +:+ Spec.insertion t ts.
Proof.
  intros Hne. rewrite prepareTextForInsertion_spec by assumption.
  now rewrite insertion_endsWith, append_empty_r.
Qed.

Lemma isLogFile_lines (d : TextDocument) :
  ContentAnalyzer.isLogFile d = true -> lines d <> [].
Proof. intros H. apply isLogFile_spec in H as (? & ? & -> & _). discriminate. Qed.

(** A failed run never had a request applied; an applied run has exactly
    one applied request, the last. *)
Lemma edit_run_applied (e : WorkspaceEdit) (a b : Workspace) (ok : bool) :
  edit_run e a ok b ->
  (ok = true <->
   exists k, (editRequests a <= k < editRequests b)%nat /\
             applyEditOracle a k = EditApplied).
Proof.
  intros H. destruct H as [b Ho Hf Hl Hn Hd Hr Hna | b Ho Hf Hl Hn Hd Hlt Hna Hap].
  - split; [discriminate|]. intros (k & Hk & Hap). now apply Hna in Hk.
  - split; [|reflexivity]. intros _. exists (editRequests b - 1)%nat. split; [lia | exact Hap].
Qed.

Lemma edit_run_unique (e : WorkspaceEdit) (a b : Workspace) (ok : bool) :
  edit_run e a ok b ->
  forall j k,
    (editRequests a <= j < editRequests b)%nat -> applyEditOracle a j = EditApplied ->
    (editRequests a <= k < editRequests b)%nat -> applyEditOracle a k = EditApplied ->
    j = k.
Proof.
  intros H j k Hj Haj Hk Hak.
  destruct H as [b Ho Hf Hl Hn Hd Hr Hna | b Ho Hf Hl Hn Hd Hlt Hna Hap].
  - now apply Hna in Hj.
  - destruct (decide (j = editRequests b - 1)%nat) as [->|Hne];
      destruct (decide (k = editRequests b - 1)%nat) as [->|Hne']; try reflexivity.
    + exfalso. apply (Hna k); [lia | assumption].
    + exfalso. apply (Hna j); [lia | assumption].
    + exfalso. apply (Hna j); [lia | assumption].
Qed.

Lemma edit_run_document (e : WorkspaceEdit) (a b : Workspace) (ok : bool) :
  edit_run e a ok b ->
  document b = if ok then editedDocument (document a) e else document a.
Proof. intros H. now destruct H. Qed.

(** * The claims *)

(** ** C3: marker detection *)

(** C3.  The marker condition holds exactly when the document has a first
    line whose trimmed text is [.LOG]; the handlers' own test agrees with
    the classifier's.  The comparison is case-sensitive and covers the
    whole trimmed line: [.LOG] and [.LOG] surrounded by blanks match,
    [.log], [prefix .LOG] and [.LOG extra] do not, a marker on the second
    line does not count, and neither a document without lines nor one
    with an empty first line matches. *)
Theorem C3_marker_detection :
  (forall d, ContentAnalyzer.isLogFile d = true <->
             exists first rest, lines d = first :: rest /\ JS.trim first = ".LOG") /\
  (forall d, BaseFileHandler.hasLogPrefix d = ContentAnalyzer.isLogFile d) /\
  (forall d rest,
     ContentAnalyzer.isLogFile (withLines (".LOG" :: rest) d) = true /\
     ContentAnalyzer.isLogFile (withLines ("  .LOG 	" :: rest) d) = true /\
     ContentAnalyzer.isLogFile (withLines (".log" :: rest) d) = false /\
     ContentAnalyzer.isLogFile (withLines ("prefix .LOG" :: rest) d) = false /\
     ContentAnalyzer.isLogFile (withLines (".LOG extra" :: rest) d) = false /\
     ContentAnalyzer.isLogFile (withLines ("Some content" :: ".LOG" :: rest) d) = false) /\
  (forall d,
     ContentAnalyzer.isLogFile (withLines [] d) = false /\
     ContentAnalyzer.isLogFile (withLines [""] d) = false).
Proof.
  split; [exact isLogFile_spec|].
  split; [reflexivity|].
  split.
  - intros d rest.
    unfold ContentAnalyzer.isLogFile, lineCount, lineAt, withLines. cbn [lines length].
    repeat split;
      (destruct (Z.of_nat _ =? 0) eqn:E; [apply Z.eqb_eq in E; lia | reflexivity]).
  - intros d. split; reflexivity.
Qed.

(** ** C4: the timestamp format *)

(** C4, as the claim states it, fails: at 13:25 on 24 July 2025 the
    generator yields [2025-07-24 01:25 PM], which is not the 24-hour
    rendering [2025-07-24 13:25] and does not match
    [\d{4}-\d{2}-\d{2} \d{2}:\d{2}].  (And a year below 1000 is printed
    with fewer than four digits.) *)
Lemma C4_counterexample_afternoon :
  TimestampService.formatTimestamp Example.afternoon = "2025-07-24 01:25 PM" /\
  Spec.timestamp24 Example.afternoon = "2025-07-24 13:25" /\
  TimestampService.formatTimestamp Example.afternoon
    <> Spec.timestamp24 Example.afternoon /\
  Pattern.matches Pattern.timestamp24
    (TimestampService.formatTimestamp Example.afternoon) = false /\
  TimestampService.formatTimestamp Example.year999 = "999-01-01 12:00 AM".
Proof. repeat split. discriminate. Qed.

(** C4, amended.  For every instant whose year has four digits, the
    generated timestamp is [YYYY-MM-DD hh:MM AM/PM]: zero-padded month,
    day and minute, the hour of a 12-hour clock (01 to 12) zero-padded,
    and [AM] before noon, [PM] from noon on.  It matches the regex of the
    test suites, never the 24-hour pattern, and differs from the 24-hour
    rendering at every instant.  Each handler passes the timestamp
    through unchanged, between a newline (and [## ] for markdown) and a
    newline. *)
Theorem C4_timestamp_twelve_hour_form (d : JSDate) :
  validDate d -> 1000 <= getFullYear d <= 9999 ->
  TimestampService.formatTimestamp d = Spec.timestamp12 d /\
  Pattern.matches Pattern.timestamp12 (TimestampService.formatTimestamp d) = true /\
  Pattern.matches Pattern.timestamp24 (TimestampService.formatTimestamp d) = false /\
  TimestampService.formatTimestamp d <> Spec.timestamp24 d /\
  1 <= Spec.hour12 (getHours d) <= 12 /\
  (forall timestamp,
     formatTimestamp TextFileHandler timestamp
       = String "010" "" +:+ timestamp +:+ String "010" "" /\
     formatTimestamp LogFileHandler timestamp
       = String "010" "" +:+ timestamp +:+ String "010" "" /\
     formatTimestamp MarkdownFileHandler timestamp
       = String "010" "" +:+ "## " +:+ timestamp +:+ String "010" "").
Proof.
  intros Hd Hy.
  rewrite (formatTimestamp_spec d Hd Hy).
  pose proof (timestamp12_matches d) as H12.
  assert (H24 : Pattern.matches Pattern.timestamp24 (Spec.timestamp12 d) = false).
  { destruct (Pattern.matches Pattern.timestamp24 (Spec.timestamp12 d)) eqn:H24;
      [|reflexivity].
    apply matches_length in H12, H24. rewrite H12 in H24. discriminate. }
  split; [reflexivity|]. split; [exact H12|]. split; [exact H24|]. split.
  - intros Heq. rewrite Heq, timestamp24_matches in H24. discriminate.
  - split.
    + unfold Spec.hour12.
      pose proof (Z.mod_pos_bound (getHours d + 11) 12). lia.
    + intros timestamp. repeat split.
Qed.

Lemma C4_witness :
  TimestampService.formatTimestamp Example.afternoon
  = Spec.timestamp12 Example.afternoon.
Proof.
  apply (C4_timestamp_twelve_hour_form Example.afternoon).
  - unfold validDate; simpl; lia.
  - simpl; lia.
Defined.

(** ** C6: the prepared insertion *)

Lemma lines_edited (d : TextDocument) (init : list string) (l text : string) :
  lines d = init ++ [l] ->
  lines (editedDocument d (endEdit d text))
  = init ++ JS.splitLines (l +:+ DocumentEditor.prepareTextForInsertion d text).
Proof.
  intros Hl. unfold editedDocument, endEdit. cbn [lines we_position we_text].
  rewrite lineAt_last by (rewrite Hl; now destruct init).
  unfold lineCount. rewrite Hl, last_snoc. cbn [default from_option id].
  apply insertInto_end.
Qed.

(** A run on a marked document of a supported type: the Processing Result
    and the workspace it leaves. *)
Lemma marked_run (w : World) (t : SupportedFileType) :
  ContentAnalyzer.getFileType (theDocument w) = Some t ->
  ContentAnalyzer.isLogFile (theDocument w) = true ->
  let d := theDocument w in
  let insertion := Spec.insertion t (TimestampService.formatTimestamp (now w)) in
  exists res w',
    FileMonitor.onDocumentOpened activatedHandlers w = (Returned res, w') /\
    edit_run (endEdit d insertion) (workspace w) (pr_success res) (workspace w') /\
    (mutable d = false -> res = notModifiable /\ window w' = window w) /\
    (pr_success res = true -> res = completed insertion) /\
    (pr_success res = false ->
     pr_documentModified res = false /\ pr_processingState res = FAILED) /\
    (pr_success res = true -> noEditorFor w -> window w' = window w) /\
    (mutable d = true ->
     (editRequests (workspace w) < editRequests (workspace w'))%nat).
Proof.
  intros Ht Hlog d insertion.
  destruct (onDocumentOpened_run w) as (res & w' & E & _ & _ & Hop).
  unfold opened in Hop. rewrite Ht, shouldProcessDocument_spec, Hlog, Ht in Hop.
  rewrite bool_decide_eq_true_2 in Hop by discriminate. cbn [andb] in Hop.
  rewrite handler_insertion in Hop.
  destruct Hop as (Hrun & Hnm & Hok & Hko & Hwin & Hreq).
  exists res, w'. repeat split; try assumption; try (now apply Hnm); try (now apply Hko).
  intros Hm. apply Hreq; [assumption | now apply isLogFile_lines].
Qed.

(** C6, as the claim states it, fails on its scenario: when the host
    refuses every edit request, processing the [.txt] document [.LOG],
    [Meeting notes] leaves its two lines; and when the host applies the
    edit the document has five lines, the four the claim lists and the
    empty line behind the final newline. *)
Lemma C6_counterexample_refused_edit :
  let refused :=
    FileMonitor.onDocumentOpened activatedHandlers
      (Example.world Example.notes Example.refuses) in
  let applied :=
    FileMonitor.onDocumentOpened activatedHandlers
      (Example.world Example.notes Example.applies) in
  JS.matchExtension (fileName Example.notes) = Some "txt" /\
  lines Example.notes = [".LOG"; "Meeting notes"] /\
  lines (theDocument (after refused)) = [".LOG"; "Meeting notes"] /\
  lines (theDocument (after refused))
  <> [".LOG"; "Meeting notes"; ""; "2025-07-24 01:25 PM"] /\
  lines (theDocument (after applied))
  = [".LOG"; "Meeting notes"; ""; "2025-07-24 01:25 PM"; ""] /\
  lines (theDocument (after applied))
  <> [".LOG"; "Meeting notes"; ""; "2025-07-24 01:25 PM"].
Proof. vm_compute. repeat split; discriminate. Qed.

(** C6, amended.  On a document with at least one line, the prepared
    insertion is the input text with a newline in front exactly when the
    last line is not empty, and a newline behind exactly when the text
    does not end in one.  Processing the [.txt] document [.LOG],
    [Meeting notes] in a run in which the host applies an edit request
    leaves the text [.LOG\nMeeting notes\n\n<timestamp>\n]: the lines
    [.LOG], [Meeting notes], an empty line, the timestamp line and the
    empty line behind the final newline.  A run in which no request is
    applied leaves the two lines. *)
Theorem C6_prepared_insertion :
  (forall (document : TextDocument) (text : string),
     lines document <> [] ->
     exists before behind,
       DocumentEditor.prepareTextForInsertion document text
       = before +:+ text +:+ behind /\
       (before = String "010" "" /\ last (lines document) <> Some "" \/
        before = "" /\ last (lines document) = Some "") /\
       (behind = String "010" "" /\ ~ (exists p, text = p +:+ String "010" "") \/
        behind = "" /\ exists p, text = p +:+ String "010" "")) /\
  (forall (w : World) (ext : string),
     lines (theDocument w) = [".LOG"; "Meeting notes"] ->
     JS.matchExtension (fileName (theDocument w)) = Some ext ->
     JS.toLowerCase ext = "txt" ->
     let r := FileMonitor.onDocumentOpened activatedHandlers w in
     let timestamp := TimestampService.formatTimestamp (now w) in
     applied_between w (after r) ->
     lines (theDocument (after r))
     = [".LOG"; "Meeting notes"; ""; timestamp; ""] /\
     getText (theDocument (after r))
     = ".LOG" +:+ String "010" "Meeting notes" +:+ String "010" "" +:+
       String "010" "" +:+ timestamp +:+ String "010" "") /\
  (forall (w : World) (ext : string),
     lines (theDocument w) = [".LOG"; "Meeting notes"] ->
     JS.matchExtension (fileName (theDocument w)) = Some ext ->
     JS.toLowerCase ext = "txt" ->
     let r := FileMonitor.onDocumentOpened activatedHandlers w in
     ~ applied_between w (after r) ->
     lines (theDocument (after r)) = [".LOG"; "Meeting notes"]).
Proof.
  split; [|split].
  - intros document text Hne.
    rewrite prepareTextForInsertion_spec by assumption.
    exists (separator document),
      (if JS.endsWith text (String "010" "") then "" else String "010" "").
    split; [reflexivity|]. split.
    + unfold separator. destruct (lines_snoc document Hne) as (init & l & _ & ->).
      destruct l; cbn [JS.isEmpty]; [right | left]; split; congruence.
    + destruct (JS.endsWith text (String "010" "")) eqn:E.
      * right. split; [reflexivity | now apply endsWith_spec].
      * left. split; [reflexivity|]. intros H. apply endsWith_spec in H. congruence.
  - intros w ext Hlines Hext Hlow r timestamp Happlied.
    assert (Ht : ContentAnalyzer.getFileType (theDocument w) = Some TEXT)
      by (eapply getFileType_extension; eassumption).
    assert (Hlog : ContentAnalyzer.isLogFile (theDocument w) = true)
      by (apply isLogFile_spec; rewrite Hlines; now eexists _, _).
    destruct (marked_run w TEXT Ht Hlog) as (res & w' & E & Hrun & _).
    subst r. unfold after, applied_between in *. rewrite E in *. cbn [snd] in *.
    apply (edit_run_applied _ _ _ _ Hrun) in Happlied.
    rewrite Happlied in Hrun. apply edit_run_document in Hrun.
    assert (Hl : lines (theDocument w) = [".LOG"] ++ ["Meeting notes"]) by exact Hlines.
    assert (Hne : lines (theDocument w) <> []) by (rewrite Hlines; discriminate).
    assert (Hlines' : lines (theDocument w')
                      = [".LOG"; "Meeting notes"; ""; timestamp; ""]).
    { rewrite Hrun, (lines_edited _ _ _ _ Hl), prepare_insertion by assumption.
      unfold separator. rewrite Hlines. cbn [last JS.isEmpty Spec.insertion].
      change (JS.splitLines _) with
        (JS.splitLines
           ("Meeting notes" +:+
            String "010" ("" +:+ String "010" (timestamp +:+ String "010" "")))).
      rewrite (splitLines_line "Meeting notes") by reflexivity.
      rewrite (splitLines_line "") by reflexivity.
      rewrite splitLines_line by apply formatTimestamp_single_line.
      reflexivity. }
    split; [exact Hlines'|].
    unfold getText. rewrite Hlines'. reflexivity.
  - intros w ext Hlines Hext Hlow r Hnot.
    assert (Ht : ContentAnalyzer.getFileType (theDocument w) = Some TEXT)
      by (eapply getFileType_extension; eassumption).
    assert (Hlog : ContentAnalyzer.isLogFile (theDocument w) = true)
      by (apply isLogFile_spec; rewrite Hlines; now eexists _, _).
    destruct (marked_run w TEXT Ht Hlog) as (res & w' & E & Hrun & _).
    subst r. unfold after, applied_between in *. rewrite E in *. cbn [snd] in *.
    pose proof (edit_run_applied _ _ _ _ Hrun) as Happ.
    apply edit_run_document in Hrun.
    destruct (pr_success res).
    + exfalso. apply Hnot, Happ. reflexivity.
    + now rewrite Hrun.
Qed.

Lemma C6_witness :
  (exists before behind,
     DocumentEditor.prepareTextForInsertion Example.notes "entry"
     = before +:+ "entry" +:+ behind /\
     (before = String "010" "" /\ last (lines Example.notes) <> Some "" \/
      before = "" /\ last (lines Example.notes) = Some "") /\
     (behind = String "010" "" /\ ~ (exists p, "entry" = p +:+ String "010" "") \/
      behind = "" /\ exists p, "entry" = p +:+ String "010" "")) /\
  lines (theDocument
           (after (FileMonitor.onDocumentOpened activatedHandlers
                     (Example.world Example.notes Example.applies))))
  = [".LOG"; "Meeting notes"; ""; "2025-07-24 01:25 PM"; ""].
Proof.
  destruct C6_prepared_insertion as [Hprepared [Hprocessed _]]. split.
  - apply (Hprepared Example.notes "entry"). simpl. discriminate.
  - apply (Hprocessed (Example.world Example.notes Example.applies) "txt");
      [reflexivity | reflexivity | reflexivity |].
    exists 0%nat. vm_compute. split; [lia | reflexivity].
Defined.

(** ** C1: one insertion at the end of a marked document *)

(** C1, as the claim states it, fails: [notes.txt] starts with the
    marker and has a supported extension, but when the host has closed
    it the run appends nothing and reports a failure. *)
Lemma C1_counterexample_closed_document :
  let w := Example.world (Example.closed Example.notes) Example.applies in
  let r := FileMonitor.onDocumentOpened activatedHandlers w in
  JS.matchExtension (fileName (theDocument w)) = Some "txt" /\
  ContentAnalyzer.isLogFile (theDocument w) = true /\
  getText (theDocument (after r)) = getText (theDocument w) /\
  result r = Returned notModifiable.
Proof. vm_compute. repeat split. Qed.

(** C1, amended.  For every document with a supported extension whose
    trimmed first line is [.LOG], a run in which the host applies an edit
    request succeeds and leaves the old text followed by one insertion in
    the detected type's format ([\n<timestamp>\n], or [\n## <timestamp>\n]
    for markdown), after one separating newline when the last line was not
    empty; exactly one request of the run is applied.  A run in which no
    request is applied leaves the document as it was and reports a
    failure.  The host applying the first request of a modifiable document
    is such a run, and the listener of the open event leaves the same
    workspace as the run it starts. *)
Theorem C1_append_exactly_one_insertion
    (w : World) (t : SupportedFileType) (ext : string) :
  JS.matchExtension (fileName (theDocument w)) = Some ext ->
  JS.toLowerCase ext = fileTypeValue t ->
  ContentAnalyzer.isLogFile (theDocument w) = true ->
  let r := FileMonitor.onDocumentOpened activatedHandlers w in
  let insertion := Spec.insertion t (TimestampService.formatTimestamp (now w)) in
  (applied_between w (after r) ->
   result r = Returned (completed insertion) /\
   getText (theDocument (after r))
   = getText (theDocument w) +:+ separator (theDocument w) +:+ insertion /\
   forall j k,
     (editRequests (workspace w) <= j < editRequests (workspace (after r)))%nat ->
     applyEditOracle (workspace w) j = EditApplied ->
     (editRequests (workspace w) <= k < editRequests (workspace (after r)))%nat ->
     applyEditOracle (workspace w) k = EditApplied ->
     j = k) /\
  (~ applied_between w (after r) ->
   theDocument (after r) = theDocument w /\
   exists res, result r = Returned res /\
               pr_success res = false /\ pr_documentModified res = false) /\
  (result (DocumentEditor.canModifyDocument w) = Returned true ->
   applyEditOracle (workspace w) (editRequests (workspace w)) = EditApplied ->
   applied_between w (after r)) /\
  workspace (after (FileMonitor.handleDocumentOpened activatedHandlers w))
  = workspace (after r).
Proof.
  intros Hext Hlow Hlog r insertion.
  assert (Ht : ContentAnalyzer.getFileType (theDocument w) = Some t)
    by (eapply getFileType_extension; eassumption).
  destruct (marked_run w t Ht Hlog) as (res & w' & E & Hrun & _ & Hok & Hko & _ & Hreq).
  pose proof (isLogFile_lines _ Hlog) as Hne.
  pose proof (edit_run_applied _ _ _ _ Hrun) as Happ.
  pose proof (edit_run_document _ _ _ _ Hrun) as Hdoc.
  destruct (handleDocumentOpened_supported w t Ht) as (w2 & E2 & Hws2 & _).
  subst r. unfold after, result, applied_between in *. rewrite E, E2 in *.
  cbn [fst snd] in *.
  split; [|split; [|split]].
  - intros Happlied. apply Happ in Happlied. rewrite Happlied in Hdoc.
    split; [now rewrite (Hok Happlied)|]. split.
    + rewrite Hdoc, getText_edited, prepare_insertion by assumption. reflexivity.
    + exact (edit_run_unique _ _ _ _ Hrun).
  - intros Hnot. destruct (pr_success res) eqn:Hs.
    + exfalso. apply Hnot, Happ. reflexivity.
    + split; [exact Hdoc|]. exists res. repeat split; [exact Hs | now apply Hko].
  - intros Hcan Hfirst.
    destruct (canModifyDocument_run w) as (l & Ecan & _).
    rewrite Ecan in Hcan. injection Hcan as Hm.
    exists (editRequests (workspace w)).
    split; [specialize (Hreq Hm); lia | exact Hfirst].
  - exact Hws2.
Qed.

Lemma C1_witness :
  getText (theDocument
             (after (FileMonitor.onDocumentOpened activatedHandlers
                       (Example.world Example.journal Example.applies))))
  = getText Example.journal +:+ separator Example.journal +:+
    Spec.insertion MARKDOWN "2025-07-24 01:25 PM".
Proof.
  apply (C1_append_exactly_one_insertion
           (Example.world Example.journal Example.applies) MARKDOWN "md");
    [reflexivity | reflexivity | reflexivity |].
  exists 0%nat. vm_compute. split; [lia | reflexivity].
Defined.

(** ** C2: documents without the marker *)

(** C2, as the claim states it, fails: [script.py] has no marker and its
    type is not supported; [onDocumentOpened] leaves it alone but answers
    with a Failed result, not a Skipped one. *)
Lemma C2_counterexample_unsupported_is_failed :
  let w := Example.world Example.script Example.applies in
  let r := FileMonitor.onDocumentOpened activatedHandlers w in
  ContentAnalyzer.isLogFile (theDocument w) = false /\
  result r = Returned (FileMonitor.failed "Unsupported file type") /\
  result r <> Returned skipped /\
  theDocument (after r) = theDocument w.
Proof. vm_compute. repeat split. discriminate. Qed.

(** C2, amended.  For every document whose trimmed first line is not
    [.LOG] (or that has no line), of any extension, processing leaves the
    workspace, and so the document's text, unchanged and sends no edit
    request, by [onDocumentOpened] and by the listener of the open event
    alike.  The result of [onDocumentOpened] is Skipped (success=true,
    documentModified=false) when a type is detected, and the
    unsupported-type failure when none is. *)
Theorem C2_no_marker_untouched (w : World) :
  ContentAnalyzer.isLogFile (theDocument w) = false ->
  let r := FileMonitor.onDocumentOpened activatedHandlers w in
  workspace (after r) = workspace w /\
  getText (theDocument (after r)) = getText (theDocument w) /\
  result r
  = Returned (match ContentAnalyzer.getFileType (theDocument w) with
              | Some _ => skipped
              | None => FileMonitor.failed "Unsupported file type"
              end) /\
  workspace (after (FileMonitor.handleDocumentOpened activatedHandlers w))
  = workspace w.
Proof.
  intros Hlog r.
  destruct (onDocumentOpened_run w) as (res & w' & E & _ & _ & Hop).
  unfold opened in Hop. rewrite shouldProcessDocument_spec, Hlog in Hop.
  cbn [andb] in Hop.
  assert (Hws : workspace w' = workspace w /\
                res = match ContentAnalyzer.getFileType (theDocument w) with
                      | Some _ => skipped
                      | None => FileMonitor.failed "Unsupported file type"
                      end).
  { destruct (ContentAnalyzer.getFileType (theDocument w));
      destruct Hop as (-> & -> & _); split; reflexivity. }
  destruct Hws as (Hws & Hres).
  subst r. unfold after, result. rewrite E. cbn [fst snd].
  rewrite Hws. repeat split; [now rewrite Hres|].
  destruct (ContentAnalyzer.getFileType (theDocument w)) as [t|] eqn:Ht.
  - destruct (handleDocumentOpened_supported w t Ht) as (w2 & E2 & Hws2 & _).
    rewrite E2. cbn [snd]. rewrite Hws2. unfold after. now rewrite E.
  - destruct (handleDocumentOpened_unsupported w Ht) as (l & E2 & _).
    now rewrite E2.
Qed.

Lemma C2_witness :
  result (FileMonitor.onDocumentOpened activatedHandlers
            (Example.world Example.plain Example.applies))
  = Returned skipped.
Proof.
  apply (C2_no_marker_untouched (Example.world Example.plain Example.applies)).
  reflexivity.
Defined.

(** ** C5: unsupported types *)

(** C5, as the claim states it, fails: [notes.dat] has an extension
    outside txt, log and md, but the host reports it as plain text, the
    type falls back to Text, and the marked document gets a timestamp. *)
Lemma C5_counterexample_language_fallback :
  let w := Example.world Example.markedData Example.applies in
  let r := FileMonitor.handleDocumentOpened activatedHandlers w in
  JS.matchExtension (fileName (theDocument w)) = Some "dat" /\
  ContentAnalyzer.isLogFile (theDocument w) = true /\
  ContentAnalyzer.getFileType (theDocument w) = Some TEXT /\
  getText (theDocument w) = ".LOG" /\
  getText (theDocument (after r))
  = ".LOG" +:+ String "010" "" +:+ String "010" "2025-07-24 01:25 PM"
    +:+ String "010" "".
Proof. vm_compute. repeat split. Qed.

(** C5, amended.  For every document whose file-name extension is not
    one of txt, log or md and whose host-reported language is not one of
    plaintext, log or markdown, processing leaves the workspace, and so
    the document's text, unchanged, whether or not the marker condition
    holds: the listener of the open event returns at the pre-filter, and
    [onDocumentOpened] at the failed classification. *)
Theorem C5_unsupported_type_untouched (w : World) :
  (forall ext, JS.matchExtension (fileName (theDocument w)) = Some ext ->
               JS.toLowerCase ext ∉ ContentAnalyzer.SUPPORTED_EXTENSIONS) ->
  languageId (theDocument w) ∉ ["plaintext"; "log"; "markdown"] ->
  ContentAnalyzer.getFileType (theDocument w) = None /\
  workspace (after (FileMonitor.handleDocumentOpened activatedHandlers w))
  = workspace w /\
  workspace (after (FileMonitor.onDocumentOpened activatedHandlers w))
  = workspace w /\
  getText (theDocument (after (FileMonitor.handleDocumentOpened activatedHandlers w)))
  = getText (theDocument w).
Proof.
  intros Hext Hlang.
  pose proof (getFileType_unsupported _ Hext Hlang) as Ht.
  destruct (handleDocumentOpened_unsupported w Ht) as (l & E & _).
  destruct (onDocumentOpened_run w) as (res & w' & E' & _ & _ & Hop).
  unfold opened in Hop. rewrite Ht in Hop. destruct Hop as (_ & Hws & _).
  unfold after. rewrite E, E'. cbn [snd]. now rewrite Hws.
Qed.

Lemma C5_witness :
  getText (theDocument
             (after (FileMonitor.handleDocumentOpened activatedHandlers
                       (Example.world Example.markedScript Example.applies))))
  = getText Example.markedScript.
Proof.
  apply (C5_unsupported_type_untouched
           (Example.world Example.markedScript Example.applies)).
  - intros ext Hext. injection Hext as <-.
    apply (bool_decide_unpack _). vm_compute. exact I.
  - apply (bool_decide_unpack _). vm_compute. exact I.
Defined.

(** ** C7: documents that cannot be modified *)

(** C7, as the claim states it, fails on the error kind: for the closed
    [notes.txt] the handler returns a failure whose only description is
    the message [Document is read-only or cannot be modified]; a
    Processing Result carries no error kind, nothing is put on the
    logger's record by the handler, and the whole run records the kind
    [UNKNOWN_ERROR], not a permission-denied one. *)
Lemma C7_counterexample_no_permission_kind :
  let w := Example.world (Example.closed Example.notes) Example.applies in
  let r := BaseFileHandler.processDocument TextFileHandler "2025-07-24 01:25 PM" w in
  result (DocumentEditor.canModifyDocument w) = Returned false /\
  result r
  = Returned {| pr_success := false;
                pr_error := Some "Document is read-only or cannot be modified";
                pr_documentModified := false;
                pr_processingState := FAILED;
                pr_timestamp := None |} /\
  recordedKinds (after r) = [] /\
  recordedKinds (after (FileMonitor.onDocumentOpened activatedHandlers w))
  = [UNKNOWN_ERROR] /\
  PERMISSION_DENIED
    ∉ recordedKinds (after (FileMonitor.onDocumentOpened activatedHandlers w)).
Proof.
  vm_compute. repeat split. intros H.
  apply list_elem_of_singleton in H. discriminate.
Qed.

Lemma insertTextAtEnd_not_mutable (text : string) (w : World) :
  mutable (theDocument w) = false ->
  exists res w',
    DocumentEditor.insertTextAtEnd text w = (Returned res, w') /\
    success res = false /\ errorCode res = Some PERMISSION_DENIED /\
    workspace w' = workspace w.
Proof.
  intros Hm. unfold DocumentEditor.insertTextAtEnd. munfold. cbn.
  match goal with
  | |- context [DocumentEditor.canModifyDocument ?w0] =>
      destruct (canModifyDocument_run w0) as (l & E & _); rewrite E; clear E
  end.
  cbn. rewrite Hm. cbn.
  match goal with
  | |- context [ErrorRecoveryService.recoverFromPermissionError ?f ?o ?w0] =>
      destruct (recoverFromPermissionError_run f o w0) as (res & l' & E);
      rewrite E; clear E
  end.
  cbn. eexists _, _. repeat split.
Qed.

(** C7, amended.  For every document that [canModifyDocument] reports as
    not modifiable, [processDocument] returns the failure with the message
    [Document is read-only or cannot be modified], state failed and
    documentModified=false, and no error kind: the logger's record is as
    before.  It sends no edit request and changes neither the document nor
    the window.  (The permission-denied kind belongs to the Operation
    Result of [insertTextAtEnd], whose own check the handler never
    reaches.) *)
Theorem C7_not_modifiable_fails (h : FileHandler) (timestamp : string) (w : World) :
  result (DocumentEditor.canModifyDocument w) = Returned false ->
  let r := BaseFileHandler.processDocument h timestamp w in
  result r = Returned notModifiable /\
  workspace (after r) = workspace w /\
  window (after r) = window w /\
  recordedKinds (after r) = recordedKinds w /\
  forall text,
    exists res,
      result (DocumentEditor.insertTextAtEnd text w) = Returned res /\
      success res = false /\ errorCode res = Some PERMISSION_DENIED /\
      workspace (after (DocumentEditor.insertTextAtEnd text w)) = workspace w.
Proof.
  intros Hcan r.
  destruct (canModifyDocument_run w) as (l & E & _).
  unfold result in Hcan. rewrite E in Hcan. cbn [fst] in Hcan.
  injection Hcan as Hm.
  destruct (processDocument_run h timestamp w)
    as (res & w' & E' & Hrun & _ & _ & Hnm & _).
  destruct (Hnm Hm) as (-> & Hwin & Hhist & Hws).
  subst r. unfold result, after, recordedKinds. rewrite E'. cbn [fst snd].
  repeat split; [exact Hws | exact Hwin | now rewrite Hhist |].
  intros text.
  destruct (insertTextAtEnd_not_mutable text w Hm) as (ins & w1 & E1 & Hs & Hc & Hw1).
  exists ins. rewrite E1. cbn [fst snd]. repeat split; assumption.
Qed.

Lemma C7_witness :
  result (BaseFileHandler.processDocument TextFileHandler "2025-07-24 01:25 PM"
            (Example.world (Example.closed Example.notes) Example.applies))
  = Returned notModifiable.
Proof.
  apply (C7_not_modifiable_fails TextFileHandler "2025-07-24 01:25 PM"
           (Example.world (Example.closed Example.notes) Example.applies)).
  reflexivity.
Defined.

(** ** C8: a cursor that cannot be placed *)

(** C8.  When the host applies an edit request of the run (the append
    succeeds) and the window has no editor on this document (the cursor
    placement fails), [processDocument] returns success with
    documentModified=true, state completed and the formatted timestamp.
    The document holds the insertion, the window is untouched, and the
    cursor placement the run made after the append did report
    [CURSOR_POSITIONING_FAILED]. *)
Theorem C8_cursor_failure_is_success (h : FileHandler) (timestamp : string) (w : World) :
  noEditorFor w ->
  let r := BaseFileHandler.processDocument h timestamp w in
  applied_between w (after r) ->
  result r = Returned (completed (formatTimestamp h timestamp)) /\
  pr_success (completed (formatTimestamp h timestamp)) = true /\
  pr_documentModified (completed (formatTimestamp h timestamp)) = true /\
  theDocument (after r)
  = editedDocument (theDocument w)
      (endEdit (theDocument w) (formatTimestamp h timestamp)) /\
  window (after r) = window w /\
  exists w1 cursorResult w2,
    DocumentEditor.positionCursorAtEnd w1 = (Returned cursorResult, w2) /\
    workspace w1 = workspace (after r) /\ window w1 = window w /\
    success cursorResult = false /\
    errorCode cursorResult = Some CURSOR_POSITIONING_FAILED.
Proof.
  intros Hno r Happlied.
  destruct (processDocument_run h timestamp w)
    as (res & w' & E & Hrun & _ & _ & _ & Hok & _ & Hwin & _ & Hcur).
  subst r. unfold result, after, applied_between in *. rewrite E in *.
  cbn [fst snd] in *.
  apply (edit_run_applied _ _ _ _ Hrun) in Happlied.
  pose proof (edit_run_document _ _ _ _ Hrun) as Hdoc. rewrite Happlied in Hdoc.
  rewrite (Hok Happlied).
  destruct (Hcur Happlied) as (w1 & cur & w2 & Ecur & Hws1 & Hwin1 & _).
  repeat split; [exact Hdoc | now apply Hwin |].
  exists w1, cur, w2.
  assert (Hno1 : noEditorFor w1).
  { unfold noEditorFor in *. rewrite Hwin1, Hws1, Hdoc. exact Hno. }
  destruct (positionCursorAtEnd_run w1) as (cur' & w2' & Ecur' & _ & _ & _ & _ & Hfail & _).
  rewrite Ecur in Ecur'. injection Ecur' as <- <-.
  destruct (Hfail Hno1) as (Hs & Hcode & _).
  repeat split; assumption.
Qed.

Lemma C8_witness :
  result (BaseFileHandler.processDocument TextFileHandler "2025-07-24 01:25 PM"
            (Example.world Example.notes Example.applies))
  = Returned (completed (formatTimestamp TextFileHandler "2025-07-24 01:25 PM")).
Proof.
  apply (C8_cursor_failure_is_success TextFileHandler "2025-07-24 01:25 PM"
           (Example.world Example.notes Example.applies)).
  - simpl. exact I.
  - exists 0%nat. vm_compute. split; [lia | reflexivity].
Defined.

(** ** C10: an unsupported type through [onDocumentOpened] *)

(** C10.  When no type is detected, the classification fails with the
    unsupported-type kind and [onDocumentOpened] returns the Failed result
    carrying its message (success=false, documentModified=false,
    state=failed), records it under the content-analysis kind and leaves
    the workspace alone; the result is not the Skipped one.  The listener
    of the open event returns at its pre-filter: it yields no result,
    records no error and changes nothing in the workspace. *)
Theorem C10_unsupported_type_is_failed (w : World) :
  ContentAnalyzer.getFileType (theDocument w) = None ->
  let r := FileMonitor.onDocumentOpened activatedHandlers w in
  let silent := FileMonitor.handleDocumentOpened activatedHandlers w in
  ContentAnalyzer.analyzeContent (theDocument w)
  = opFailure "Unsupported file type" UNSUPPORTED_FILE_TYPE /\
  result r
  = Returned {| pr_success := false;
                pr_error := Some "Unsupported file type";
                pr_documentModified := false;
                pr_processingState := FAILED;
                pr_timestamp := None |} /\
  result r <> Returned skipped /\
  last (errorHistory (logger (after r)))
  = Some {| ee_message := "Unsupported file type";
            ee_code := CONTENT_ANALYSIS_FAILED |} /\
  workspace (after r) = workspace w /\
  result silent = Returned tt /\
  workspace (after silent) = workspace w /\
  errorHistory (logger (after silent)) = errorHistory (logger w).
Proof.
  intros Ht r silent.
  destruct (onDocumentOpened_run w) as (res & w' & E & _ & _ & Hop).
  unfold opened in Hop. rewrite Ht in Hop. destruct Hop as (-> & Hws & _ & Hlast).
  destruct (handleDocumentOpened_unsupported w Ht) as (l & E' & Hl).
  subst r silent. unfold result, after. rewrite E, E'. cbn [fst snd].
  unfold ContentAnalyzer.analyzeContent. rewrite Ht.
  repeat split; try assumption. discriminate.
Qed.

Lemma C10_witness :
  result (FileMonitor.onDocumentOpened activatedHandlers
            (Example.world Example.markedScript Example.applies))
  = Returned (FileMonitor.failed "Unsupported file type").
Proof.
  apply (C10_unsupported_type_is_failed
           (Example.world Example.markedScript Example.applies)).
  reflexivity.
Defined.

(** ** C9: the monitor *)

(** A successful [OperationResult<void>]. *)
Lemma monitor_step (w : World) :
  (exists l,
     FileMonitor.startMonitoring w
     = if isActive (monitor w)
       then (Returned (opFailure "File monitoring is already active"
                                 MONITOR_ALREADY_ACTIVE),
             set_logger l w)
       else (Returned {| success := true; data := None;
                         error := None; errorCode := None |},
             set_logger l
               (set_monitor
                  {| disposable := Some (nextListener (workspace w));
                     isActive := true |}
                  (set_workspace
                     (listening
                        (openListeners (workspace w) ++ [nextListener (workspace w)])
                        (S (nextListener (workspace w))) (workspace w)) w)))) /\
  (exists l,
     FileMonitor.stopMonitoring w
     = if isActive (monitor w)
       then (Returned {| success := true; data := None;
                         error := None; errorCode := None |},
             set_logger l
               (set_monitor
                  {| disposable := None; isActive := false |}
                  (set_workspace
                     (match disposable (monitor w) with
                      | Some subscription =>
                          listening
                            (filter (fun x => x <> subscription)
                                    (openListeners (workspace w)))
                            (nextListener (workspace w)) (workspace w)
                      | None => workspace w
                      end) w)))
       else (Returned (opFailure "File monitoring is not active" MONITOR_NOT_ACTIVE),
             set_logger l w)).
Proof.
  split.
  - unfold FileMonitor.startMonitoring, FileMonitor.onDidOpenTextDocument,
      FileMonitor.setMonitor. munfold. cbn.
    destruct (isActive (monitor w)); cbn; eexists; reflexivity.
  - unfold FileMonitor.stopMonitoring, FileMonitor.disposeSubscription,
      FileMonitor.setMonitor. munfold.
    destruct w as [ws win n lg ra [[subscription|] [|]]]; cbn; eexists; reflexivity.
Qed.

Lemma dispose_run (w : World) :
  exists w',
    FileMonitor.dispose w = (Returned tt, w') /\
    isActive (monitor w') = false /\
    (isActive (monitor w) = false ->
     monitor w' = monitor w /\ workspace w' = workspace w).
Proof.
  unfold FileMonitor.dispose. munfold. cbn.
  match goal with
  | |- context [FileMonitor.stopMonitoring ?w0] =>
      destruct (monitor_step w0) as (_ & l & E); rewrite E; clear E
  end.
  cbn. destruct (isActive (monitor w)) eqn:Hactive; cbn;
    eexists; (split; [reflexivity|]); cbn.
  - split; [reflexivity | discriminate].
  - split; [exact Hactive | intros _; split; reflexivity].
Qed.

(** [dispose] is [stopMonitoring] up to what the logger wrote. *)
Lemma dispose_stops (w : World) :
  exists l,
    FileMonitor.dispose w
    = (Returned tt, set_logger l (after (FileMonitor.stopMonitoring w))).
Proof.
  unfold FileMonitor.dispose. munfold. cbn.
  match goal with
  | |- context [FileMonitor.stopMonitoring ?w0] =>
      destruct (monitor_step w0) as (_ & l & E); rewrite E; clear E
  end.
  destruct (monitor_step w) as (_ & l' & E'). rewrite E'. unfold after.
  cbn. destruct (isActive (monitor w)); cbn; eexists; reflexivity.
Qed.

(** C9.  The monitor has two states, given by [isMonitoring].
    [startMonitoring] on an inactive monitor subscribes to the open event
    and makes it active; on an active one it fails with no change to the
    monitor or the subscriptions.  [stopMonitoring] on an active monitor
    disposes the subscription and makes it inactive; on an inactive one
    it fails with no change.  [dispose] returns without an exception and
    forces a stop: it leaves the monitor and the workspace exactly as
    [stopMonitoring] does, so on an active monitor the subscription is
    disposed, its listener is out of the host's registry and no
    subscription is kept, and on an inactive one nothing changes.  After
    [dispose] the monitor is inactive whatever it was before, and a
    second [dispose] changes neither the monitor nor the workspace. *)
Theorem C9_monitor_state_machine (w : World) :
  let started := FileMonitor.startMonitoring w in
  let stopped := FileMonitor.stopMonitoring w in
  let disposed := after (FileMonitor.dispose w) in
  (if isActive (monitor w)
   then result started
        = Returned (opFailure "File monitoring is already active"
                              MONITOR_ALREADY_ACTIVE) /\
        monitor (after started) = monitor w /\
        workspace (after started) = workspace w
   else result started
        = Returned {| success := true; data := None;
                      error := None; errorCode := None |} /\
        result (FileMonitor.isMonitoring (after started)) = Returned true /\
        disposable (monitor (after started)) = Some (nextListener (workspace w)) /\
        openListeners (workspace (after started))
        = openListeners (workspace w) ++ [nextListener (workspace w)]) /\
  (if isActive (monitor w)
   then result stopped
        = Returned {| success := true; data := None;
                      error := None; errorCode := None |} /\
        result (FileMonitor.isMonitoring (after stopped)) = Returned false /\
        disposable (monitor (after stopped)) = None /\
        openListeners (workspace (after stopped))
        = match disposable (monitor w) with
          | Some subscription =>
              filter (fun x => x <> subscription) (openListeners (workspace w))
          | None => openListeners (workspace w)
          end
   else result stopped
        = Returned (opFailure "File monitoring is not active" MONITOR_NOT_ACTIVE) /\
        monitor (after stopped) = monitor w /\
        workspace (after stopped) = workspace w) /\
  result (FileMonitor.isMonitoring disposed) = Returned false /\
  monitor (after (FileMonitor.dispose disposed)) = monitor disposed /\
  workspace (after (FileMonitor.dispose disposed)) = workspace disposed /\
  result (FileMonitor.dispose w) = Returned tt /\
  monitor disposed = monitor (after stopped) /\
  workspace disposed = workspace (after stopped) /\
  (if isActive (monitor w)
   then disposable (monitor disposed) = None /\
        openListeners (workspace disposed)
        = match disposable (monitor w) with
          | Some subscription =>
              filter (fun x => x <> subscription) (openListeners (workspace w))
          | None => openListeners (workspace w)
          end
   else monitor disposed = monitor w /\ workspace disposed = workspace w).
Proof.
  intros started stopped disposed.
  assert (Hstops :
    result (FileMonitor.dispose w) = Returned tt /\
    monitor disposed = monitor (after stopped) /\
    workspace disposed = workspace (after stopped) /\
    (if isActive (monitor w)
     then disposable (monitor disposed) = None /\
          openListeners (workspace disposed)
          = match disposable (monitor w) with
            | Some subscription =>
                filter (fun x => x <> subscription) (openListeners (workspace w))
            | None => openListeners (workspace w)
            end
     else monitor disposed = monitor w /\ workspace disposed = workspace w)).
  { subst stopped disposed.
    destruct (dispose_stops w) as (l & Edispose). rewrite Edispose.
    destruct (monitor_step w) as (_ & l2 & Estop). rewrite Estop.
    unfold result, after. cbn [fst snd].
    destruct (isActive (monitor w)); cbn; repeat split.
    now destruct (disposable (monitor w)). }
  split; [|split; [|split; [|split; [|split; [|exact Hstops]]]]]; clear Hstops.
  all: destruct (monitor_step w) as ((l1 & Estart) & (l2 & Estop)).
  all: subst started stopped; unfold result, after; rewrite ?Estart, ?Estop.
  - destruct (isActive (monitor w)); cbn; repeat split.
  - destruct (isActive (monitor w)); cbn; repeat split.
    now destruct (disposable (monitor w)).
  - subst disposed. unfold after.
    destruct (dispose_run w) as (w1 & E1 & Hoff & _). rewrite E1. cbn [snd].
    unfold FileMonitor.isMonitoring, gets. cbn [fst]. now rewrite Hoff.
  - subst disposed. unfold after.
    destruct (dispose_run w) as (w1 & E1 & Hoff & _). rewrite E1. cbn [snd].
    destruct (dispose_run w1) as (w2 & E2 & _ & Hsame). rewrite E2. cbn [snd].
    now destruct (Hsame Hoff).
  - subst disposed. unfold after.
    destruct (dispose_run w) as (w1 & E1 & Hoff & _). rewrite E1. cbn [snd].
    destruct (dispose_run w1) as (w2 & E2 & _ & Hsame). rewrite E2. cbn [snd].
    now destruct (Hsame Hoff).
Qed.

(** * Beyond the claims *)

(** ** File names and extensions *)

Lemma hasChar_true_split (c : ascii) (s : string) :
  JS.hasChar c s = true -> exists a b, s = a +:+ String c b /\ JS.hasChar c b = false.
Proof.
  induction s as [|d s IH]; cbn [JS.hasChar]; [discriminate|].
  intros H. destruct (JS.hasChar c s) eqn:E.
  - destruct (IH eq_refl) as (a & b & -> & Hb).
    exists (String d a), b. now rewrite append_cons.
  - rewrite orb_false_r in H. apply Ascii.eqb_eq in H. subst d.
    exists "", s. now rewrite append_nil.
Qed.

Lemma matchExtension_dot (base e : string) :
  JS.isEmpty e = false -> JS.hasChar "." e = false ->
  JS.matchExtension (base +:+ String "." e) = Some e.
Proof.
  intros He Hd. induction base as [|c base IH].
  - rewrite append_nil. cbn [JS.matchExtension]. now rewrite He, Hd.
  - rewrite append_cons. cbn [JS.matchExtension].
    rewrite hasChar_append. cbn [JS.hasChar]. rewrite Ascii.eqb_refl.
    now rewrite orb_true_r, !andb_false_r.
Qed.

Lemma matchExtension_some (s e : string) :
  JS.matchExtension s = Some e ->
  exists base, s = base +:+ String "." e /\ JS.isEmpty e = false /\ JS.hasChar "." e = false.
Proof.
  induction s as [|c s IH]; cbn [JS.matchExtension]; [discriminate|].
  destruct (Ascii.eqb c "." && negb (JS.isEmpty s) && negb (JS.hasChar "." s)) eqn:E.
  - intros [= ->]. apply andb_true_iff in E as [E Hd]. apply andb_true_iff in E as [Hc He].
    apply Ascii.eqb_eq in Hc. subst c. exists "". rewrite append_nil.
    split; [reflexivity|]. split; [now destruct (JS.isEmpty e) | now destruct (JS.hasChar "." e)].
  - intros H. destruct (IH H) as (base & -> & He & Hd).
    exists (String c base). now rewrite append_cons.
Qed.

Lemma matchExtension_none (s : string) :
  JS.matchExtension s = None <->
  JS.hasChar "." s = false \/ exists base, s = base +:+ ".".
Proof.
  split.
  - induction s as [|c s IH]; cbn [JS.matchExtension JS.hasChar]; [now left|].
    destruct (Ascii.eqb c "." && negb (JS.isEmpty s) && negb (JS.hasChar "." s)) eqn:E;
      [discriminate|].
    intros H. destruct (IH H) as [Hn | (base & ->)].
    + rewrite Hn in *. rewrite andb_true_r, orb_false_r in *.
      destruct (Ascii.eqb_spec "." c) as [<-|Hc].
      * right. exists "". rewrite append_nil. rewrite Ascii.eqb_refl in E.
        destruct s; [reflexivity | discriminate].
      * now left.
    + right. exists (String c base). now rewrite append_cons.
  - intros [Hn | (base & ->)].
    + induction s as [|c s IH]; [reflexivity|]. cbn [JS.matchExtension JS.hasChar] in *.
      apply orb_false_iff in Hn as [Hc Hs].
      rewrite Ascii.eqb_sym, Hc. cbn [andb]. now apply IH.
    + induction base as [|c base IH]; [reflexivity|].
      rewrite append_cons. cbn [JS.matchExtension]. rewrite IH.
      rewrite hasChar_append. cbn [JS.hasChar]. rewrite Ascii.eqb_refl.
      now rewrite orb_true_r, !andb_false_r.
Qed.

(** X1.  The extension the classifier reads off a file name: the pattern
    [/\.([^.]+)$/] matches exactly when the name is [base.e] with [e]
    non-empty and free of dots, and then captures [e], the text after
    the last dot; it does not match exactly when the name has no dot or
    ends in one. *)
Theorem matchExtension_last_extension (s : string) :
  (forall e,
     JS.matchExtension s = Some e <->
     exists base, s = base +:+ String "." e /\
                  JS.isEmpty e = false /\ JS.hasChar "." e = false) /\
  (JS.matchExtension s = None <->
   JS.hasChar "." s = false \/ exists base, s = base +:+ ".").
Proof.
  split; [|apply matchExtension_none].
  intros e. split; [apply matchExtension_some|].
  intros (base & -> & He & Hd). now apply matchExtension_dot.
Qed.

Lemma lastIndexOf_bound (c : ascii) (s : string) : -1 <= JS.lastIndexOf c s.
Proof.
  induction s as [|d s IH]; cbn [JS.lastIndexOf]; [lia|].
  destruct (0 <=? JS.lastIndexOf c s) eqn:E; [apply Z.leb_le in E; lia|].
  destruct (Ascii.eqb c d); lia.
Qed.

Lemma lastIndexOf_absent (c : ascii) (s : string) :
  JS.hasChar c s = false -> JS.lastIndexOf c s = -1.
Proof.
  induction s as [|d s IH]; cbn [JS.lastIndexOf JS.hasChar]; [reflexivity|].
  intros H. apply orb_false_iff in H as [Hc Hs]. rewrite (IH Hs), Hc. reflexivity.
Qed.

Lemma lastIndexOf_split (c : ascii) (a b : string) :
  JS.hasChar c b = false -> JS.lastIndexOf c (a +:+ String c b) = JS.strlen a.
Proof.
  intros Hb. unfold JS.strlen. induction a as [|d a IH].
  - rewrite append_nil. cbn [JS.lastIndexOf]. rewrite (lastIndexOf_absent _ _ Hb).
    now rewrite Ascii.eqb_refl.
  - rewrite append_cons. cbn [JS.lastIndexOf String.length]. rewrite IH.
    rewrite (proj2 (Z.leb_le _ _)) by lia. lia.
Qed.

Lemma substring_append_tail (a b : string) :
  String.substring (String.length a) (String.length b) (a +:+ b) = b.
Proof.
  induction a as [|d a IH].
  - rewrite append_nil. apply substring_whole.
  - rewrite append_cons. exact IH.
Qed.

Lemma length_append (a b : string) :
  String.length (a +:+ b) = (String.length a + String.length b)%nat.
Proof. induction a as [|d a IH]; [reflexivity|]. rewrite append_cons. cbn. now rewrite IH. Qed.

Lemma substringFrom_split (c : ascii) (a b : string) :
  JS.substringFrom (JS.strlen a + 1) (a +:+ String c b) = b.
Proof.
  unfold JS.substringFrom, JS.strlen.
  replace (Z.to_nat (Z.of_nat (String.length a) + 1)) with (String.length (a +:+ String c "")).
  2:{ rewrite length_append. cbn. lia. }
  replace (a +:+ String c b) with ((a +:+ String c "") +:+ b).
  2:{ rewrite append_assoc. now rewrite append_cons, append_nil. }
  rewrite (length_append (a +:+ String c "") b).
  replace (String.length (a +:+ String c "") + String.length b
           - String.length (a +:+ String c ""))%nat with (String.length b) by lia.
  apply substring_append_tail.
Qed.

(** [getFileExtension], by the shape of the file name. *)
Lemma getFileExtension_split (d : TextDocument) (base e : string) :
  fileName d = base +:+ String "." e -> JS.hasChar "." e = false ->
  BaseFileHandler.getFileExtension d
  = if JS.isEmpty base then "" else JS.toLowerCase e.
Proof.
  intros Hn He. unfold BaseFileHandler.getFileExtension. rewrite Hn.
  rewrite (lastIndexOf_split _ _ _ He), substringFrom_split.
  rewrite strlen_pos. now destruct (JS.isEmpty base).
Qed.

Lemma getFileExtension_no_dot (d : TextDocument) :
  JS.hasChar "." (fileName d) = false -> BaseFileHandler.getFileExtension d = "".
Proof.
  intros H. unfold BaseFileHandler.getFileExtension.
  now rewrite (lastIndexOf_absent _ _ H).
Qed.

Lemma toLowerCase_empty (s : string) : JS.isEmpty (JS.toLowerCase s) = JS.isEmpty s.
Proof. now destruct s. Qed.

Lemma hasLogPrefix_isLogFile (d : TextDocument) :
  BaseFileHandler.hasLogPrefix d = ContentAnalyzer.isLogFile d.
Proof. reflexivity. Qed.

Lemma canHandle_unfold (t : SupportedFileType) (d : TextDocument) :
  canHandle (handlerFor t) d
  = String.eqb (BaseFileHandler.getFileExtension d) (fileTypeValue t) &&
    ContentAnalyzer.isLogFile d.
Proof. now destruct t. Qed.

Lemma getFileExtension_cases (d : TextDocument) :
  BaseFileHandler.getFileExtension d = "" \/
  exists base e, fileName d = base +:+ String "." e /\ JS.hasChar "." e = false /\
                 JS.isEmpty base = false /\ JS.isEmpty e = false /\
                 BaseFileHandler.getFileExtension d = JS.toLowerCase e.
Proof.
  destruct (JS.hasChar "." (fileName d)) eqn:E.
  - destruct (hasChar_true_split _ _ E) as (base & e & Hn & He).
    rewrite (getFileExtension_split d base e Hn He).
    destruct (JS.isEmpty base) eqn:Eb; [now left|].
    destruct (JS.isEmpty e) eqn:Ee.
    + left. now destruct e.
    + right. now exists base, e.
  - left. now apply getFileExtension_no_dot.
Qed.

(** X2.  A handler accepts only what the classifier would have sent to
    it: when [canHandle] of the handler for a type holds of a document,
    [getFileType] gives that type, the marker is on the first line and
    [shouldProcessDocument] holds. *)
Theorem canHandle_classified (t : SupportedFileType) (d : TextDocument) :
  canHandle (handlerFor t) d = true ->
  ContentAnalyzer.getFileType d = Some t /\
  ContentAnalyzer.isLogFile d = true /\
  ContentAnalyzer.shouldProcessDocument d = true.
Proof.
  rewrite canHandle_unfold. intros H. apply andb_true_iff in H as [Hx Hl].
  apply String.eqb_eq in Hx.
  assert (Ht : ContentAnalyzer.getFileType d = Some t).
  { destruct (getFileExtension_cases d) as [E0 | (base & e & Hn & He & Hb & Hne & Hx')].
    - rewrite E0 in Hx. now destruct t.
    - apply (getFileType_extension d e t); [|congruence].
      rewrite Hn. now apply matchExtension_dot. }
  split; [exact Ht|]. split; [exact Hl|].
  rewrite shouldProcessDocument_spec, Hl, Ht. reflexivity.
Qed.

Lemma canHandle_classified_witness :
  canHandle (handlerFor TEXT) Example.notes = true /\
  ContentAnalyzer.getFileType Example.notes = Some TEXT.
Proof.
  split; [reflexivity|].
  apply (canHandle_classified TEXT Example.notes). reflexivity.
Defined.

(** X3.  The handlers and the classifier read the extension differently
    on a file name that starts with its only dot ([.txt]): the pattern of
    [getFileType] takes the text after the dot as the extension and
    classifies the document, while [getFileExtension] requires the dot
    behind at least one character, returns the empty extension, and no
    handler accepts the document. *)
Theorem hidden_name_not_handled (d : TextDocument) (e : string) (t : SupportedFileType) :
  fileName d = String "." e -> JS.hasChar "." e = false ->
  JS.toLowerCase e = fileTypeValue t ->
  ContentAnalyzer.getFileType d = Some t /\
  forall t', canHandle (handlerFor t') d = false.
Proof.
  intros Hn He Hl. split.
  - apply (getFileType_extension d e t); [|exact Hl].
    rewrite Hn. rewrite <- (append_nil (String "." e)). apply matchExtension_dot; [|exact He].
    destruct e; [now destruct t | reflexivity].
  - intros t'. rewrite canHandle_unfold.
    rewrite (getFileExtension_split d "" e); [|now rewrite append_nil|exact He].
    now destruct t'.
Qed.

Lemma hidden_name_not_handled_witness :
  ContentAnalyzer.getFileType Example.hidden = Some TEXT /\
  forall t, canHandle (handlerFor t) Example.hidden = false.
Proof.
  apply (hidden_name_not_handled Example.hidden "txt" TEXT); reflexivity.
Defined.

(** ** Case of the file name *)

Lemma lowerChar_dot (c : ascii) : Ascii.eqb (JS.lowerChar c) "." = Ascii.eqb c ".".
Proof. destruct c as [[] [] [] [] [] [] [] []]; reflexivity. Qed.

Lemma lowerChar_idempotent (c : ascii) : JS.lowerChar (JS.lowerChar c) = JS.lowerChar c.
Proof. destruct c as [[] [] [] [] [] [] [] []]; reflexivity. Qed.

Lemma toLowerCase_idempotent (s : string) :
  JS.toLowerCase (JS.toLowerCase s) = JS.toLowerCase s.
Proof.
  induction s as [|c s IH]; [reflexivity|].
  cbn [JS.toLowerCase]. now rewrite lowerChar_idempotent, IH.
Qed.

Lemma hasChar_dot_lower (s : string) :
  JS.hasChar "." (JS.toLowerCase s) = JS.hasChar "." s.
Proof.
  induction s as [|c s IH]; [reflexivity|].
  cbn [JS.toLowerCase JS.hasChar].
  now rewrite IH, (Ascii.eqb_sym "." (JS.lowerChar c)), lowerChar_dot, (Ascii.eqb_sym c ".").
Qed.

Lemma matchExtension_lower (s : string) :
  JS.matchExtension (JS.toLowerCase s) = JS.toLowerCase <$> JS.matchExtension s.
Proof.
  induction s as [|c s IH]; [reflexivity|].
  cbn [JS.toLowerCase JS.matchExtension].
  rewrite lowerChar_dot, toLowerCase_empty, hasChar_dot_lower, IH.
  now destruct (Ascii.eqb c "." && negb (JS.isEmpty s) && negb (JS.hasChar "." s)).
Qed.

(** X4.  The detected type depends on the file name only up to case: two
    documents whose names agree after [toLowerCase] and whose language ids
    are equal get the same type. *)
Theorem getFileType_case_insensitive (a b : TextDocument) :
  JS.toLowerCase (fileName a) = JS.toLowerCase (fileName b) ->
  languageId a = languageId b ->
  ContentAnalyzer.getFileType a = ContentAnalyzer.getFileType b.
Proof.
  intros Hn Hl.
  assert (He : JS.toLowerCase <$> JS.matchExtension (fileName a)
               = JS.toLowerCase <$> JS.matchExtension (fileName b))
    by (rewrite <- !matchExtension_lower; congruence).
  unfold ContentAnalyzer.getFileType. rewrite Hl.
  destruct (JS.matchExtension (fileName a)) as [x|],
           (JS.matchExtension (fileName b)) as [y|]; cbn in He; try discriminate.
  - injection He as ->. reflexivity.
  - reflexivity.
Qed.

Lemma getFileType_case_insensitive_witness :
  ContentAnalyzer.getFileType Example.capitals
  = ContentAnalyzer.getFileType Example.notes.
Proof.
  apply (getFileType_case_insensitive Example.capitals Example.notes); reflexivity.
Defined.

(** ** Content analysis *)

(** X5.  [analyzeContent] succeeds exactly on the documents with a
    detected type; its only failure carries [UNSUPPORTED_FILE_TYPE] and no
    data; a returned context holds the detected type, an empty timestamp,
    [shouldProcess] equal to the marker test, and the state not-started
    for a marked document and skipped for an unmarked one. *)
Theorem analyzeContent_outcome (d : TextDocument) :
  let r := ContentAnalyzer.analyzeContent d in
  (success r = true <-> ContentAnalyzer.getFileType d <> None) /\
  (success r = false ->
   data r = None /\ errorCode r = Some UNSUPPORTED_FILE_TYPE) /\
  errorCode r <> Some CONTENT_ANALYSIS_FAILED /\
  (forall context, data r = Some context ->
     ContentAnalyzer.getFileType d = Some (ContentAnalyzer.dc_fileType context) /\
     ContentAnalyzer.dc_shouldProcess context = ContentAnalyzer.isLogFile d /\
     ContentAnalyzer.dc_processingState context
     = (if ContentAnalyzer.isLogFile d then NOT_STARTED else SKIPPED) /\
     ContentAnalyzer.dc_timestamp context = "").
Proof.
  cbn zeta. unfold ContentAnalyzer.analyzeContent.
  rewrite shouldProcessDocument_spec.
  destruct (ContentAnalyzer.getFileType d) as [t|]; cbn.
  - split; [split; [discriminate | reflexivity]|].
    split; [discriminate|]. split; [discriminate|].
    intros context [= <-]. cbn. rewrite andb_true_r. auto.
  - split; [split; [discriminate | congruence]|].
    split; [auto|]. split; discriminate.
Qed.

Lemma analyzeContent_outcome_witness :
  errorCode (ContentAnalyzer.analyzeContent Example.script)
  = Some UNSUPPORTED_FILE_TYPE.
Proof.
  destruct (analyzeContent_outcome Example.script) as (_ & Hfail & _).
  apply Hfail. reflexivity.
Defined.

(** ** The timestamp determines the minute *)

Lemma append_inj_length (a b x y : string) :
  a +:+ x = b +:+ y -> String.length x = String.length y -> a = b /\ x = y.
Proof.
  revert b. induction a as [|c a IH]; intros [|c' b] H Hl.
  - now rewrite !append_nil in H.
  - rewrite append_nil in H. subst x. rewrite append_cons in Hl. cbn in Hl.
    rewrite length_append in Hl. lia.
  - rewrite append_nil in H. subst y. rewrite append_cons in Hl. cbn in Hl.
    rewrite length_append in Hl. lia.
  - rewrite !append_cons in H. injection H as -> H.
    destruct (IH b H Hl) as [-> ->]. auto.
Qed.

Lemma ofNumber_inj (a b : Z) : JS.ofNumber a = JS.ofNumber b -> a = b.
Proof.
  unfold JS.ofNumber. intros H.
  assert (Hnn : forall z, Z.to_int z <> Decimal.Pos Decimal.Nil /\
                          Z.to_int z <> Decimal.Neg Decimal.Nil).
  { intros z. split; intros E; pose proof (of_to z) as Ho; rewrite E in Ho;
      cbn in Ho; subst z; discriminate. }
  apply to_int_inj.
  pose proof (NilZero.isi (Z.to_int a) (proj1 (Hnn a)) (proj2 (Hnn a))) as Ha.
  pose proof (NilZero.isi (Z.to_int b) (proj1 (Hnn b)) (proj2 (Hnn b))) as Hb.
  rewrite H in Ha. congruence.
Qed.

Lemma twoDigits_inj (a b : Z) :
  0 <= a <= 99 -> 0 <= b <= 99 -> Spec.twoDigits a = Spec.twoDigits b -> a = b.
Proof.
  intros Ha Hb H.
  assert (Hall : forall x, 0 <= x < 100 ->
            (fun x => forallb (fun k => implb (String.eqb (Spec.twoDigits x)
                                                     (Spec.twoDigits (Z.of_nat k)))
                                            (x =? Z.of_nat k))
                         (seq 0 100)) x = true).
  { apply (check_interval _ 0 100). vm_compute. reflexivity. }
  specialize (Hall a ltac:(lia)). cbv beta in Hall.
  rewrite forallb_forall in Hall.
  specialize (Hall (Z.to_nat b)). rewrite Z2Nat.id in Hall by lia.
  assert (Hin : In (Z.to_nat b) (seq 0 100)) by (apply in_seq; lia).
  specialize (Hall Hin). rewrite H, String.eqb_refl in Hall. cbn in Hall.
  now apply Z.eqb_eq.
Qed.

Lemma hour12_meridiem_inj (a b : Z) :
  0 <= a <= 23 -> 0 <= b <= 23 ->
  Spec.hour12 a = Spec.hour12 b -> (12 <=? a) = (12 <=? b) -> a = b.
Proof.
  unfold Spec.hour12. intros Ha Hb H Hm.
  destruct (Z.leb_spec 12 a), (Z.leb_spec 12 b); try discriminate;
    Z.div_mod_to_equations; lia.
Qed.

(** X6.  The timestamp determines the minute: two valid dates with the same
    formatted timestamp have the same year, month, day, hour and minute.
    The 12-hour clock loses nothing, the meridiem tells the halves of the
    day apart. *)
Theorem formatTimestamp_injective (a b : JSDate) :
  validDate a -> validDate b ->
  TimestampService.formatTimestamp a = TimestampService.formatTimestamp b ->
  a = b.
Proof.
  intros (Hma & Hda & Hha & Hia) (Hmb & Hdb & Hhb & Hib).
  unfold TimestampService.formatTimestamp. cbn zeta.
  rewrite !hours12_twoDigits, !padStart_twoDigits by lia.
  intros H.
  apply append_inj_length in H as [Hy H].
  2:{ unfold Spec.twoDigits. rewrite !append_cons, !append_nil.
      cbn [String.length]. rewrite ?length_append.
      now destruct (12 <=? getHours a), (12 <=? getHours b). }
  apply ofNumber_inj in Hy.
  unfold Spec.twoDigits in H. rewrite !append_cons, !append_nil in H.
  injection H as Hm1 Hm2 Hd1 Hd2 Hh1 Hh2 Hi1 Hi2 Hp.
  assert (Em : getMonth a + 1 = getMonth b + 1)
    by (apply twoDigits_inj; [lia | lia | unfold Spec.twoDigits; congruence]).
  assert (Ed : getDate a = getDate b)
    by (apply twoDigits_inj; [lia | lia | unfold Spec.twoDigits; congruence]).
  assert (Ei : getMinutes a = getMinutes b)
    by (apply twoDigits_inj; [lia | lia | unfold Spec.twoDigits; congruence]).
  assert (Eh12 : Spec.hour12 (getHours a) = Spec.hour12 (getHours b)).
  { apply twoDigits_inj; [unfold Spec.hour12; Z.div_mod_to_equations; lia
                         | unfold Spec.hour12; Z.div_mod_to_equations; lia
                         | unfold Spec.twoDigits; congruence]. }
  assert (Eh : getHours a = getHours b).
  { apply hour12_meridiem_inj; [lia | lia | exact Eh12 |].
    now destruct (12 <=? getHours a), (12 <=? getHours b). }
  destruct a, b; cbn in *. f_equal; lia.
Qed.

Lemma formatTimestamp_injective_witness :
  validDate Example.afternoon /\ validDate Example.afternoon /\
  Example.afternoon = Example.afternoon.
Proof.
  assert (Hv : validDate Example.afternoon) by (unfold validDate; cbn; lia).
  split; [exact Hv|]. split; [exact Hv|].
  apply (formatTimestamp_injective Example.afternoon Example.afternoon Hv Hv).
  reflexivity.
Defined.

(** ** The logger's history *)

Lemma addToHistory_history (e : ExtensionError) (l : ErrorLoggerState) :
  errorHistory (ErrorLogger.addToHistory e l)
  = drop (length (errorHistory l ++ [e]) - ErrorLogger.maxHistorySize)
         (errorHistory l ++ [e]).
Proof.
  unfold ErrorLogger.addToHistory. cbn [errorHistory].
  destruct (Nat.ltb_spec ErrorLogger.maxHistorySize (length (errorHistory l ++ [e])))
    as [Hlt|Hle]; [reflexivity|].
  replace (length (errorHistory l ++ [e]) - ErrorLogger.maxHistorySize)%nat
    with 0%nat by lia.
  reflexivity.
Qed.

Lemma logErrorState_history (message : string) (code : option ErrorCode)
    (l : ErrorLoggerState) :
  errorHistory (ErrorLogger.logErrorState message code l)
  = errorHistory
      (ErrorLogger.addToHistory
         {| ee_message := message; ee_code := default UNKNOWN_ERROR code |} l).
Proof.
  unfold ErrorLogger.logErrorState. cbn zeta.
  destruct (ErrorLogger.shouldLog ERROR _); [|reflexivity].
  unfold ErrorLogger.writeToOutput. now destruct (outputChannel _).
Qed.

(** X7.  The history of the logger is bounded: after [logError] it holds
    [min (n + 1) 100] entries, where [n] is its length before; it is a
    suffix of the old history followed by the new entry, the new entry is
    its last, and below the bound nothing is dropped.  The log level does
    not matter for the history. *)
Theorem logError_history_bounded (message : string) (code : option ErrorCode)
    (l : ErrorLoggerState) :
  let entry := {| ee_message := message; ee_code := default UNKNOWN_ERROR code |} in
  let history := errorHistory (ErrorLogger.logErrorState message code l) in
  length history
  = Nat.min (S (length (errorHistory l))) ErrorLogger.maxHistorySize /\
  history `suffix_of` errorHistory l ++ [entry] /\
  last history = Some entry /\
  ((length (errorHistory l) < ErrorLogger.maxHistorySize)%nat ->
   history = errorHistory l ++ [entry]).
Proof.
  cbn zeta. rewrite logErrorState_history, addToHistory_history.
  unfold ErrorLogger.maxHistorySize.
  set (h := errorHistory l). set (e := {| ee_message := message; ee_code := _ |}).
  assert (Hlen : length (h ++ [e]) = S (length h))
    by (rewrite length_app; cbn; lia).
  split; [rewrite length_drop, Hlen; lia|].
  split; [apply suffix_drop|].
  split.
  - rewrite Hlen. rewrite drop_app_le by lia.
    now rewrite last_snoc.
  - intros Hlt. rewrite Hlen. now replace (S (length h) - 100)%nat with 0%nat by lia.
Qed.

Lemma logError_history_bounded_witness :
  errorHistory
    (ErrorLogger.logErrorState "failed" None
       (logger (Example.world Example.notes Example.applies)))
  = [{| ee_message := "failed"; ee_code := UNKNOWN_ERROR |}].
Proof.
  apply (logError_history_bounded "failed" None
           (logger (Example.world Example.notes Example.applies))).
  unfold ErrorLogger.maxHistorySize. cbn. lia.
Defined.

(** [getRecentErrors] *)

(** X8.  [getRecentErrors(count)] returns a suffix of the history: for a
    positive [count] its last [min count length] entries.  For [count = 0]
    the slice starts at [-0] and is the whole history, and for a negative
    [count] it is the history without its first [-count] entries. *)
Theorem getRecentErrors_slice (count : Z) (l : ErrorLoggerState) :
  let history := errorHistory l in
  let recent := ErrorLogger.getRecentErrors count l in
  recent `suffix_of` history /\
  (0 < count ->
   length recent = Nat.min (Z.to_nat count) (length history)) /\
  (count = 0 -> recent = history) /\
  (count < 0 -> recent = drop (Z.to_nat (- count)) history).
Proof.
  cbn zeta. unfold ErrorLogger.getRecentErrors, JS.sliceFrom.
  split; [apply suffix_drop|].
  split; [|split].
  - intros Hc. rewrite (proj2 (Z.ltb_lt _ _)) by lia. rewrite length_drop. lia.
  - intros ->. change (- 0) with 0. rewrite (proj2 (Z.ltb_ge 0 0)) by lia.
    now rewrite Z.min_l by lia.
  - intros Hc. rewrite (proj2 (Z.ltb_ge _ _)) by lia.
    destruct (Z.le_gt_cases (- count) (Z.of_nat (length (errorHistory l)))) as [Hle|Hgt].
    + now rewrite Z.min_l by lia.
    + rewrite Z.min_r by lia. rewrite Nat2Z.id.
      rewrite !drop_ge; [reflexivity | lia | lia].
Qed.

Lemma getRecentErrors_slice_witness :
  ErrorLogger.getRecentErrors 0
    (ErrorLogger.logErrorState "failed" None
       (logger (Example.world Example.notes Example.applies)))
  = [{| ee_message := "failed"; ee_code := UNKNOWN_ERROR |}].
Proof.
  destruct (getRecentErrors_slice 0
              (ErrorLogger.logErrorState "failed" None
                 (logger (Example.world Example.notes Example.applies))))
    as (_ & _ & Hall & _).
  rewrite Hall by reflexivity. reflexivity.
Defined.

(** Levels *)

(** X9.  Errors pass every log level: [shouldLog ERROR] holds whatever
    level is set, and [logError] appends its line to the output channel
    when there is one.  At level [ERROR] every other message leaves the
    logger as it is.  A disposed logger writes nothing, but [logError]
    still records the error in its history. *)
Theorem errors_pass_every_level (message : string) (code : option ErrorCode)
    (l : ErrorLoggerState) :
  (forall level, ErrorLogger.shouldLog ERROR (ErrorLogger.setLogLevel level l) = true) /\
  (forall channel,
     outputChannel l = Some channel ->
     outputChannel (ErrorLogger.logErrorState message code l)
     = Some (channel ++ ["ERROR: " +:+ message])) /\
  (forall level tag text,
     level <> ERROR ->
     ErrorLogger.logAt level tag text (ErrorLogger.setLogLevel ERROR l)
     = ErrorLogger.setLogLevel ERROR l) /\
  (forall level tag text,
     ErrorLogger.logAt level tag text (ErrorLogger.dispose l) = ErrorLogger.dispose l) /\
  outputChannel (ErrorLogger.logErrorState message code (ErrorLogger.dispose l)) = None /\
  errorHistory (ErrorLogger.logErrorState message code (ErrorLogger.dispose l))
  = [{| ee_message := message; ee_code := default UNKNOWN_ERROR code |}].
Proof.
  split; [intros []; reflexivity|].
  split.
  { intros channel Hc. unfold ErrorLogger.logErrorState. cbn zeta.
    replace (ErrorLogger.shouldLog ERROR _) with true
      by (unfold ErrorLogger.shouldLog; cbn; now destruct (logLevel l)).
    unfold ErrorLogger.writeToOutput. cbn. now rewrite Hc. }
  split.
  { intros level tag text Hl. unfold ErrorLogger.logAt.
    now destruct level. }
  split.
  { intros level tag text. unfold ErrorLogger.logAt.
    now destruct (ErrorLogger.shouldLog _ _). }
  split.
  - unfold ErrorLogger.logErrorState. cbn zeta.
    destruct (ErrorLogger.shouldLog _ _); reflexivity.
  - rewrite logErrorState_history. reflexivity.
Qed.

Lemma errors_pass_every_level_witness :
  outputChannel
    (ErrorLogger.logErrorState "failed" None
       (logger (Example.world Example.notes Example.applies)))
  = Some ["ERROR: failed"].
Proof.
  destruct (errors_pass_every_level "failed" None
              (logger (Example.world Example.notes Example.applies)))
    as (_ & Hwritten & _).
  apply (Hwritten []). reflexivity.
Defined.

(** ** The monitor: start, then stop *)

Lemma filter_fresh (x : nat) (l : list nat) :
  x ∉ l -> filter (fun y => y <> x) (l ++ [x]) = l.
Proof.
  intros Hx. rewrite filter_app.
  rewrite (filter_cons_False (fun y => y <> x)) by (intros H; now apply H).
  rewrite filter_nil, app_nil_r.
  induction l as [|y l IH]; [reflexivity|].
  rewrite not_elem_of_cons in Hx. destruct Hx as [Hxy Hx].
  rewrite filter_cons_True by congruence. now rewrite IH.
Qed.

(** X10.  Starting and then stopping an inactive monitor leaves the
    host's listeners as they were, given that the host hands out a fresh
    subscription: both calls succeed, the monitor ends inactive without a
    subscription, and the document and the retry table are untouched. *)
Theorem start_then_stop_restores_listeners (w : World) :
  isActive (monitor w) = false ->
  nextListener (workspace w) ∉ openListeners (workspace w) ->
  let started := FileMonitor.startMonitoring w in
  let stopped := FileMonitor.stopMonitoring (after started) in
  result started
  = Returned {| success := true; data := None; error := None; errorCode := None |} /\
  result stopped
  = Returned {| success := true; data := None; error := None; errorCode := None |} /\
  openListeners (workspace (after stopped)) = openListeners (workspace w) /\
  nextListener (workspace (after stopped)) = S (nextListener (workspace w)) /\
  monitor (after stopped) = {| disposable := None; isActive := false |} /\
  theDocument (after stopped) = theDocument w /\
  retryAttempts (after stopped) = retryAttempts w.
Proof.
  intros Hinactive Hfresh started stopped. subst started stopped.
  destruct (monitor_step w) as ((l1 & Estart) & _).
  rewrite Estart, Hinactive. unfold result, after. cbn [fst snd].
  match goal with
  | |- context [FileMonitor.stopMonitoring ?w0] =>
      destruct (monitor_step w0) as (_ & l2 & Estop); rewrite Estop
  end.
  cbn. rewrite (filter_fresh _ _ Hfresh). repeat split.
Qed.

Lemma start_then_stop_restores_listeners_witness :
  openListeners
    (workspace
       (after (FileMonitor.stopMonitoring
                 (after (FileMonitor.startMonitoring
                           (Example.dormant Example.notes))))))
  = openListeners (workspace (Example.dormant Example.notes)).
Proof.
  apply (start_then_stop_restores_listeners (Example.dormant Example.notes));
    [reflexivity | apply not_elem_of_nil].
Defined.

(** ** [clearRetryHistory] *)

Lemma prefix_append (a b : string) : String.prefix a (a +:+ b) = true.
Proof.
  induction a as [|c a IH]; [now destruct b|].
  rewrite append_cons. cbn. now destruct (ascii_dec c c).
Qed.

(** X11.  [clearRetryHistory] removes exactly the entries whose key starts
    with the URI of the document and leaves every other entry, the host and
    the logger alone.  Every key made of the URI and more text goes: the
    entries of all operations on the document, and also those of a
    document whose URI extends this one's. *)
Theorem clearRetryHistory_lookup (w : World) (key : string) :
  let documentUri := uriString (uri (theDocument w)) in
  let cleared := ErrorRecoveryService.clearRetryHistory w in
  result cleared = Returned tt /\
  retryAttempts (after cleared) !! key
  = (if JS.startsWith key documentUri then None else retryAttempts w !! key) /\
  (forall rest, retryAttempts (after cleared) !! (documentUri +:+ rest) = None) /\
  workspace (after cleared) = workspace w /\ window (after cleared) = window w /\
  logger (after cleared) = logger w /\ monitor (after cleared) = monitor w.
Proof.
  cbn zeta. unfold ErrorRecoveryService.clearRetryHistory. munfold. cbn.
  assert (Hl : forall k,
    filter (fun kv : string * nat =>
              negb (JS.startsWith kv.1 (uriString (uri (theDocument w)))) = true)
           (retryAttempts w) !! k
    = if JS.startsWith k (uriString (uri (theDocument w))) then None
      else retryAttempts w !! k).
  { intros k. destruct (JS.startsWith k _) eqn:E.
    - apply map_lookup_filter_None. right. intros x _ H.
      cbv beta in H. cbn [fst] in H. rewrite E in H. discriminate.
    - destruct (retryAttempts w !! k) as [n|] eqn:Ek.
      + apply map_lookup_filter_Some. split; [exact Ek|].
        cbv beta. cbn [fst]. now rewrite E.
      + apply map_lookup_filter_None. now left. }
  split; [reflexivity|]. split; [apply Hl|].
  split; [|auto].
  intros rest. rewrite Hl. unfold JS.startsWith. now rewrite prefix_append.
Qed.

(** ** Counting the edit requests *)

Ltac unroll f := unfold f at 1; cbn beta iota fix; fold @f.

Ltac nlia :=
  unfold ErrorRecoveryService.maxRetries, DocumentEditor.maxRetries in *; lia.

Lemma all_refused_later (w w' : World) :
  all_refused w ->
  applyEditOracle (workspace w') = applyEditOracle (workspace w) ->
  (editRequests (workspace w) <= editRequests (workspace w'))%nat ->
  all_refused w'.
Proof.
  intros H Ho Hle k Hk. rewrite Ho. apply H. lia.
Qed.

Lemma applyEdit_count e w :
  exists r w',
    applyEdit e w = (r, w') /\
    editRequests (workspace w') = S (editRequests (workspace w)) /\
    applyEditOracle (workspace w') = applyEditOracle (workspace w) /\
    logger w' = logger w /\ retryAttempts w' = retryAttempts w /\
    (all_refused w -> r <> Returned true /\ theDocument w' = theDocument w).
Proof.
  unfold applyEdit.
  destruct (applyEditOracle (workspace w) (editRequests (workspace w))) eqn:E.
  all: eexists _, _; split; [reflexivity|]; cbn; do 4 (split; [reflexivity|]).
  all: intros H; specialize (H _ (Nat.le_refl _)); split; congruence.
Qed.

Lemma applyEditAttempts_count e fuel attempt w :
  exists r w',
    DocumentEditor.applyEditAttempts fuel attempt e w = (Returned r, w') /\
    (editRequests (workspace w') <= editRequests (workspace w) + fuel)%nat /\
    applyEditOracle (workspace w') = applyEditOracle (workspace w) /\
    logger w' = logger w /\ retryAttempts w' = retryAttempts w /\
    (all_refused w ->
     success r = false /\ theDocument w' = theDocument w /\
     ((DocumentEditor.maxRetries < attempt + fuel)%nat ->
      editRequests (workspace w')
      = (editRequests (workspace w) + (S DocumentEditor.maxRetries - attempt))%nat)).
Proof.
  revert attempt w. induction fuel as [|fuel IH]; intros attempt w.
  - unroll DocumentEditor.applyEditAttempts.
    destruct (Nat.leb_spec attempt DocumentEditor.maxRetries); cbn [negb]; munfold.
    all: eexists _, _; (split; [reflexivity|]); (split; [lia|]);
      do 3 (split; [reflexivity|]); intros _; (split; [reflexivity|]);
      (split; [reflexivity|]); unfold DocumentEditor.maxRetries in *; lia.
  - unroll DocumentEditor.applyEditAttempts.
    destruct (Nat.leb_spec attempt DocumentEditor.maxRetries) as [Ha|Ha]; cbn [negb].
    2:{ munfold. eexists _, _. split; [reflexivity|]. split; [lia|].
        do 3 (split; [reflexivity|]). intros _. split; [reflexivity|].
        split; [reflexivity|]. unfold DocumentEditor.maxRetries in *. lia. }
    munfold.
    destruct (applyEdit_count e w) as (r0 & w1 & E0 & Hn & Ho & Hl & Hr & Href).
    rewrite E0.
    assert (Hlater : all_refused w -> all_refused w1)
      by (intros H; apply (all_refused_later w); [assumption | assumption | lia]).
    destruct (IH (S attempt) w1) as (r2 & w2 & E2 & Hn2 & Ho2 & Hl2 & Hr2 & Href2).
    destruct r0 as [[|]|msg].
    + eexists _, _. split; [reflexivity|].
      split; [lia|]. split; [assumption|]. split; [assumption|]. split; [assumption|].
      intros H. destruct (Href H) as [Hx _]. congruence.
    + destruct (Nat.ltb_spec attempt DocumentEditor.maxRetries) as [Hlt|Hge].
      * rewrite E2. eexists _, _. split; [reflexivity|].
        split; [lia|]. split; [congruence|]. split; [congruence|]. split; [congruence|].
        intros H. destruct (Href2 (Hlater H)) as (Hs & Hd & Hc).
        destruct (Href H) as (_ & Hd0).
        split; [exact Hs|]. split; [congruence|]. intros Hf. rewrite Hc by lia. lia.
      * eexists _, _. split; [reflexivity|].
        split; [lia|]. split; [assumption|]. split; [assumption|]. split; [assumption|].
        intros H. destruct (Href H) as (_ & Hd0).
        split; [reflexivity|]. split; [assumption|]. intros _.
        unfold DocumentEditor.maxRetries in *. lia.
    + destruct (Nat.ltb_spec attempt DocumentEditor.maxRetries) as [Hlt|Hge].
      * rewrite E2. eexists _, _. split; [reflexivity|].
        split; [lia|]. split; [congruence|]. split; [congruence|]. split; [congruence|].
        intros H. destruct (Href2 (Hlater H)) as (Hs & Hd & Hc).
        destruct (Href H) as (_ & Hd0).
        split; [exact Hs|]. split; [congruence|]. intros Hf. rewrite Hc by lia. lia.
      * eexists _, _. split; [reflexivity|].
        split; [lia|]. split; [assumption|]. split; [assumption|]. split; [assumption|].
        intros H. destruct (Href H) as (_ & Hd0).
        split; [reflexivity|]. split; [assumption|]. intros _.
        unfold DocumentEditor.maxRetries in *. lia.
Qed.

Lemma applyEditWithRetry_count e w :
  exists r w',
    DocumentEditor.applyEditWithRetry e w = (Returned r, w') /\
    (editRequests (workspace w') <= editRequests (workspace w) + 2)%nat /\
    applyEditOracle (workspace w') = applyEditOracle (workspace w) /\
    logger w' = logger w /\ retryAttempts w' = retryAttempts w /\
    (all_refused w ->
     success r = false /\ theDocument w' = theDocument w /\
     editRequests (workspace w') = (editRequests (workspace w) + 2)%nat) /\
    theDocument w' = (if success r then editedDocument (theDocument w) e
                      else theDocument w).
Proof.
  destruct (applyEditWithRetry_run e w) as (r0 & w0 & E0 & (Hrun & _) & _).
  apply edit_run_document in Hrun.
  unfold DocumentEditor.applyEditWithRetry in *.
  destruct (applyEditAttempts_count e (S DocumentEditor.maxRetries) 0 w)
    as (r & w' & E & Hn & Ho & Hl & Hr & Href).
  rewrite E in E0. injection E0 as <- <-.
  exists r, w'. split; [exact E|]. split; [exact Hn|].
  split; [exact Ho|]. split; [exact Hl|]. split; [exact Hr|].
  split; [|exact Hrun].
  intros H. destruct (Href H) as (Hs & Hd & Hc).
  split; [exact Hs|]. split; [exact Hd|]. rewrite Hc; [reflexivity|].
  unfold DocumentEditor.maxRetries. lia.
Qed.

Lemma exhausted_count {T} key op w :
  ErrorRecoveryService.exhausted (T:=T) key op w
  = (Returned (ErrorRecoveryService.failure
                 ("Maximum retry attempts (" +:+
                  JS.ofNumber (Z.of_nat ErrorRecoveryService.maxRetries) +:+
                  ") exceeded for " +:+ op)),
     set_retryAttempts (delete key (retryAttempts w)) w).
Proof. reflexivity. Qed.

Lemma retryLoop_count e key op fuel cur w :
  exists r w',
    ErrorRecoveryService.retryLoop fuel key op cur
      (DocumentEditor.applyEditWithRetry e) w = (Returned r, w') /\
    (editRequests (workspace w') <= editRequests (workspace w) + 2 * fuel)%nat /\
    applyEditOracle (workspace w') = applyEditOracle (workspace w) /\
    retryAttempts w' = delete key (retryAttempts w) /\
    (all_refused w -> isClosed (theDocument w) = false ->
     (ErrorRecoveryService.maxRetries <= cur + fuel)%nat ->
     r = ErrorRecoveryService.failure
           ("Maximum retry attempts (" +:+
            JS.ofNumber (Z.of_nat ErrorRecoveryService.maxRetries) +:+
            ") exceeded for " +:+ op) /\
     theDocument w' = theDocument w /\
     editRequests (workspace w')
     = (editRequests (workspace w) + 2 * (ErrorRecoveryService.maxRetries - cur))%nat).
Proof.
  revert cur w. induction fuel as [|fuel IH]; intros cur w.
  - unroll @ErrorRecoveryService.retryLoop.
    destruct (Nat.ltb_spec cur ErrorRecoveryService.maxRetries); cbn [negb];
      rewrite exhausted_count.
    all: eexists _, _; (split; [reflexivity|]); cbn; (split; [nlia|]);
      do 2 (split; [reflexivity|]); intros _ _ Hf; (split; [reflexivity|]);
      (split; [reflexivity|]); nlia.
  - unroll @ErrorRecoveryService.retryLoop.
    destruct (Nat.ltb_spec cur ErrorRecoveryService.maxRetries) as [Hcur|Hcur];
      cbn [negb].
    2:{ rewrite exhausted_count. eexists _, _. split; [reflexivity|]. cbn.
        split; [nlia|]. do 2 (split; [reflexivity|]). intros _ _ _.
        split; [reflexivity|]. split; [reflexivity|]. nlia. }
    munfold. cbn.
    destruct (isClosed (theDocument w)) eqn:Hclosed.
    { cbn. eexists _, _. split; [reflexivity|]. cbn. split; [nlia|].
      do 2 (split; [reflexivity|]). intros _ Hc. discriminate. }
    unfold ErrorRecoveryService.attemptOnce. munfold.
    destruct (0 <? cur)%nat; cbn.
    all: match goal with
         | |- context [DocumentEditor.applyEditWithRetry ?e0 ?w0] =>
             destruct (applyEditWithRetry_count e0 w0)
               as (r1 & w1 & E1 & Hn1 & Ho1 & Hl1 & Hr1 & Href1 & _);
             rewrite E1; cbn in Hn1, Ho1, Hr1, Href1
         end.
    all: assert (Href1' : all_refused w ->
                   success r1 = false /\ theDocument w1 = theDocument w /\
                   editRequests (workspace w1) = (editRequests (workspace w) + 2)%nat)
           by (intros H; apply Href1; intros k Hk; apply H; exact Hk).
    all: destruct (success r1) eqn:Hs1; cbn.
    all: try (eexists _, _; (split; [reflexivity|]); cbn; (split; [nlia|]);
              (split; [assumption|]);
              (split; [rewrite Hr1; apply delete_insert_eq|]);
              intros H _ _; destruct (Href1' H); discriminate).
    all: destruct (Nat.leb_spec ErrorRecoveryService.maxRetries (S cur)) as [Hmax|Hmax].
    all: try (rewrite exhausted_count; eexists _, _; (split; [reflexivity|]); cbn;
              (split; [nlia|]); (split; [assumption|]);
              (split; [rewrite Hr1; apply delete_insert_eq|]);
              intros H _ _; destruct (Href1' H) as (_ & Hd & Hc);
              (split; [reflexivity|]); (split; [assumption|]); nlia).
    all: match goal with
         | |- context [ErrorRecoveryService.retryLoop _ _ _ ?c _ ?w0] =>
             destruct (IH c w0) as (r2 & w2 & E2 & Hn2 & Ho2 & Hr2 & Href2);
             rewrite E2; cbn in Hn2, Ho2, Hr2, Href2
         end.
    all: eexists _, _; (split; [reflexivity|]); (split; [nlia|]);
         (split; [congruence|]);
         (split; [rewrite Hr2, Hr1; apply delete_insert_eq|]);
         intros H Hc Hf; destruct (Href1' H) as (_ & Hd & Hc1);
         destruct Href2 as (-> & Hd2 & Hc2);
           [ apply (all_refused_later w); [exact H | cbn; assumption | cbn; nlia]
           | congruence | nlia |];
         (split; [reflexivity|]); (split; [congruence|]); nlia.
Qed.

Lemma recover_count e msg w :
  exists r w',
    ErrorRecoveryService.recoverFromDocumentModificationFailure "applyEdit" msg
      (DocumentEditor.applyEditWithRetry e) w = (Returned r, w') /\
    (editRequests (workspace w') <= editRequests (workspace w) + 6)%nat /\
    applyEditOracle (workspace w') = applyEditOracle (workspace w) /\
    retryAttempts w' = delete (recoveryKey w "applyEdit") (retryAttempts w) /\
    (all_refused w -> isClosed (theDocument w) = false ->
     retryAttempts w !! recoveryKey w "applyEdit" = None ->
     r = ErrorRecoveryService.failure
           "Maximum retry attempts (3) exceeded for applyEdit" /\
     theDocument w' = theDocument w /\
     editRequests (workspace w') = (editRequests (workspace w) + 6)%nat).
Proof.
  unfold ErrorRecoveryService.recoverFromDocumentModificationFailure, recoveryKey.
  munfold. cbn.
  set (key := uriString (uri (theDocument w)) +:+ "-applyEdit").
  destruct (negb _); cbn.
  all: match goal with
       | |- context [ErrorRecoveryService.retryLoop ?f ?k ?o ?c
                       (DocumentEditor.applyEditWithRetry ?e0) ?w0] =>
           destruct (retryLoop_count e0 k o f c w0)
             as (r & w' & E & Hn & Ho & Hr & Href); rewrite E;
           cbn in Hn, Ho, Hr, Href
       end.
  all: exists r, w'; (split; [reflexivity|]); (split; [nlia|]);
       (split; [assumption|]); (split; [assumption|]);
       intros H Hc Hk; rewrite Hk in *; cbn in Href;
       destruct Href as (-> & Hd & Hcount);
         [intros k Hle; apply H; exact Hle | exact Hc | nlia |];
       (split; [reflexivity|]); (split; [assumption|]); nlia.
Qed.

Lemma applyEditWithRetryAndRecovery_count e w :
  exists r w',
    DocumentEditor.applyEditWithRetryAndRecovery e w = (Returned r, w') /\
    (editRequests (workspace w') <= editRequests (workspace w) + 8)%nat /\
    applyEditOracle (workspace w') = applyEditOracle (workspace w) /\
    (retryAttempts w' = retryAttempts w /\ success r = true \/
     retryAttempts w' = delete (recoveryKey w "applyEdit") (retryAttempts w)) /\
    (all_refused w -> isClosed (theDocument w) = false ->
     retryAttempts w !! recoveryKey w "applyEdit" = None ->
     r = ErrorRecoveryService.failure
           "Maximum retry attempts (3) exceeded for applyEdit" /\
     theDocument w' = theDocument w /\
     editRequests (workspace w') = (editRequests (workspace w) + 8)%nat).
Proof.
  unfold DocumentEditor.applyEditWithRetryAndRecovery. munfold.
  destruct (applyEditWithRetry_count e w)
    as (r1 & w1 & E1 & Hn1 & Ho1 & Hl1 & Hr1 & Href1 & Hd1). rewrite E1.
  destruct (success r1) eqn:Hs1; cbn.
  - exists r1, w1. split; [reflexivity|]. split; [lia|]. split; [assumption|].
    split; [left; auto|]. intros H _ _. destruct (Href1 H). congruence.
  - match goal with
    | |- context [ErrorRecoveryService.recoverFromDocumentModificationFailure _ ?m _ w1] =>
        destruct (recover_count e m w1) as (r & w' & E & Hn & Ho & Hr & Href); rewrite E
    end.
    assert (Hkey : recoveryKey w1 "applyEdit" = recoveryKey w "applyEdit")
      by (unfold recoveryKey; now rewrite Hd1).
    rewrite Hkey, Hr1, Hd1 in *.
    assert (Hall : all_refused w -> isClosed (theDocument w) = false ->
              retryAttempts w !! recoveryKey w "applyEdit" = None ->
              r = ErrorRecoveryService.failure
                    "Maximum retry attempts (3) exceeded for applyEdit" /\
              theDocument w' = theDocument w /\
              editRequests (workspace w') = (editRequests (workspace w) + 8)%nat).
    { intros H Hc Hk. destruct (Href1 H) as (_ & _ & Hc1).
      destruct Href as (-> & Hd & Hcount);
        [apply (all_refused_later w); [exact H | exact Ho1 | lia] | exact Hc | exact Hk |].
      split; [reflexivity|]. split; [exact Hd|]. lia. }
    destruct (success r) eqn:Hs; cbn.
    all: eexists _, _; (split; [reflexivity|]); cbn; (split; [lia|]);
         (split; [congruence|]); (split; [right; exact Hr|]); exact Hall.
Qed.

Lemma mutable_open (d : TextDocument) : mutable d = true -> isClosed d = false.
Proof. unfold mutable. now destruct (isClosed d). Qed.

Lemma lineAt_last_some (d : TextDocument) :
  lines d <> [] -> exists l, lineAt d (lineCount d - 1) = Some l.
Proof.
  intros Hne. rewrite lineAt_last by assumption.
  destruct (lines_snoc d Hne) as (init & l & _ & ->). now exists l.
Qed.

Lemma lineAt_last_none (d : TextDocument) :
  lines d = [] -> lineAt d (lineCount d - 1) = None.
Proof. intros H. unfold lineAt, lineCount. now rewrite H. Qed.

Lemma insertTextAtEnd_count text w :
  exists r w',
    DocumentEditor.insertTextAtEnd text w = (Returned r, w') /\
    (editRequests (workspace w') <= editRequests (workspace w) + 8)%nat /\
    applyEditOracle (workspace w') = applyEditOracle (workspace w) /\
    retryAttempts w' ⊆ retryAttempts w /\
    window w' = window w /\
    (mutable (theDocument w) = true -> lines (theDocument w) <> [] ->
     retryAttempts w' = retryAttempts w /\ success r = true \/
     retryAttempts w' = delete (recoveryKey w "applyEdit") (retryAttempts w)) /\
    (mutable (theDocument w) = false \/ lines (theDocument w) = [] ->
     workspace w' = workspace w /\ retryAttempts w' = retryAttempts w /\
     success r = false /\
     errorCode r = Some (if mutable (theDocument w)
                         then DOCUMENT_MODIFICATION_FAILED else PERMISSION_DENIED)) /\
    (all_refused w -> mutable (theDocument w) = true -> lines (theDocument w) <> [] ->
     retryAttempts w !! recoveryKey w "applyEdit" = None ->
     r = ErrorRecoveryService.failure
           "Maximum retry attempts (3) exceeded for applyEdit" /\
     theDocument w' = theDocument w /\
     editRequests (workspace w') = (editRequests (workspace w) + 8)%nat).
Proof.
  destruct (insertTextAtEnd_run text w) as (r0 & w0 & E0 & (_ & Hwin & _) & _).
  unfold DocumentEditor.insertTextAtEnd, recoveryKey in *. munfold. cbn in *.
  match goal with
  | |- context [DocumentEditor.canModifyDocument ?w0] =>
      destruct (canModifyDocument_run w0) as (l & E & _); rewrite E in *; clear E
  end.
  cbn in *. destruct (mutable (theDocument w)) eqn:Hm; cbn in *.
  - unfold lineAtText in *. munfold. cbn in *.
    destruct (lineAt (theDocument w) (lineCount (theDocument w) - 1))
      as [lastLineText|] eqn:El.
    + match goal with
      | |- context [DocumentEditor.applyEditWithRetryAndRecovery ?e ?w1] =>
          destruct (applyEditWithRetryAndRecovery_count e w1)
            as (r & w' & E & Hn & Ho & Hr & Href); rewrite E in *; clear E
      end.
      unfold recoveryKey in *. cbn in Hn, Ho, Hr, Href.
      assert (Hne : lines (theDocument w) <> [])
        by (intros Hnil; rewrite lineAt_last_none in El by assumption; discriminate).
      assert (Hsub : retryAttempts w' ⊆ retryAttempts w)
        by (destruct Hr as [[-> _]| ->]; [reflexivity | apply delete_subseteq]).
      destruct (success r) eqn:Hs; cbn in *.
      all: injection E0 as <- <-; cbn in Hwin.
      all: eexists _, _; (split; [reflexivity|]); cbn.
      all: split; [lia|]; split; [assumption|]; split; [assumption|].
      all: split; [assumption|].
      all: split; [intros _ _; rewrite Hs; exact Hr|].
      all: split; [intros [Hx|Hx]; [discriminate | contradiction]|].
      all: intros H _ _ Hk; apply Href;
           [intros k Hle; apply H; exact Hle | now apply mutable_open | exact Hk].
    + assert (Hnil : lines (theDocument w) = []).
      { destruct (lines (theDocument w)) eqn:Hl; [reflexivity|].
        destruct (lineAt_last_some (theDocument w)) as (x & Hx);
          [rewrite Hl; discriminate | congruence]. }
      cbn. eexists _, _. split; [reflexivity|]. cbn.
      split; [lia|]. do 3 (split; [reflexivity|]).
      split; [intros _ Hne; contradiction|].
      split; [intros _; auto|].
      intros _ _ Hne. contradiction.
  - match goal with
    | |- context [ErrorRecoveryService.recoverFromPermissionError ?f ?o ?w1] =>
        destruct (recoverFromPermissionError_run f o w1) as (res & l' & E);
        rewrite E in *; clear E
    end.
    cbn. eexists _, _. split; [reflexivity|]. cbn.
    split; [lia|]. do 3 (split; [reflexivity|]).
    split; [discriminate|].
    split; [intros _; auto|].
    discriminate.
Qed.

Lemma gracefulTimestampFailure_exact timestamp message w :
  ErrorRecoveryService.gracefulTimestampFailure timestamp message w
  = (Returned {| pr_success := false;
                 pr_error := Some ("Could not insert timestamp: " +:+ message);
                 pr_documentModified := false;
                 pr_processingState := FAILED;
                 pr_timestamp := Some timestamp |},
     set_window
       {| activeTextEditor := activeTextEditor (window w);
          statusBar := statusBar (window w) ++
            ["dotLOG: Could not add timestamp to " +:+ fileName (theDocument w)] |}
       (set_logger
          (ErrorLogger.logErrorState
             ("Graceful failure: Could not insert timestamp into " +:+
              fileName (theDocument w))
             (Some DOCUMENT_MODIFICATION_FAILED) (logger w)) w)).
Proof. reflexivity. Qed.

Lemma positionCursorAtEnd_frame w :
  exists res w',
    DocumentEditor.positionCursorAtEnd w = (Returned res, w') /\
    workspace w' = workspace w /\ retryAttempts w' = retryAttempts w /\
    (forall editor,
       activeTextEditor (window w) = Some editor ->
       uriString (te_documentUri editor) = uriString (uri (theDocument w)) ->
       lines (theDocument w) <> [] ->
       res = {| success := true; data := None; error := None; errorCode := None |} /\
       window w'
       = {| activeTextEditor :=
              Some {| te_documentUri := te_documentUri editor;
                      te_selection :=
                        (endPosition (theDocument w), endPosition (theDocument w));
                      te_revealed := Some (endPosition (theDocument w)) |};
            statusBar := statusBar (window w) |}).
Proof.
  unfold DocumentEditor.positionCursorAtEnd, endPosition. munfold. cbn.
  destruct (activeTextEditor (window w)) as [editor|]; cbn.
  - destruct (String.eqb_spec (uriString (te_documentUri editor))
                              (uriString (uri (theDocument w)))) as [Heq|Hne]; cbn.
    + unfold lineAtText. munfold. cbn.
      destruct (lineAt _ _) eqn:El; cbn.
      * eexists _, _. split; [reflexivity|]. cbn. do 2 (split; [reflexivity|]).
        intros ed [= <-] _ _. split; reflexivity.
      * unfold ErrorRecoveryService.gracefulCursorPositioningFailure. munfold. cbn.
        eexists _, _. split; [reflexivity|]. cbn. do 2 (split; [reflexivity|]).
        intros ed _ _ Hne. destruct (lineAt_last_some _ Hne). congruence.
    + eexists _, _. split; [reflexivity|]. cbn. do 2 (split; [reflexivity|]).
      intros ed [= <-] Hx. contradiction.
  - eexists _, _. split; [reflexivity|]. cbn. do 2 (split; [reflexivity|]).
    discriminate.
Qed.

Lemma orElse_nonempty (a b : string) : JS.isEmpty a = false -> JS.orElse a b = a.
Proof. unfold JS.orElse. now intros ->. Qed.

Lemma processDocument_count h timestamp w :
  exists res w',
    BaseFileHandler.processDocument h timestamp w = (Returned res, w') /\
    (editRequests (workspace w') <= editRequests (workspace w) + 8)%nat /\
    applyEditOracle (workspace w') = applyEditOracle (workspace w) /\
    retryAttempts w' ⊆ retryAttempts w /\
    (mutable (theDocument w) = true -> lines (theDocument w) <> [] ->
     retryAttempts w' = retryAttempts w /\ pr_success res = true \/
     retryAttempts w' = delete (recoveryKey w "applyEdit") (retryAttempts w)) /\
    (mutable (theDocument w) = false -> retryAttempts w' = retryAttempts w) /\
    (pr_success res = true ->
     mutable (theDocument w) = true /\ lines (theDocument w) <> []) /\
    (all_refused w -> mutable (theDocument w) = true -> lines (theDocument w) <> [] ->
     retryAttempts w !! recoveryKey w "applyEdit" = None ->
     res = {| pr_success := false;
              pr_error := Some ("Could not insert timestamp: " +:+
                                "Maximum retry attempts (3) exceeded for applyEdit");
              pr_documentModified := false;
              pr_processingState := FAILED;
              pr_timestamp := Some (formatTimestamp h timestamp) |} /\
     theDocument w' = theDocument w /\
     editRequests (workspace w') = (editRequests (workspace w) + 8)%nat /\
     window w'
     = {| activeTextEditor := activeTextEditor (window w);
          statusBar := statusBar (window w) ++
            ["dotLOG: Could not add timestamp to " +:+ fileName (theDocument w)] |}).
Proof.
  unfold BaseFileHandler.processDocument, recoveryKey. munfold. cbn.
  match goal with
  | |- context [DocumentEditor.canModifyDocument ?w0] =>
      destruct (canModifyDocument_run w0) as (l & E & Hl); rewrite E; clear E
  end.
  cbn. destruct (mutable (theDocument w)) eqn:Hm; cbn.
  - match goal with
    | |- context [DocumentEditor.insertTextAtEnd ?t ?w0] =>
        destruct (insertTextAtEnd_count t w0)
          as (ins & w1 & E & Hn & Ho & Hsub & Hwin & Hr & Hfail & Href);
        rewrite E; clear E
    end.
    unfold recoveryKey in *. cbn in Hn, Ho, Hsub, Hwin, Hr, Hfail, Href.
    rewrite Hm in *.
    destruct (success ins) eqn:Hs; cbn.
    + destruct (positionCursorAtEnd_frame w1) as (cur & w2 & E & Hws & Hra & _).
      rewrite E; clear E.
      destruct (success cur); cbn.
      all: eexists _, _; (split; [reflexivity|]); cbn; rewrite Hws, Hra.
      all: split; [lia|]; split; [assumption|]; split; [assumption|].
      all: split; [intros _ Hne; exact (Hr eq_refl Hne)|].
      all: split; [discriminate|].
      all: split;
        [intros _; split; [reflexivity|]; intros Hnil;
         destruct Hfail as (_ & _ & Hx & _); [now right | congruence]|].
      all: intros H _ Hne Hk; destruct Href as (-> & _);
           [intros k Hle; apply H; exact Hle | reflexivity | exact Hne | exact Hk |];
           discriminate.
    + rewrite gracefulTimestampFailure_exact.
      eexists _, _; (split; [reflexivity|]); cbn.
      split; [lia|]. split; [assumption|]. split; [assumption|].
      split.
      { intros _ Hne. destruct (Hr eq_refl Hne) as [[_ Hx]|Hx];
          [discriminate | right; exact Hx]. }
      split; [discriminate|]. split; [discriminate|].
      intros H _ Hne Hk. destruct Href as (-> & Hd & Hc);
        [intros k Hle; apply H; exact Hle | reflexivity | exact Hne | exact Hk |].
      cbn. rewrite Hd, Hwin. auto.
  - eexists _, _; (split; [reflexivity|]); cbn.
    split; [lia|]. do 2 (split; [reflexivity|]).
    split; [discriminate|]. split; [reflexivity|]. split; discriminate.
Qed.

Lemma onDocumentOpened_count w :
  exists res w',
    FileMonitor.onDocumentOpened activatedHandlers w = (Returned res, w') /\
    (editRequests (workspace w') <= editRequests (workspace w) + 8)%nat /\
    applyEditOracle (workspace w') = applyEditOracle (workspace w) /\
    retryAttempts w' ⊆ retryAttempts w /\
    (forall t,
       ContentAnalyzer.getFileType (theDocument w) = Some t ->
       ContentAnalyzer.isLogFile (theDocument w) = true ->
       mutable (theDocument w) = true ->
       (retryAttempts w' = retryAttempts w /\ pr_success res = true \/
        retryAttempts w' = delete (recoveryKey w "applyEdit") (retryAttempts w)) /\
       (all_refused w -> retryAttempts w !! recoveryKey w "applyEdit" = None ->
        res = refusedResult
                (formatTimestamp (handlerFor t)
                   (TimestampService.formatTimestamp (now w))) /\
        theDocument w' = theDocument w /\
        editRequests (workspace w') = (editRequests (workspace w) + 8)%nat /\
        window w'
        = {| activeTextEditor := activeTextEditor (window w);
             statusBar := statusBar (window w) ++
               ["dotLOG: Could not add timestamp to " +:+
                fileName (theDocument w)] |})) /\
    (ContentAnalyzer.shouldProcessDocument (theDocument w) = false \/
     mutable (theDocument w) = false ->
     retryAttempts w' = retryAttempts w).
Proof.
  unfold FileMonitor.onDocumentOpened, ContentAnalyzer.analyzeContent, recoveryKey,
    refusedResult.
  munfold. cbn.
  destruct (ContentAnalyzer.getFileType (theDocument w)) as [t|] eqn:Ht; cbn.
  - rewrite shouldProcessDocument_spec, Ht. cbn [bool_decide]. 
    rewrite bool_decide_eq_true_2 by discriminate. rewrite andb_true_r.
    destruct (ContentAnalyzer.isLogFile (theDocument w)) eqn:Hp; cbn.
    + rewrite getCurrentTimestamp_run. cbn.
      rewrite formatTimestamp_not_empty. cbn.
      rewrite activatedHandlers_lookup.
      match goal with
      | |- context [BaseFileHandler.processDocument ?h ?t ?w0] =>
          destruct (processDocument_count h t w0)
            as (res & w1 & E & Hn & Ho & Hsub & Hr & Hnm & _ & Href);
          rewrite E; clear E
      end.
      unfold recoveryKey in *. cbn in Hn, Ho, Hsub, Hr, Hnm, Href.
      pose proof (isLogFile_lines _ Hp) as Hne.
      destruct (pr_success res) eqn:Hs; cbn.
      all: eexists _, _; (split; [reflexivity|]); cbn.
      all: split; [lia|]; split; [assumption|]; split; [assumption|].
      all: split; [|intros [Hx|Hx]; [discriminate | now apply Hnm]].
      all: intros t' [= <-] _ Hm; split; [rewrite ?Hs; exact (Hr Hm Hne)|].
      all: intros H Hk; apply Href;
           [intros k Hle; apply H; exact Hle | exact Hm | exact Hne | exact Hk].
    + eexists _, _; (split; [reflexivity|]); cbn.
      split; [lia|]. do 2 (split; [reflexivity|]).
      split; [|reflexivity]. intros t' _ Hx. discriminate.
  - eexists _, _; (split; [reflexivity|]); cbn.
    split; [lia|]. do 2 (split; [reflexivity|]).
    split; [|reflexivity]. intros t' Hx. discriminate.
Qed.

Lemma onDocumentOpened_uri w :
  uri (theDocument (after (FileMonitor.onDocumentOpened activatedHandlers w)))
  = uri (theDocument w).
Proof.
  destruct (onDocumentOpened_run w) as (res & w' & E & _ & _ & Hop).
  rewrite E. unfold after. cbn [snd]. unfold opened in Hop.
  destruct (ContentAnalyzer.getFileType (theDocument w)) as [t|].
  - destruct (ContentAnalyzer.shouldProcessDocument (theDocument w)).
    + destruct Hop as (Hrun & _). apply edit_run_document in Hrun.
      rewrite Hrun. now destruct (pr_success res).
    + destruct Hop as (_ & -> & _). reflexivity.
  - destruct Hop as (_ & -> & _). reflexivity.
Qed.

Lemma handleDocumentOpened_count w :
  exists w',
    FileMonitor.handleDocumentOpened activatedHandlers w = (Returned tt, w') /\
    workspace w' = workspace (after (FileMonitor.onDocumentOpened activatedHandlers w)) /\
    window w' = window (after (FileMonitor.onDocumentOpened activatedHandlers w)) /\
    (editRequests (workspace w') <= editRequests (workspace w) + 8)%nat /\
    retryAttempts w' ⊆ retryAttempts w /\
    (forall t,
       ContentAnalyzer.getFileType (theDocument w) = Some t ->
       (ContentAnalyzer.isLogFile (theDocument w) = true ->
        mutable (theDocument w) = true) ->
       retryAttempts w' !! recoveryKey w "applyEdit" = None).
Proof.
  destruct (ContentAnalyzer.getFileType (theDocument w)) as [t|] eqn:Ht.
  2:{ destruct (handleDocumentOpened_unsupported w Ht) as (l & E & _).
      destruct (onDocumentOpened_run w) as (res & w1 & E1 & _ & _ & Hop).
      unfold opened in Hop. rewrite Ht in Hop. destruct Hop as (_ & Hws & Hwin & _).
      rewrite E, E1. unfold after. cbn [snd].
      eexists. split; [reflexivity|]. cbn. rewrite Hws, Hwin.
      do 2 (split; [reflexivity|]). split; [lia|]. split; [reflexivity|].
      intros t' Hx. discriminate. }
  pose proof (onDocumentOpened_uri w) as Huri.
  destruct (onDocumentOpened_run w) as (res0 & w0 & E0 & _ & _ & Hop).
  destruct (onDocumentOpened_count w) as (res & w1 & E & Hn & Ho & Hsub & Hmark & _).
  rewrite E in E0. injection E0 as <- <-.
  unfold FileMonitor.handleDocumentOpened. munfold. cbn.
  rewrite Ht. cbn. rewrite E in *. unfold after in *. cbn [snd] in *.
  unfold ErrorRecoveryService.clearRetryHistory. munfold. cbn.
  destruct (pr_success res) eqn:Hs; cbn; [destruct (pr_documentModified res)|]; cbn.
  all: eexists; (split; [reflexivity|]); cbn.
  all: do 2 (split; [reflexivity|]); (split; [lia|]).
  1,2: split; [etrans; [apply map_filter_subseteq | exact Hsub]|].
  1,2: intros t' _ _; apply map_lookup_filter_None; right; intros x _ Hx;
       cbv beta in Hx; cbn [fst] in Hx; unfold recoveryKey, JS.startsWith in Hx;
       rewrite Huri, prefix_append in Hx; discriminate.
  split; [exact Hsub|].
  intros t' _ Hm.
  destruct (ContentAnalyzer.isLogFile (theDocument w)) eqn:Hp.
  - destruct (Hmark t Ht eq_refl (Hm eq_refl)) as ([[_ Hx]|Hx] & _); [discriminate|].
    rewrite Hx. apply lookup_delete_eq.
  - unfold opened in Hop. rewrite Ht, shouldProcessDocument_spec, Hp in Hop.
    cbn [andb] in Hop. destruct Hop as (-> & _). discriminate.
Qed.

(** X12.  The retries are bounded.  [applyEditWithRetry] makes at most 2
    edit requests, a recovery with it at most 6, [insertTextAtEnd] at most
    8; the listener [handleDocumentOpened] returns without an exception
    and costs the host at most 8 edit requests for one document-open
    event, whatever the host answers and whatever the retry table holds. *)
Theorem open_event_requests_bounded :
  (forall e w,
     (editRequests (workspace (after (DocumentEditor.applyEditWithRetry e w)))
      <= editRequests (workspace w) + 2)%nat) /\
  (forall e message w,
     (editRequests
        (workspace
           (after (ErrorRecoveryService.recoverFromDocumentModificationFailure
                     "applyEdit" message (DocumentEditor.applyEditWithRetry e) w)))
      <= editRequests (workspace w) + 6)%nat) /\
  (forall text w,
     (editRequests (workspace (after (DocumentEditor.insertTextAtEnd text w)))
      <= editRequests (workspace w) + 8)%nat) /\
  (forall w,
     result (FileMonitor.handleDocumentOpened activatedHandlers w) = Returned tt /\
     (editRequests
        (workspace (after (FileMonitor.handleDocumentOpened activatedHandlers w)))
      <= editRequests (workspace w) + 8)%nat).
Proof.
  split; [|split; [|split]].
  - intros e w. destruct (applyEditWithRetry_count e w) as (r & w' & E & Hn & _).
    now rewrite E.
  - intros e message w.
    destruct (recover_count e message w) as (r & w' & E & Hn & _). now rewrite E.
  - intros text w.
    destruct (insertTextAtEnd_count text w) as (r & w' & E & Hn & _). now rewrite E.
  - intros w. destruct (handleDocumentOpened_count w) as (w' & E & _ & _ & Hn & _).
    now rewrite E.
Qed.

(** X13.  No retry entry survives a handled event.  For a document of a
    supported type that is modifiable if it is marked, the retry table
    after [handleDocumentOpened] has no entry for [applyEdit] on the
    document; and the table never grows: it is a sub-map of the one
    before. *)
Theorem retry_entry_cleared (w : World) (t : SupportedFileType) :
  ContentAnalyzer.getFileType (theDocument w) = Some t ->
  (ContentAnalyzer.isLogFile (theDocument w) = true ->
   mutable (theDocument w) = true) ->
  let w' := after (FileMonitor.handleDocumentOpened activatedHandlers w) in
  retryAttempts w' !! recoveryKey w "applyEdit" = None /\
  retryAttempts w' ⊆ retryAttempts w.
Proof.
  intros Ht Hm. cbn zeta.
  destruct (handleDocumentOpened_count w) as (w' & E & _ & _ & _ & Hsub & Hkey).
  rewrite E. unfold after. cbn [snd]. split; [now apply (Hkey t) | exact Hsub].
Qed.

Lemma retry_entry_cleared_witness :
  retryAttempts
    (after (FileMonitor.handleDocumentOpened activatedHandlers
              (Example.world Example.notes Example.refuses)))
  !! recoveryKey (Example.world Example.notes Example.refuses) "applyEdit" = None.
Proof.
  destruct (retry_entry_cleared (Example.world Example.notes Example.refuses) TEXT)
    as (Hkey & _); [reflexivity | intros _; reflexivity |].
  exact Hkey.
Defined.

(** X14.  When the host applies none of the requests, a marked, modifiable
    document of a supported type whose retry entry is clear is asked for
    exactly 8 times; [onDocumentOpened] then returns the failure
    [Could not insert timestamp: Maximum retry attempts (3) exceeded for
    applyEdit] with the formatted insertion as its timestamp, the document
    is as before, the status bar got one notice naming the file, the
    editor is untouched and the retry entry is gone. *)
Theorem refused_run_fails_gracefully (w : World) (t : SupportedFileType) :
  all_refused w ->
  ContentAnalyzer.getFileType (theDocument w) = Some t ->
  ContentAnalyzer.isLogFile (theDocument w) = true ->
  mutable (theDocument w) = true ->
  retryAttempts w !! recoveryKey w "applyEdit" = None ->
  let r := FileMonitor.onDocumentOpened activatedHandlers w in
  result r
  = Returned (refusedResult
                (formatTimestamp (handlerFor t)
                   (TimestampService.formatTimestamp (now w)))) /\
  theDocument (after r) = theDocument w /\
  editRequests (workspace (after r)) = (editRequests (workspace w) + 8)%nat /\
  window (after r)
  = {| activeTextEditor := activeTextEditor (window w);
       statusBar := statusBar (window w) ++
         ["dotLOG: Could not add timestamp to " +:+ fileName (theDocument w)] |} /\
  retryAttempts (after r) !! recoveryKey w "applyEdit" = None.
Proof.
  intros Hall Ht Hp Hm Hk. cbn zeta.
  destruct (onDocumentOpened_count w) as (res & w' & E & _ & _ & _ & Hmark & _).
  rewrite E. unfold result, after. cbn [fst snd].
  destruct (Hmark t Ht Hp Hm) as (Hr & Href).
  destruct (Href Hall Hk) as (-> & Hd & Hn & Hwin).
  repeat split; try assumption.
  destruct Hr as [[_ Hx]| ->]; [discriminate | apply lookup_delete_eq].
Qed.

Lemma refused_run_fails_gracefully_witness :
  editRequests
    (workspace
       (after (FileMonitor.onDocumentOpened activatedHandlers
                 (Example.world Example.notes Example.refuses))))
  = 8%nat.
Proof.
  apply (refused_run_fails_gracefully
           (Example.world Example.notes Example.refuses) TEXT);
    [intros k _; discriminate | reflexivity | reflexivity | reflexivity | reflexivity].
Defined.

(** ** The appended lines *)

Lemma stampLine_single_line (t : SupportedFileType) (d : JSDate) :
  JS.hasChar "010" (Spec.stampLine t (TimestampService.formatTimestamp d)) = false.
Proof.
  destruct t; cbn [Spec.stampLine];
    rewrite ?hasChar_append, formatTimestamp_single_line; reflexivity.
Qed.

Lemma insertion_stampLine (t : SupportedFileType) (timestamp : string) :
  Spec.insertion t timestamp
  = String "010" (Spec.stampLine t timestamp +:+ String "010" "").
Proof. destruct t; reflexivity. Qed.

Lemma splitLines_snoc_newline (s : string) :
  JS.splitLines (s +:+ String "010" "") = JS.splitLines s ++ [""].
Proof.
  induction s as [|c s IH]; [reflexivity|].
  rewrite append_cons. cbn [JS.splitLines]. rewrite IH.
  destruct (Ascii.eqb c "010"); [reflexivity|].
  pose proof (splitLines_not_nil s).
  destruct (JS.splitLines s); [congruence | reflexivity].
Qed.

Lemma splitLines_single (s : string) :
  JS.hasChar "010" s = false -> JS.splitLines s = [s].
Proof.
  induction s as [|c s IH]; [reflexivity|].
  cbn [JS.hasChar JS.splitLines]. intros H. apply orb_false_iff in H as [Hc Hs].
  rewrite Ascii.eqb_sym, Hc, (IH Hs). reflexivity.
Qed.

Lemma edited_lines (d : TextDocument) (t : SupportedFileType) (date : JSDate) :
  lines d <> [] ->
  (forall l, last (lines d) = Some l -> JS.hasChar "010" l = false) ->
  lines (editedDocument d
           (endEdit d (Spec.insertion t (TimestampService.formatTimestamp date))))
  = lines d ++ blankLine d ++
    [Spec.stampLine t (TimestampService.formatTimestamp date); ""].
Proof.
  intros Hne Hlf. destruct (lines_snoc d Hne) as (init & l & Hl & Hlast).
  specialize (Hlf l Hlast).
  rewrite (lines_edited _ _ _ _ Hl), prepare_insertion by assumption.
  unfold separator, blankLine. rewrite Hlast, Hl, insertion_stampLine.
  rewrite <- app_assoc. f_equal.
  destruct l as [|c l]; cbn [JS.isEmpty].
  - rewrite !append_nil. cbn [JS.splitLines Ascii.eqb]. 
    change (Ascii.eqb "010" "010") with true. cbn iota.
    rewrite splitLines_snoc_newline, splitLines_single by apply stampLine_single_line.
    reflexivity.
  - rewrite (append_cons "010" ""), append_nil.
    rewrite (splitLines_line (String c l)) by assumption.
    cbn [JS.splitLines]. change (Ascii.eqb "010" "010") with true. cbn iota.
    rewrite splitLines_snoc_newline, splitLines_single by apply stampLine_single_line.
    reflexivity.
Qed.

Lemma lfFree_last (d : TextDocument) (l : string) :
  lfFree d -> last (lines d) = Some l -> JS.hasChar "010" l = false.
Proof.
  unfold lfFree. intros H Hl. rewrite Forall_forall in H. apply H.
  apply last_Some in Hl as (init & ->). apply elem_of_app. right. now left.
Qed.

(** X15.  The lines a successful run appends.  For a marked document of a
    supported type whose lines hold no line feed, a run in which the host
    applies a request leaves the old lines, then an empty line if the last
    line was not empty, then the timestamp line ([## ] in front for
    markdown) and one empty line.  The new buffer holds no line feed
    either, the document still carries the marker and its type, and ends
    in an empty line: the next run appends again, with no blank line in
    front. *)
Theorem appended_lines (w : World) (t : SupportedFileType) :
  ContentAnalyzer.getFileType (theDocument w) = Some t ->
  ContentAnalyzer.isLogFile (theDocument w) = true ->
  lfFree (theDocument w) ->
  let r := FileMonitor.onDocumentOpened activatedHandlers w in
  let stamp := Spec.stampLine t (TimestampService.formatTimestamp (now w)) in
  applied_between w (after r) ->
  lines (theDocument (after r))
  = lines (theDocument w) ++ blankLine (theDocument w) ++ [stamp; ""] /\
  lfFree (theDocument (after r)) /\
  ContentAnalyzer.isLogFile (theDocument (after r)) = true /\
  ContentAnalyzer.getFileType (theDocument (after r)) = Some t /\
  blankLine (theDocument (after r)) = [].
Proof.
  intros Ht Hlog Hlf r stamp Happlied.
  destruct (marked_run w t Ht Hlog) as (res & w' & E & Hrun & _).
  subst r stamp. unfold after, applied_between in *. rewrite E in *. cbn [snd] in *.
  apply (edit_run_applied _ _ _ _ Hrun) in Happlied.
  rewrite Happlied in Hrun. apply edit_run_document in Hrun.
  pose proof (isLogFile_lines _ Hlog) as Hne.
  assert (Hlines : lines (theDocument w')
                   = lines (theDocument w) ++ blankLine (theDocument w) ++
                     [Spec.stampLine t (TimestampService.formatTimestamp (now w)); ""]).
  { rewrite Hrun. apply edited_lines; [exact Hne|].
    intros l. now apply lfFree_last. }
  split; [exact Hlines|].
  split.
  { unfold lfFree in *. rewrite Hlines. apply Forall_app. split; [exact Hlf|].
    apply Forall_app. split.
    - unfold blankLine. destruct (last _) as [l|]; [|constructor].
      destruct (JS.isEmpty l); repeat constructor.
    - repeat constructor. apply stampLine_single_line. }
  split.
  { apply isLogFile_spec in Hlog as (first & rest & Hl & Htrim).
    apply isLogFile_spec. rewrite Hlines, Hl. cbn [app]. now eexists _, _. }
  split.
  { rewrite <- Ht. rewrite Hrun. reflexivity. }
  unfold blankLine at 1. rewrite Hlines, !last_app. reflexivity.
Qed.

Lemma appended_lines_witness :
  lines (theDocument
           (after (FileMonitor.onDocumentOpened activatedHandlers
                     (Example.world Example.journal Example.applies))))
  = [".LOG"; ""; "## 2025-07-24 01:25 PM"; ""].
Proof.
  apply (appended_lines (Example.world Example.journal Example.applies) MARKDOWN);
    [reflexivity | reflexivity | repeat constructor |].
  exists 0%nat. vm_compute. split; [lia | reflexivity].
Defined.

(** ** The cursor after the insertion *)

Lemma prepared_ends_newline (d : TextDocument) (text : string) :
  lines d <> [] ->
  exists q, DocumentEditor.prepareTextForInsertion d text = q +:+ String "010" "".
Proof.
  intros Hne. rewrite prepareTextForInsertion_spec by assumption.
  destruct (JS.endsWith text (String "010" "")) eqn:E.
  - apply endsWith_spec in E as (p & ->). exists (separator d +:+ p).
    now rewrite append_empty_r, append_assoc.
  - exists (separator d +:+ text). now rewrite append_assoc.
Qed.

Lemma edited_last_line (d : TextDocument) (text : string) :
  lines d <> [] ->
  last (lines (editedDocument d (endEdit d text))) = Some "".
Proof.
  intros Hne. destruct (lines_snoc d Hne) as (init & l & Hl & _).
  rewrite (lines_edited _ _ _ _ Hl).
  destruct (prepared_ends_newline d text Hne) as (q & ->).
  rewrite <- append_assoc, splitLines_snoc_newline, app_assoc.
  apply last_snoc.
Qed.

(** X16.  After a run of [processDocument] in which the host applies a
    request, with the active editor showing the document, the run returns
    the completed result, the last line of the document is empty, and the
    selection is the empty range at column 0 of that last line, which is
    also the range revealed; the status bar is as before.  This holds for
    every handler and every timestamp text. *)
Theorem cursor_follows_insertion
    (h : FileHandler) (timestamp : string) (w : World) (editor : TextEditor) :
  activeTextEditor (window w) = Some editor ->
  uriString (te_documentUri editor) = uriString (uri (theDocument w)) ->
  let r := BaseFileHandler.processDocument h timestamp w in
  applied_between w (after r) ->
  let position :=
    {| line := lineCount (theDocument (after r)) - 1; character := 0 |} in
  result r = Returned (completed (formatTimestamp h timestamp)) /\
  last (lines (theDocument (after r))) = Some "" /\
  window (after r)
  = {| activeTextEditor :=
         Some {| te_documentUri := te_documentUri editor;
                 te_selection := (position, position);
                 te_revealed := Some position |};
       statusBar := statusBar (window w) |}.
Proof.
  intros Hed Huri r Happlied.
  destruct (processDocument_run h timestamp w)
    as (res & w' & E & Hrun & _ & _ & _ & Hok & _ & _ & _ & Hcur).
  destruct (processDocument_count h timestamp w)
    as (res0 & w0 & E0 & _ & _ & _ & _ & _ & Hsucc & _).
  rewrite E in E0. injection E0 as <- <-.
  subst r. unfold result, after, applied_between in *. rewrite E in *.
  cbn [fst snd] in *.
  apply (edit_run_applied _ _ _ _ Hrun) in Happlied.
  rewrite Happlied in Hrun. apply edit_run_document in Hrun.
  destruct (Hsucc Happlied) as (_ & Hne).
  pose proof (edited_last_line (theDocument w) (formatTimestamp h timestamp) Hne) as Hlast.
  rewrite <- Hrun in Hlast.
  split; [now rewrite (Hok Happlied)|]. split; [exact Hlast|].
  destruct (Hcur Happlied) as (w1 & cur & w2 & Ec & Hws & Hwin1 & Hwin2).
  destruct (positionCursorAtEnd_frame w1) as (cur' & w2' & Ec' & _ & _ & Hpos).
  rewrite Ec in Ec'. injection Ec' as <- <-.
  assert (Hne' : lines (theDocument w1) <> [])
    by (rewrite Hws; intros Hnil; rewrite Hnil in Hlast; discriminate).
  destruct (Hpos editor) as (_ & Hwin).
  - now rewrite Hwin1.
  - rewrite Hws, Hrun. exact Huri.
  - exact Hne'.
  - rewrite <- Hwin2, Hwin, Hwin1. unfold endPosition.
    rewrite Hws, lineAt_last by (rewrite <- Hws; exact Hne').
    rewrite Hlast. reflexivity.
Qed.

Lemma cursor_follows_insertion_witness :
  te_selection
    <$> activeTextEditor
          (window
             (after (BaseFileHandler.processDocument TextFileHandler
                       "2025-07-24 01:25 PM"
                       (Example.shown Example.notes Example.applies))))
  = Some ({| line := 4; character := 0 |}, {| line := 4; character := 0 |}).
Proof.
  pose proof (cursor_follows_insertion TextFileHandler "2025-07-24 01:25 PM"
                (Example.shown Example.notes Example.applies) _ eq_refl eq_refl) as H.
  cbn zeta in H. destruct H as (_ & _ & ->).
  - exists 0%nat. vm_compute. split; [lia | reflexivity].
  - vm_compute. reflexivity.
Defined.

(** ** Recovery on a closed document *)

Lemma retryLoop_closed {T} fuel key operation cur
    (retryFunction : M (OperationResult T)) (w : World) :
  isClosed (theDocument w) = true ->
  (ErrorRecoveryService.maxRetries <= cur + fuel)%nat ->
  ErrorRecoveryService.retryLoop fuel key operation cur retryFunction w
  = (Returned
       (ErrorRecoveryService.failure
          (if (cur <? ErrorRecoveryService.maxRetries)%nat
           then "Document was closed during recovery attempt"
           else "Maximum retry attempts (" +:+
                JS.ofNumber (Z.of_nat ErrorRecoveryService.maxRetries) +:+
                ") exceeded for " +:+ operation)),
     set_retryAttempts (delete key (retryAttempts w)) w).
Proof.
  intros Hclosed Hfuel.
  destruct fuel as [|fuel]; unroll @ErrorRecoveryService.retryLoop.
  all: destruct (Nat.ltb_spec cur ErrorRecoveryService.maxRetries) as [Hlt|Hge];
    cbn [negb]; try lia; try (now rewrite exhausted_count).
  munfold. cbn. rewrite Hclosed. reflexivity.
Qed.

(** X17.  On a closed document [recoverFromDocumentModificationFailure]
    never calls the retry function: its outcome is the same for every retry
    function.  It fails with [DOCUMENT_MODIFICATION_FAILED], with the
    message [Document was closed during recovery attempt] when the stored
    attempt count is below 3; the host is untouched and the retry entry of
    the operation is removed. *)
Theorem recovery_skips_closed_document {T} (operation message : string)
    (retryFunction other : M (OperationResult T)) (w : World) :
  isClosed (theDocument w) = true ->
  let recovered :=
    ErrorRecoveryService.recoverFromDocumentModificationFailure
      operation message retryFunction w in
  recovered
  = ErrorRecoveryService.recoverFromDocumentModificationFailure
      operation message other w /\
  exists r,
    result recovered = Returned r /\
    success r = false /\ errorCode r = Some DOCUMENT_MODIFICATION_FAILED /\
    ((default 0 (retryAttempts w !! recoveryKey w operation)
      < ErrorRecoveryService.maxRetries)%nat ->
     error r = Some "Document was closed during recovery attempt") /\
    workspace (after recovered) = workspace w /\
    window (after recovered) = window w /\
    retryAttempts (after recovered)
    = delete (recoveryKey w operation) (retryAttempts w).
Proof.
  intros Hclosed. cbn zeta.
  unfold ErrorRecoveryService.recoverFromDocumentModificationFailure, recoveryKey.
  munfold. cbn.
  set (key := uriString (uri (theDocument w)) +:+ "-" +:+ operation).
  set (cur := default 0%nat (retryAttempts w !! key)).
  destruct (negb (0 <? cur)%nat); cbn.
  all: rewrite !retryLoop_closed by (cbn; (assumption || nlia)).
  all: split; [reflexivity|]; eexists; cbn [fst snd].
  all: split; [reflexivity|]; split; [reflexivity|]; split; [reflexivity|].
  all: split; [intros Hlt; apply Nat.ltb_lt in Hlt;
               cbn [error ErrorRecoveryService.failure opFailure];
               now rewrite Hlt|].
  all: repeat split.
Qed.

Lemma recovery_skips_closed_document_witness :
  exists r,
    result
      (ErrorRecoveryService.recoverFromDocumentModificationFailure
         "applyEdit" "Edit failed"
         (DocumentEditor.applyEditWithRetry
            (endEdit (Example.closed Example.notes) "entry"))
         (Example.world (Example.closed Example.notes) Example.applies))
    = Returned r /\ success r = false.
Proof.
  destruct (recovery_skips_closed_document "applyEdit" "Edit failed"
              (DocumentEditor.applyEditWithRetry
                 (endEdit (Example.closed Example.notes) "entry"))
              (ret (opSuccess true))
              (Example.world (Example.closed Example.notes) Example.applies)
              eq_refl) as (_ & r & Hr & Hs & _).
  exists r. split; assumption.
Defined.

(** ** A document that cannot be written *)

(** X18.  On a modifiable document without lines [insertTextAtEnd] fails
    before it builds an edit: reading the last line throws, the failure is
    [Failed to insert text: ] followed by the thrown message with the kind
    [DOCUMENT_MODIFICATION_FAILED], the thrown message is the last entry of
    the logger's history, and the host received no request: workspace,
    window and retry table are as before. *)
Theorem empty_document_fails_without_request (text : string) (w : World) :
  mutable (theDocument w) = true ->
  lines (theDocument w) = [] ->
  let r := DocumentEditor.insertTextAtEnd text w in
  exists res thrown,
    result r = Returned res /\
    success res = false /\
    error res = Some ("Failed to insert text: " +:+ thrown) /\
    errorCode res = Some DOCUMENT_MODIFICATION_FAILED /\
    last (errorHistory (logger (after r)))
    = Some {| ee_message := thrown; ee_code := DOCUMENT_MODIFICATION_FAILED |} /\
    workspace (after r) = workspace w /\
    window (after r) = window w /\
    retryAttempts (after r) = retryAttempts w.
Proof.
  intros Hm Hnil. cbn zeta.
  unfold DocumentEditor.insertTextAtEnd. munfold. cbn.
  match goal with
  | |- context [DocumentEditor.canModifyDocument ?w0] =>
      destruct (canModifyDocument_run w0) as (l & E & _); rewrite E; clear E
  end.
  cbn. rewrite Hm. cbn.
  unfold lineAtText. munfold. cbn.
  rewrite (lineAt_last_none _ Hnil). cbn.
  eexists _, _. split; [reflexivity|]. split; [reflexivity|].
  split; [reflexivity|]. split; [reflexivity|].
  split; [apply logErrorState_last|]. repeat split.
Qed.

Lemma empty_document_fails_without_request_witness :
  workspace
    (after (DocumentEditor.insertTextAtEnd "entry"
              (Example.world Example.blank Example.applies)))
  = workspace (Example.world Example.blank Example.applies).
Proof.
  destruct (empty_document_fails_without_request "entry"
              (Example.world Example.blank Example.applies) eq_refl eq_refl)
    as (res & thrown & _ & _ & _ & _ & _ & Hws & _).
  exact Hws.
Defined.

(** ** A cursor placement that throws *)

(** X19.  An exception inside [positionCursorAtEnd] is reported as a
    success: with the active editor on a document without lines, reading
    the last line throws, and the result has success=true together with
    the kind [CURSOR_POSITIONING_FAILED]; window and workspace are as
    before. *)
Theorem cursor_error_reported_as_success (w : World) (editor : TextEditor) :
  activeTextEditor (window w) = Some editor ->
  uriString (te_documentUri editor) = uriString (uri (theDocument w)) ->
  lines (theDocument w) = [] ->
  let r := DocumentEditor.positionCursorAtEnd w in
  exists res,
    result r = Returned res /\
    success res = true /\
    errorCode res = Some CURSOR_POSITIONING_FAILED /\
    window (after r) = window w /\ workspace (after r) = workspace w.
Proof.
  intros Hed Huri Hnil. cbn zeta.
  unfold DocumentEditor.positionCursorAtEnd. munfold. cbn.
  rewrite Hed. cbn. rewrite Huri, String.eqb_refl. cbn.
  unfold lineAtText. munfold. cbn.
  rewrite (lineAt_last_none _ Hnil). cbn.
  unfold ErrorRecoveryService.gracefulCursorPositioningFailure. munfold. cbn.
  eexists. repeat split.
Qed.

Lemma cursor_error_reported_as_success_witness :
  exists res,
    result (DocumentEditor.positionCursorAtEnd
              (Example.shown Example.blank Example.applies)) = Returned res /\
    success res = true /\ errorCode res = Some CURSOR_POSITIONING_FAILED.
Proof.
  destruct (cursor_error_reported_as_success
              (Example.shown Example.blank Example.applies) _ eq_refl eq_refl eq_refl)
    as (res & Hr & Hs & Hc & _).
  exists res. auto.
Defined.

(** ** Activation and deactivation *)

Lemma logAt_level level tag message l :
  logLevel (ErrorLogger.logAt level tag message l) = logLevel l.
Proof.
  unfold ErrorLogger.logAt. destruct (ErrorLogger.shouldLog level l); [|reflexivity].
  unfold ErrorLogger.writeToOutput. now destruct (outputChannel l).
Qed.

Lemma activate_run (isDevelopment : bool) (w : World) :
  exists l,
    activate isDevelopment w
    = (Returned tt,
       set_logger l
         (set_monitor
            {| disposable := Some (nextListener (workspace w)); isActive := true |}
            (set_workspace
               (listening
                  (openListeners (workspace w) ++ [nextListener (workspace w)])
                  (S (nextListener (workspace w))) (workspace w)) w))) /\
    logLevel l = (if isDevelopment then DEBUG else INFO) /\
    errorHistory l = errorHistory (logger w).
Proof.
  unfold activate, FileMonitor.startMonitoring, FileMonitor.onDidOpenTextDocument,
    FileMonitor.setMonitor, FileMonitor.isMonitoring. munfold. cbn.
  eexists. split; [reflexivity|].
  rewrite !logAt_level, !logAt_history. split; reflexivity.
Qed.

Lemma deactivate_run (w : World) :
  isActive (monitor w) = true ->
  deactivate w
  = (Returned tt,
     set_logger
       {| outputChannel := None; logLevel := logLevel (logger w);
          errorHistory := [] |}
       (set_retryAttempts ∅
          (set_monitor {| disposable := None; isActive := false |}
             (set_workspace
                (match disposable (monitor w) with
                 | Some subscription =>
                     listening
                       (filter (fun x => x <> subscription)
                               (openListeners (workspace w)))
                       (nextListener (workspace w)) (workspace w)
                 | None => workspace w
                 end) w)))).
Proof.
  intros Hactive.
  unfold deactivate, FileMonitor.dispose, FileMonitor.stopMonitoring,
    FileMonitor.disposeSubscription, FileMonitor.setMonitor,
    ErrorRecoveryService.dispose. munfold.
  destruct w as [ws win n lg ra [[subscription|] active]]; cbn in Hactive; subst active;
    cbn.
  all: unfold ErrorLogger.dispose; rewrite ?logAt_level; reflexivity.
Qed.

(** X20.  Activation and deactivation.  [activate] returns, sets the log
    level ([DEBUG] in development mode, [INFO] otherwise) and leaves the
    monitor active with one more listener; the following [deactivate]
    returns, leaves the monitor inactive, the host's listeners and the
    document as before the activation, the retry table empty and the
    logger without channel and history. *)
Theorem activation_round_trip (isDevelopment : bool) (w : World) :
  nextListener (workspace w) ∉ openListeners (workspace w) ->
  let activated := after (activate isDevelopment w) in
  let deactivated := after (deactivate activated) in
  result (activate isDevelopment w) = Returned tt /\
  result (FileMonitor.isMonitoring activated) = Returned true /\
  logLevel (logger activated) = (if isDevelopment then DEBUG else INFO) /\
  openListeners (workspace activated)
  = openListeners (workspace w) ++ [nextListener (workspace w)] /\
  result (deactivate activated) = Returned tt /\
  result (FileMonitor.isMonitoring deactivated) = Returned false /\
  openListeners (workspace deactivated) = openListeners (workspace w) /\
  theDocument deactivated = theDocument w /\
  retryAttempts deactivated = ∅ /\
  outputChannel (logger deactivated) = None /\
  errorHistory (logger deactivated) = [].
Proof.
  intros Hfresh. cbn zeta.
  destruct (activate_run isDevelopment w) as (l & E & Hlevel & _).
  rewrite E. unfold result, after. cbn [fst snd].
  rewrite deactivate_run by reflexivity. cbn.
  rewrite (filter_fresh _ _ Hfresh). repeat split. exact Hlevel.
Qed.

Lemma activation_round_trip_witness :
  openListeners
    (workspace (after (deactivate (after (activate false (Example.dormant Example.notes))))))
  = [].
Proof.
  apply (activation_round_trip false (Example.dormant Example.notes)).
  apply not_elem_of_nil.
Defined.

(** ** The handler map *)

(** X21.  A monitor whose handler map has no entry for the detected type
    answers a marked document with the failure [No handler found for file
    type: ] followed by the type's value; the error is recorded with the
    kind [UNKNOWN_ERROR], and workspace, window and retry table are as
    before. *)
Theorem missing_handler_fails (fileHandlers : gmap string FileHandler)
    (w : World) (t : SupportedFileType) :
  ContentAnalyzer.getFileType (theDocument w) = Some t ->
  ContentAnalyzer.isLogFile (theDocument w) = true ->
  fileHandlers !! fileTypeValue t = None ->
  let r := FileMonitor.onDocumentOpened fileHandlers w in
  result r
  = Returned (FileMonitor.failed ("No handler found for file type: " +:+
                                  fileTypeValue t)) /\
  workspace (after r) = workspace w /\
  window (after r) = window w /\
  retryAttempts (after r) = retryAttempts w /\
  last (errorHistory (logger (after r)))
  = Some {| ee_message := "No handler found for file type: " +:+ fileTypeValue t;
            ee_code := UNKNOWN_ERROR |}.
Proof.
  intros Ht Hp Hnone. cbn zeta.
  unfold FileMonitor.onDocumentOpened, ContentAnalyzer.analyzeContent.
  munfold. cbn. rewrite Ht. cbn.
  rewrite shouldProcessDocument_spec, Hp, Ht.
  rewrite bool_decide_eq_true_2 by discriminate. cbn.
  rewrite getCurrentTimestamp_run. cbn.
  rewrite formatTimestamp_not_empty. cbn.
  rewrite Hnone. cbn.
  split; [reflexivity|]. do 3 (split; [reflexivity|]).
  apply logErrorState_last.
Qed.

Lemma missing_handler_fails_witness :
  result (FileMonitor.onDocumentOpened ∅
            (Example.world Example.notes Example.applies))
  = Returned (FileMonitor.failed "No handler found for file type: txt").
Proof.
  apply (missing_handler_fails ∅ (Example.world Example.notes Example.applies) TEXT);
    reflexivity.
Defined.

(** X22.  [processDocument] and the monitor never call a handler's
    [canHandle], and they read its [getFileType] only for the context
    records of log lines.  Hence two handlers that format every timestamp
    alike are interchangeable up to the logger: in [processDocument], and
    as the map entry of the detected type in [onDocumentOpened], the two
    runs give the same result and leave the same workspace, window, retry
    table and monitor.  The logger is left out of the statement: in the
    source its lines name the handler's type. *)
Theorem handler_acts_through_formatTimestamp (h h' : FileHandler) (w : World) :
  (forall timestamp, formatTimestamp h timestamp = formatTimestamp h' timestamp) ->
  (forall timestamp,
     sameOutcome (BaseFileHandler.processDocument h timestamp w)
                 (BaseFileHandler.processDocument h' timestamp w)) /\
  (forall fileHandlers t,
     ContentAnalyzer.getFileType (theDocument w) = Some t ->
     sameOutcome
       (FileMonitor.onDocumentOpened (<[fileTypeValue t := h]> fileHandlers) w)
       (FileMonitor.onDocumentOpened (<[fileTypeValue t := h']> fileHandlers) w)).
Proof.
  intros Hfmt.
  assert (Hp : forall timestamp w0,
             BaseFileHandler.processDocument h timestamp w0
             = BaseFileHandler.processDocument h' timestamp w0).
  { intros timestamp w0. unfold BaseFileHandler.processDocument.
    now rewrite Hfmt. }
  assert (Hsame : forall A (r r' : Outcome A * World), r = r' -> sameOutcome r r')
    by (intros A r r' ->; repeat split).
  split; [intros timestamp; apply Hsame, Hp|].
  intros fileHandlers t Ht. apply Hsame.
  unfold FileMonitor.onDocumentOpened, ContentAnalyzer.analyzeContent.
  munfold. cbn. rewrite Ht. cbn.
  destruct (ContentAnalyzer.shouldProcessDocument (theDocument w)); cbn;
    [|reflexivity].
  rewrite getCurrentTimestamp_run. cbn.
  rewrite formatTimestamp_not_empty. cbn.
  rewrite !lookup_insert_eq. cbn. now rewrite Hp.
Qed.

Lemma handler_acts_through_formatTimestamp_witness :
  sameOutcome
    (BaseFileHandler.processDocument TextFileHandler "2025-07-24 01:25 PM"
       (Example.world Example.notes Example.applies))
    (BaseFileHandler.processDocument LogFileHandler "2025-07-24 01:25 PM"
       (Example.world Example.notes Example.applies)).
Proof.
  apply (handler_acts_through_formatTimestamp TextFileHandler LogFileHandler
           (Example.world Example.notes Example.applies)).
  reflexivity.
Defined.

(** ** The shape of a marker line *)

Lemma trimStart_split (s : string) :
  exists a, s = a +:+ JS.trimStart s /\ allWhiteSpace a = true.
Proof.
  induction s as [|c s (a & Hs & Ha)]; [now exists ""|].
  cbn [JS.trimStart]. destruct (JS.isWhiteSpace c) eqn:Hc.
  - exists (String c a). rewrite append_cons, <- Hs. cbn. now rewrite Hc, Ha.
  - now exists "".
Qed.

Lemma trimEnd_split (s : string) :
  exists b, s = JS.trimEnd s +:+ b /\ allWhiteSpace b = true.
Proof.
  induction s as [|c s (b & Hs & Hb)]; [now exists ""|].
  cbn [JS.trimEnd]. destruct (JS.trimEnd s) as [|d t] eqn:Ht.
  - rewrite append_nil in Hs. subst b.
    destruct (JS.isWhiteSpace c) eqn:Hc.
    + exists (String c s). rewrite append_nil. cbn. now rewrite Hc, Hb.
    + exists s. now rewrite append_cons, append_nil.
  - exists b. now rewrite append_cons, <- Hs.
Qed.

Lemma trimStart_blank (a s : string) :
  allWhiteSpace a = true -> JS.trimStart (a +:+ s) = JS.trimStart s.
Proof.
  induction a as [|c a IH]; [now rewrite append_nil|].
  cbn [allWhiteSpace]. intros H. apply andb_true_iff in H as [Hc Ha].
  rewrite append_cons. cbn [JS.trimStart]. rewrite Hc. now apply IH.
Qed.

Lemma trimEnd_blank (b : string) : allWhiteSpace b = true -> JS.trimEnd b = "".
Proof.
  induction b as [|c b IH]; [reflexivity|].
  cbn [allWhiteSpace]. intros H. apply andb_true_iff in H as [Hc Hb].
  cbn [JS.trimEnd]. now rewrite (IH Hb), Hc.
Qed.

Lemma trimEnd_marker (b : string) :
  allWhiteSpace b = true -> JS.trimEnd (".LOG" +:+ b) = ".LOG".
Proof.
  intros Hb. rewrite !append_cons, append_nil. cbn [JS.trimEnd].
  rewrite (trimEnd_blank b Hb). reflexivity.
Qed.

(** X23.  The shape of a marker line: a document carries the marker
    exactly when its first line is [.LOG] between two runs, possibly
    empty, of the white-space characters [trim] strips. *)
Theorem marker_line_shape (d : TextDocument) :
  ContentAnalyzer.isLogFile d = true <->
  exists before behind rest,
    lines d = (before +:+ ".LOG" +:+ behind) :: rest /\
    allWhiteSpace before = true /\ allWhiteSpace behind = true.
Proof.
  rewrite isLogFile_spec. split.
  - intros (first & rest & Hl & Ht). unfold JS.trim in Ht.
    destruct (trimStart_split first) as (a & Ha & Hwa).
    destruct (trimEnd_split (JS.trimStart first)) as (b & Hb & Hwb).
    exists a, b, rest. rewrite Hl. rewrite Ht in Hb. rewrite <- Hb, <- Ha. auto.
  - intros (a & b & rest & Hl & Ha & Hb).
    exists (a +:+ ".LOG" +:+ b), rest. split; [exact Hl|].
    unfold JS.trim. rewrite (trimStart_blank a _ Ha).
    replace (JS.trimStart (".LOG" +:+ b)) with (".LOG" +:+ b) by reflexivity.
    now apply trimEnd_marker.
Qed.

(** ** A refused insertion in the logger's record *)

Lemma logErrorState_snoc (message : string) (code : option ErrorCode)
    (l : ErrorLoggerState) :
  (length (errorHistory l) < ErrorLogger.maxHistorySize)%nat ->
  errorHistory (ErrorLogger.logErrorState message code l)
  = errorHistory l ++ [{| ee_message := message;
                          ee_code := default UNKNOWN_ERROR code |}].
Proof.
  intros Hlt. rewrite logErrorState_history, addToHistory_history.
  rewrite length_app. cbn [length].
  now replace (length (errorHistory l) + 1 - ErrorLogger.maxHistorySize)%nat
    with 0%nat by lia.
Qed.

Lemma logErrorState_twice (message : string) (code : option ErrorCode)
    (l : ErrorLoggerState) :
  (length (errorHistory l) + 2 <= ErrorLogger.maxHistorySize)%nat ->
  errorHistory (ErrorLogger.logErrorState message code
                  (ErrorLogger.logErrorState message code l))
  = errorHistory l ++
    [{| ee_message := message; ee_code := default UNKNOWN_ERROR code |};
     {| ee_message := message; ee_code := default UNKNOWN_ERROR code |}].
Proof.
  intros Hlen.
  assert (H1 := logErrorState_snoc message code l ltac:(lia)).
  rewrite logErrorState_snoc by (rewrite H1, length_app; cbn [length]; lia).
  now rewrite H1, <- app_assoc.
Qed.

(** X24.  [insertTextAtEnd] on a document that is not modifiable records
    the refusal twice: the logger's history grows by two equal entries of
    the kind [PERMISSION_DENIED] (one written by the recovery service, one
    by the editor), as long as the history has room.  The result carries
    that kind; its message is the fixed sentence followed by the advice of
    the recovery service, which ends in the three general suggestions, or
    by nothing when the file's status cannot be read. *)
Theorem permission_denied_recorded_twice (text : string) (w : World) :
  mutable (theDocument w) = false ->
  (length (errorHistory (logger w)) + 2 <= ErrorLogger.maxHistorySize)%nat ->
  let r := DocumentEditor.insertTextAtEnd text w in
  let entry :=
    {| ee_message := "Permission denied for insertTextAtEnd on file: " +:+
                     fileName (theDocument w);
       ee_code := PERMISSION_DENIED |} in
  errorHistory (logger (after r)) = errorHistory (logger w) ++ [entry; entry] /\
  exists res,
    result r = Returned res /\
    errorCode res = Some PERMISSION_DENIED /\
    match fsStat (workspace w) with
    | inl _ =>
        exists advice,
          error res
          = Some ("Document is read-only or cannot be modified. " +:+ advice +:+
                  "Verify that VS Code has permission to modify this file. " +:+
                  "Check if the file is open in another application. " +:+
                  "Try saving the file manually first.")
    | inr _ => error res = Some "Document is read-only or cannot be modified. "
    end.
Proof.
  intros Hm Hlen. cbn zeta.
  unfold DocumentEditor.insertTextAtEnd. munfold. cbn.
  match goal with
  | |- context [DocumentEditor.canModifyDocument ?w0] =>
      destruct (canModifyDocument_run w0) as (l & E & Hl); rewrite E; clear E
  end.
  cbn in Hl. rewrite logAt_history in Hl.
  cbn. rewrite Hm. cbn.
  unfold ErrorRecoveryService.recoverFromPermissionError. munfold. cbn.
  destruct (fsStat (workspace w)) as [[readonly directory]|message]; cbn.
  - split.
    + rewrite logErrorState_twice by (rewrite Hl; exact Hlen). now rewrite Hl.
    + eexists. split; [reflexivity|]. split; [reflexivity|].
      destruct readonly, directory; cbn.
      * now exists ("File is marked as read-only. Consider changing file permissions. " +:+
                    "Target is a directory, not a file. Check the file path. ").
      * now exists "File is marked as read-only. Consider changing file permissions. ".
      * now exists "Target is a directory, not a file. Check the file path. ".
      * now exists "".
  - split.
    + rewrite logErrorState_twice by (rewrite Hl; exact Hlen). now rewrite Hl.
    + eexists. split; [reflexivity|]. split; reflexivity.
Qed.

Lemma permission_denied_recorded_twice_witness :
  recordedKinds
    (after (DocumentEditor.insertTextAtEnd "entry"
              (Example.world (Example.closed Example.notes) Example.applies)))
  = [PERMISSION_DENIED; PERMISSION_DENIED].
Proof.
  destruct (permission_denied_recorded_twice "entry"
              (Example.world (Example.closed Example.notes) Example.applies))
    as (Hhistory & _);
    [reflexivity | unfold ErrorLogger.maxHistorySize; cbn; lia |].
  unfold recordedKinds. rewrite Hhistory. reflexivity.
Defined.

(** ** The Processing Results of a run *)

Lemma processDocument_failure h timestamp w :
  exists res w',
    BaseFileHandler.processDocument h timestamp w = (Returned res, w') /\
    (mutable (theDocument w) = true -> pr_success res = false ->
     exists message,
       res = {| pr_success := false;
                pr_error := Some ("Could not insert timestamp: " +:+ message);
                pr_documentModified := false;
                pr_processingState := FAILED;
                pr_timestamp := Some (formatTimestamp h timestamp) |}).
Proof.
  unfold BaseFileHandler.processDocument. munfold. cbn.
  match goal with
  | |- context [DocumentEditor.canModifyDocument ?w0] =>
      destruct (canModifyDocument_run w0) as (l & E & Hl); rewrite E; clear E
  end.
  cbn. destruct (mutable (theDocument w)) eqn:Hm; cbn.
  - match goal with
    | |- context [DocumentEditor.insertTextAtEnd ?t ?w0] =>
        destruct (insertTextAtEnd_run t w0) as (ins & w1 & E & _);
        rewrite E; clear E
    end.
    destruct (success ins) eqn:Hs; cbn.
    + destruct (positionCursorAtEnd_run w1) as (cur & w2 & E & _).
      rewrite E; clear E.
      destruct (success cur); cbn.
      all: eexists _, _; (split; [reflexivity|]); cbn; discriminate.
    + rewrite gracefulTimestampFailure_exact.
      eexists _, _; (split; [reflexivity|]). intros _ _. eexists. reflexivity.
  - eexists _, _; (split; [reflexivity|]). discriminate.
Qed.

(** X25.  The Processing Results of [onDocumentOpened], by case: the
    failure [Unsupported file type] without a detected type; the skipped
    result for an unmarked document; the not-modifiable failure for a
    marked document that cannot be modified; otherwise the completed
    result, or a failure [Could not insert timestamp: ...] that carries
    the insertion.  Hence documentModified holds exactly in the state
    completed, success exactly in the states completed and skipped, and
    failure exactly in the state failed: the states not-started and
    in-progress never come back, and the timestamp-generation failure is
    none of the results. *)
Theorem onDocumentOpened_results (w : World) :
  let d := theDocument w in
  let insertion t :=
    formatTimestamp (handlerFor t) (TimestampService.formatTimestamp (now w)) in
  exists res,
    result (FileMonitor.onDocumentOpened activatedHandlers w) = Returned res /\
    match ContentAnalyzer.getFileType d with
    | None => res = FileMonitor.failed "Unsupported file type"
    | Some t =>
        if negb (ContentAnalyzer.isLogFile d) then res = skipped
        else if negb (mutable d) then res = notModifiable
        else res = completed (insertion t) \/
             exists message,
               res = {| pr_success := false;
                        pr_error := Some ("Could not insert timestamp: " +:+ message);
                        pr_documentModified := false;
                        pr_processingState := FAILED;
                        pr_timestamp := Some (insertion t) |}
    end /\
    (pr_documentModified res = true <-> pr_processingState res = COMPLETED) /\
    (pr_success res = true <->
     pr_processingState res = COMPLETED \/ pr_processingState res = SKIPPED) /\
    (pr_success res = false <-> pr_processingState res = FAILED).
Proof.
  cbn zeta.
  assert (Hshape : exists res,
    result (FileMonitor.onDocumentOpened activatedHandlers w) = Returned res /\
    match ContentAnalyzer.getFileType (theDocument w) with
    | None => res = FileMonitor.failed "Unsupported file type"
    | Some t =>
        if negb (ContentAnalyzer.isLogFile (theDocument w)) then res = skipped
        else if negb (mutable (theDocument w)) then res = notModifiable
        else res = completed
                     (formatTimestamp (handlerFor t)
                        (TimestampService.formatTimestamp (now w))) \/
             exists message,
               res = {| pr_success := false;
                        pr_error := Some ("Could not insert timestamp: " +:+ message);
                        pr_documentModified := false;
                        pr_processingState := FAILED;
                        pr_timestamp :=
                          Some (formatTimestamp (handlerFor t)
                                  (TimestampService.formatTimestamp (now w))) |}
    end).
  { unfold FileMonitor.onDocumentOpened, ContentAnalyzer.analyzeContent.
    munfold. cbn.
    destruct (ContentAnalyzer.getFileType (theDocument w)) as [t|] eqn:Ht; cbn.
    2:{ eexists. split; reflexivity. }
    rewrite shouldProcessDocument_spec, Ht.
    rewrite bool_decide_eq_true_2 by discriminate. rewrite andb_true_r.
    destruct (ContentAnalyzer.isLogFile (theDocument w)) eqn:Hp; cbn.
    2:{ eexists. split; reflexivity. }
    rewrite getCurrentTimestamp_run. cbn.
    rewrite formatTimestamp_not_empty. cbn.
    rewrite activatedHandlers_lookup.
    match goal with
    | |- context [BaseFileHandler.processDocument ?h ?t ?w0] =>
        destruct (processDocument_run h t w0)
          as (res & w1 & E & _ & _ & _ & Hnm & Hok & _);
        destruct (processDocument_failure h t w0) as (res' & w1' & E' & Hko);
        rewrite E in E'; injection E' as <- <-;
        rewrite E; clear E
    end.
    cbn in Hnm, Hko.
    destruct (pr_success res) eqn:Hs; cbn.
    all: exists res; (split; [reflexivity|]).
    all: destruct (mutable (theDocument w)) eqn:Hm; cbn.
    - left. now apply Hok.
    - now destruct (Hnm eq_refl).
    - right. now apply Hko.
    - now destruct (Hnm eq_refl). }
  destruct Hshape as (res & Hr & Hs). exists res. split; [exact Hr|].
  split; [exact Hs|].
  destruct (ContentAnalyzer.getFileType (theDocument w)) as [t|].
  - destruct (negb (ContentAnalyzer.isLogFile (theDocument w)));
      [|destruct (negb (mutable (theDocument w)));
        [|destruct Hs as [Hs|(message & Hs)]]];
      subst res; cbn; intuition discriminate.
  - subst res; cbn; intuition discriminate.
Qed.
